(** * api-python: backend selection, normalisation, availability gate

    A shallow embedding of [src/config.py], [src/db_logger.py], [src/db.py]
    and the request gate of [src/app.py].  Python values are modelled by a
    small value type, module globals by an explicit world that every
    effectful function threads, and raised exceptions by an error result. *)

From Stdlib Require Import ZArith NArith Ascii String List Lia Bool
  DecimalString DecimalPos Sorting.Sorted Sorting.Permutation.
From stdpp Require Import base decidable option list strings gmap.

Local Open Scope string_scope.
Local Open Scope Z_scope.

(** ** Python primitives *)

Module py.

(** [str] objects are modelled as Rocq strings; the characters that the
    model classifies (white space, digits, letters) are the ASCII ones,
    any other byte is an opaque caseless character. *)

(** [str.isspace] on the ASCII range: TAB LF VT FF CR, FS GS RS US, SPACE. *)
Definition isspace (c : ascii) : bool :=
  let n := nat_of_ascii c in
  ((9 <=? n) && (n <=? 13) || (28 <=? n) && (n <=? 32))%nat.

Fixpoint lstrip (s : string) : string :=
  match s with
  | String c s' => if isspace c then lstrip s' else s
  | EmptyString => EmptyString
  end.

Fixpoint rstrip (s : string) : string :=
  match s with
  | String c s' =>
      match rstrip s' with
      | EmptyString => if isspace c then EmptyString else String c EmptyString
      | r => String c r
      end
  | EmptyString => EmptyString
  end.

(** [s.strip()] *)
Definition strip (s : string) : string := rstrip (lstrip s).

Definition upper_char (c : ascii) : ascii :=
  let n := nat_of_ascii c in
  if ((97 <=? n) && (n <=? 122))%nat then ascii_of_nat (n - 32) else c.

(** [s.upper()] *)
Fixpoint upper (s : string) : string :=
  match s with
  | String c s' => String (upper_char c) (upper s')
  | EmptyString => EmptyString
  end.

(** Truthiness of a [str]: the empty string is falsy. *)
Definition str_truthy (s : string) : bool :=
  match s with EmptyString => false | _ => true end.

(** Truthiness of an [Optional[str]]. *)
Definition opt_truthy (o : option string) : bool :=
  match o with Some s => str_truthy s | None => false end.

(** [a or b] on two [Optional[str]] operands. *)
Definition or_else (a b : option string) : option string :=
  if opt_truthy a then a else b.

(** [s or None] *)
Definition or_None (s : string) : option string :=
  if str_truthy s then Some s else None.

(** [o or ""] *)
Definition or_empty (o : option string) : string :=
  match o with Some s => if str_truthy s then s else "" | None => "" end.

Definition is_digit (c : ascii) : bool :=
  let n := nat_of_ascii c in ((48 <=? n) && (n <=? 57))%nat.

Definition digit_val (c : ascii) : Z := Z.of_nat (nat_of_ascii c) - 48.

(** The digit part of an integer literal accepted by [int(str)]: decimal
    digits, single underscores allowed between two digits.  [prev] tells
    whether the previous character was a digit. *)
Fixpoint int_digits (s : string) (prev : bool) (acc : Z) : option Z :=
  match s with
  | EmptyString => if prev then Some acc else None
  | String c s' =>
      if is_digit c then int_digits s' true (10 * acc + digit_val c)
      else if Ascii.eqb c "_" then
        (if prev then int_digits s' false acc else None)
      else None
  end.

(** [int(s)] for a [str] argument, base 10: surrounding white space is
    ignored, one optional sign, then the digits.  [None] stands for the
    [ValueError] that Python raises. *)
Definition int_of_str (s : string) : option Z :=
  match strip s with
  | String "+" d => int_digits d false 0
  | String "-" d => Z.opp <$> int_digits d false 0
  | d => int_digits d false 0
  end.

(** Decimal rendering of a non-negative integer, and [str(n)] / ["%d" % n]. *)
Definition dec_N (n : N) : string := NilEmpty.string_of_uint (N.to_uint n).

Definition str_of_int (z : Z) : string :=
  if z <? 0 then "-" ++ dec_N (Z.to_N (- z)) else dec_N (Z.to_N z).

Fixpoint zeros (k : nat) : string :=
  match k with O => "" | S k' => String "0" (zeros k') end.

(** ["%0<w>d" % n] for a non-negative [n]. *)
Definition pad (w : nat) (n : N) : string :=
  let d := dec_N n in zeros (w - String.length d) ++ d.

(** The double-quote character and the apostrophe, as one-character strings. *)
Definition dq : string := String (ascii_of_nat 34) "".
Definition sq : string := String (ascii_of_nat 39) "".

(** [html.escape(s)] with its default [quote=True]. *)
Definition escape_char (c : ascii) : string :=
  match nat_of_ascii c with
  | 38%nat => "&amp;"
  | 60%nat => "&lt;"
  | 62%nat => "&gt;"
  | 34%nat => "&quot;"
  | 39%nat => "&#x27;"
  | _ => String c ""
  end.

Fixpoint html_escape (s : string) : string :=
  match s with
  | String c s' => escape_char c ++ html_escape s'
  | EmptyString => ""
  end.

Definition hex_digit (upper_case : bool) (n : nat) : ascii :=
  if (n <? 10)%nat then ascii_of_nat (48 + n)
  else ascii_of_nat ((if upper_case then 55 else 87) + n).

Definition hex2 (upper_case : bool) (c : ascii) : string :=
  let n := nat_of_ascii c in
  String (hex_digit upper_case (n / 16)) (String (hex_digit upper_case (n mod 16)) "").

Fixpoint contains_char (c : ascii) (s : string) : bool :=
  match s with
  | String c' s' => Ascii.eqb c c' || contains_char c s'
  | EmptyString => false
  end.

(** [repr(s)] of a [str]: single quotes unless the text holds an apostrophe
    and no double quote; backslash, the quote in use, and control
    characters are escaped. *)
Definition repr_char (quote : ascii) (c : ascii) : string :=
  let n := nat_of_ascii c in
  if Ascii.eqb c quote || (n =? 92)%nat then String (ascii_of_nat 92) (String c "")
  else if (n =? 9)%nat then String (ascii_of_nat 92) "t"
  else if (n =? 10)%nat then String (ascii_of_nat 92) "n"
  else if (n =? 13)%nat then String (ascii_of_nat 92) "r"
  else if (n <? 32)%nat || (n =? 127)%nat then
    String (ascii_of_nat 92) (String "x" (hex2 false c))
  else String c "".

Fixpoint repr_body (quote : ascii) (s : string) : string :=
  match s with
  | String c s' => repr_char quote c ++ repr_body quote s'
  | EmptyString => ""
  end.

Definition repr_str (s : string) : string :=
  let quote :=
    if contains_char (ascii_of_nat 39) s && negb (contains_char (ascii_of_nat 34) s)
    then ascii_of_nat 34 else ascii_of_nat 39 in
  String quote (repr_body quote s ++ String quote "").

Definition repr_opt_str (o : option string) : string :=
  match o with Some s => repr_str s | None => "None" end.

(** [urllib.parse.quote_plus(s)]: letters, digits and [_.-~] are kept, a
    space becomes [+], every other byte is percent-encoded. *)
Definition is_unreserved (c : ascii) : bool :=
  let n := nat_of_ascii c in
  (is_digit c || (65 <=? n) && (n <=? 90) || (97 <=? n) && (n <=? 122)
   || (n =? 95) || (n =? 46) || (n =? 45) || (n =? 126))%nat.

Fixpoint quote_plus (s : string) : string :=
  match s with
  | String c s' =>
      (if is_unreserved c then String c ""
       else if (nat_of_ascii c =? 32)%nat then "+"
       else String "%" (hex2 true c)) ++ quote_plus s'
  | EmptyString => ""
  end.

(** [datetime.datetime]: the calendar fields and, for an aware value, its
    UTC offset in microseconds. *)
Record datetime : Type := mk_datetime {
  year : N; month : N; day : N;
  hour : N; minute : N; second : N; microsecond : N;
  utcoffset : option Z
}.

(** [datetime._format_offset] *)
Definition format_offset (off : option Z) : string :=
  match off with
  | None => ""
  | Some o =>
      let sign := if o <? 0 then "-" else "+" in
      let a := Z.to_N (Z.abs o) in
      let hh := (a / 3600000000)%N in
      let r := (a mod 3600000000)%N in
      let mm := (r / 60000000)%N in
      let ss := (r mod 60000000)%N in
      sign ++ pad 2 hh ++ ":" ++ pad 2 mm ++
      (if (ss =? 0)%N then ""
       else ":" ++ pad 2 (ss / 1000000)%N ++
            (if (ss mod 1000000 =? 0)%N then ""
             else "." ++ pad 6 (ss mod 1000000)%N))
  end.

(** [d.isoformat(sep)] with the default [timespec='auto']. *)
Definition isoformat_sep (sep : string) (d : datetime) : string :=
  pad 4 (year d) ++ "-" ++ pad 2 (month d) ++ "-" ++ pad 2 (day d) ++ sep ++
  pad 2 (hour d) ++ ":" ++ pad 2 (minute d) ++ ":" ++ pad 2 (second d) ++
  (if (microsecond d =? 0)%N then "" else "." ++ pad 6 (microsecond d)) ++
  format_offset (utcoffset d).

Definition isoformat (d : datetime) : string := isoformat_sep "T" d.

(** [s[:-3]] *)
Definition drop_last3 (s : string) : string :=
  String.substring 0 (String.length s - 3) s.

(** [d.strftime("%Y-%m-%dT%H:%M:%S.%f")[:-3] + "Z"], the millisecond
    time stamp used by the log and by [/api/health]. *)
Definition strftime_ms_Z (d : datetime) : string :=
  drop_last3
    (pad 4 (year d) ++ "-" ++ pad 2 (month d) ++ "-" ++ pad 2 (day d) ++ "T" ++
     pad 2 (hour d) ++ ":" ++ pad 2 (minute d) ++ ":" ++ pad 2 (second d) ++
     "." ++ pad 6 (microsecond d)) ++ "Z".

(** The Python values that travel through rows, documents and items;
    [PyObject] is an instance of any other class, known by the name of
    its class, by its [str()], and by whether [json.dumps] with Flask's
    default hook can serialise it (a [Decimal] or a [UUID], yes;
    [bytes] or an [ObjectId], no). *)
Inductive value : Type :=
  | PyNone
  | PyBool (b : bool)
  | PyInt (z : Z)
  | PyStr (s : string)
  | PyDatetime (d : datetime)
  | PyObject (cls s : string) (jsonable : bool).

Definition truthy (v : value) : bool :=
  match v with
  | PyNone => false
  | PyBool b => b
  | PyInt z => negb (z =? 0)
  | PyStr s => str_truthy s
  | PyDatetime _ => true
  | PyObject _ _ _ => true
  end.

(** [a or b] *)
Definition or_ (a b : value) : value := if truthy a then a else b.

(** [hasattr(v, "isoformat")] *)
Definition has_isoformat (v : value) : bool :=
  match v with PyDatetime _ => true | _ => false end.

(** [str(v)] *)
Definition str (v : value) : string :=
  match v with
  | PyNone => "None"
  | PyBool true => "True"
  | PyBool false => "False"
  | PyInt z => str_of_int z
  | PyStr s => s
  | PyDatetime d => isoformat_sep " " d
  | PyObject _ s _ => s
  end.

(** [str(o)] of an [Optional[str]], as an f-string formats it *)
Definition str_opt (o : option string) : string :=
  match o with Some s => s | None => "None" end.

(** [v.isoformat()], for a value that has the method *)
Definition call_isoformat (v : value) : value :=
  match v with PyDatetime d => PyStr (isoformat d) | _ => PyNone end.

(** [v is not None] *)
Definition is_not_None (v : value) : bool :=
  match v with PyNone => false | _ => true end.

(** [dict(pairs)]: a later pair overrides an earlier one with the same key. *)
Definition dict_of_pairs (l : list (string * value)) : gmap string value :=
  fold_left (fun m kv => <[ fst kv := snd kv ]> m) l ∅.

(** [o == s] for an [Optional[str]] and a literal *)
Definition eq_str (o : option string) (s : string) : bool :=
  match o with Some x => String.eqb x s | None => false end.

(** [o in l] for an [Optional[str]] and a list or tuple of literals *)
Definition in_strs (o : option string) (l : list string) : bool :=
  existsb (eq_str o) l.

(** [d.get(k)] on a [dict] with string keys: [None] when the key is absent. *)
Definition dict_get (d : gmap string value) (k : string) : value :=
  default PyNone (d !! k).

End py.

(** ** Exceptions and results *)

(** A raised exception: its class name and its [str(e)].  The exceptions
    modelled are instances of [Exception], which is what [int], the DB-API
    drivers and pymongo raise. *)
Record exn : Type := Exception { exc_class : string; exc_str : string }.

Inductive result (A : Type) : Type :=
  | Ok (a : A)
  | Raise (e : exn).
Arguments Ok {A} a.
Arguments Raise {A} e.

(** [int(s)], raising [ValueError] *)
Definition py_int (s : string) : result Z :=
  match py.int_of_str s with
  | Some z => Ok z
  | None =>
      Raise (Exception "ValueError"
               ("invalid literal for int() with base 10: " ++ py.repr_str s))
  end.

(** ** [src/config.py] *)

Module config.

Record t : Type := mk {
  PORT : Z;
  DB_TYPE : option string;
  DB_HOST : option string;
  DB_PORT : option string;
  DB_NAME : option string;
  DB_USER : option string;
  DB_PASSWORD : option string
}.

(** The module body, run once at import over [os.environ]. *)
Definition load (environ : gmap string string) : result t :=
  match py_int (py.or_empty
                  (py.or_else (environ !! "WAS_PORT")
                     (py.or_else (environ !! "WEB_PORT")
                        (py.or_else (environ !! "PORT") (Some "81"))))) with
  | Raise e => Raise e
  | Ok port =>
      Ok {| PORT := port;
            DB_TYPE := py.or_None (py.upper (py.strip (py.or_empty (environ !! "DB_TYPE"))));
            DB_HOST := environ !! "DB_HOST";
            DB_PORT := environ !! "DB_PORT";
            DB_NAME := environ !! "DB_NAME";
            DB_USER := environ !! "DB_USER";
            DB_PASSWORD := environ !! "DB_PASSWORD" |}
  end.

End config.

(** ** The world: module globals and the outside *)

(** An entry of [db_logger._logs]. *)
Record LogEntry : Type := mk_entry {
  time : string;
  msg : string;
  isError : bool
}.

(** The SQL statements the relational adapters execute. *)
Inductive sql : Type :=
  | SELECT_1
  | SELECT_tables (schema : option string)
  | CREATE_TABLE_IF_NOT_EXISTS_items
  | SELECT_items_ORDER_BY_id
  | SELECT_item_WHERE_id (id : py.value)
  | INSERT_item_RETURNING (name : py.value)
  | INSERT_item (name : py.value).

(** A document of the Mongo [items] collection: the fields the adapter
    writes, with an integer [id]. *)
Record mongo_doc : Type := mk_doc {
  d_id : Z;
  d_name : py.value;
  d_createdAt : py.value
}.

(** Calls into psycopg2, pymysql and pymongo. *)
Inductive driver_call : Type :=
  | pg_SimpleConnectionPool (minconn maxconn : Z) (host : option string) (port : Z)
      (database user password : option string)
  | pg_getconn
  | pg_putconn
  | mysql_connect (host : option string) (port : Z)
      (database user password : option string)
  | mysql_close
  | sql_cursor
  | sql_cursor_close
  | sql_execute (q : sql)
  | sql_commit
  | mongo_MongoClient (url : string)
  | mongo_get_database (name : option string)
  | mongo_command (c : string)
  | mongo_list_collection_names
  | mongo_find_sort_id
  | mongo_find_one_by_id (id : Z)
  | mongo_find_one_sort_id_desc
  | mongo_insert_one (doc : mongo_doc).

Record World : Type := mk_world {
  (** [config_module], immutable after import *)
  config_module : config.t;
  (** [db_logger._logs] *)
  _logs : list LogEntry;
  (** auxiliary: every entry ever appended to [_logs], oldest first *)
  log_history : list LogEntry;
  (** lines printed on standard output *)
  stdout : list string;
  (** [db._pg_pool is not None], [db._mongo_client is not None],
      [db._mongo_db is not None], [db._ping_ok_logged] *)
  _pg_pool : bool;
  _mongo_client : bool;
  _mongo_db : bool;
  _ping_ok_logged : bool;
  (** successive readings of the system clock, and how many were taken *)
  clock : nat -> py.datetime;
  ticks : nat;
  (** driver calls made so far, oldest first *)
  calls : list driver_call;
  (** what the [n]-th driver call raises, if it raises *)
  faults : nat -> driver_call -> option exn;
  (** what the relational server answers to the [n]-th call: the result
      set of a query, the [lastrowid] of an insert *)
  sql_rows : nat -> list (list py.value);
  sql_lastrowid : nat -> py.value;
  (** the document store: collection names and the [items] collection *)
  mongo_collections : list string;
  mongo_items : list mongo_doc
}.

Definition set_logs (l h : list LogEntry) (w : World) : World :=
  mk_world (config_module w) l h (stdout w) (_pg_pool w) (_mongo_client w) (_mongo_db w)
    (_ping_ok_logged w) (clock w) (ticks w) (calls w) (faults w) (sql_rows w)
    (sql_lastrowid w) (mongo_collections w) (mongo_items w).

Definition set_stdout (o : list string) (w : World) : World :=
  mk_world (config_module w) (_logs w) (log_history w) o (_pg_pool w) (_mongo_client w) (_mongo_db w)
    (_ping_ok_logged w) (clock w) (ticks w) (calls w) (faults w) (sql_rows w)
    (sql_lastrowid w) (mongo_collections w) (mongo_items w).

Definition set_pg_pool (b : bool) (w : World) : World :=
  mk_world (config_module w) (_logs w) (log_history w) (stdout w) b (_mongo_client w) (_mongo_db w)
    (_ping_ok_logged w) (clock w) (ticks w) (calls w) (faults w) (sql_rows w)
    (sql_lastrowid w) (mongo_collections w) (mongo_items w).

Definition set_mongo_client (b : bool) (w : World) : World :=
  mk_world (config_module w) (_logs w) (log_history w) (stdout w) (_pg_pool w) b
    (_mongo_db w) (_ping_ok_logged w) (clock w) (ticks w) (calls w) (faults w)
    (sql_rows w) (sql_lastrowid w) (mongo_collections w) (mongo_items w).

Definition set_mongo_db (b : bool) (w : World) : World :=
  mk_world (config_module w) (_logs w) (log_history w) (stdout w) (_pg_pool w) (_mongo_client w) b
    (_ping_ok_logged w) (clock w) (ticks w) (calls w) (faults w) (sql_rows w)
    (sql_lastrowid w) (mongo_collections w) (mongo_items w).

Definition set_ping_ok_logged (b : bool) (w : World) : World :=
  mk_world (config_module w) (_logs w) (log_history w) (stdout w) (_pg_pool w)
    (_mongo_client w) (_mongo_db w) b (clock w) (ticks w) (calls w) (faults w) (sql_rows w)
    (sql_lastrowid w) (mongo_collections w) (mongo_items w).

Definition set_ticks (n : nat) (w : World) : World :=
  mk_world (config_module w) (_logs w) (log_history w) (stdout w) (_pg_pool w)
    (_mongo_client w) (_mongo_db w) (_ping_ok_logged w) (clock w) n (calls w) (faults w) (sql_rows w)
    (sql_lastrowid w) (mongo_collections w) (mongo_items w).

Definition set_calls (c : list driver_call) (w : World) : World :=
  mk_world (config_module w) (_logs w) (log_history w) (stdout w) (_pg_pool w)
    (_mongo_client w) (_mongo_db w) (_ping_ok_logged w) (clock w) (ticks w) c (faults w) (sql_rows w)
    (sql_lastrowid w) (mongo_collections w) (mongo_items w).

Definition set_mongo_items (l : list mongo_doc) (w : World) : World :=
  mk_world (config_module w) (_logs w) (log_history w) (stdout w) (_pg_pool w)
    (_mongo_client w) (_mongo_db w) (_ping_ok_logged w) (clock w) (ticks w) (calls w) (faults w)
    (sql_rows w) (sql_lastrowid w) (mongo_collections w) l.

(** ** The monad of effectful Python code: state and exceptions *)

Definition M (A : Type) : Type := World -> result A * World.

Definition ret {A} (a : A) : M A := fun w => (Ok a, w).

Definition bind {A B} (m : M A) (k : A -> M B) : M B :=
  fun w => match m w with
           | (Ok a, w') => k a w'
           | (Raise e, w') => (Raise e, w')
           end.

Definition raise {A} (e : exn) : M A := fun w => (Raise e, w).

Definition lift {A} (r : result A) : M A := fun w => (r, w).

Definition get {A} (f : World -> A) : M A := fun w => (Ok (f w), w).

Definition modify (f : World -> World) : M unit := fun w => (Ok tt, f w).

Declare Scope py_scope.
Delimit Scope py_scope with py.
Notation "x <- m ;; k" := (bind m (fun x => k))
  (at level 100, m at next level, right associativity) : py_scope.
Notation "m ;; k" := (bind m (fun _ => k))
  (at level 100, right associativity) : py_scope.
Local Open Scope py_scope.

(** [try: body  except Exception as e: handler(e)] *)
Definition try_except {A} (body : M A) (handler : exn -> M A) : M A :=
  fun w => match body w with
           | (Ok a, w') => (Ok a, w')
           | (Raise e, w') => handler e w'
           end.

(** [try: body  finally: cleanup]: the clean-up runs on every exit; an
    exception it raises replaces the outcome of the body. *)
Definition try_finally {A} (body : M A) (cleanup : M unit) : M A :=
  fun w => match body w with
           | (r, w') =>
               match cleanup w' with
               | (Ok _, w'') => (r, w'')
               | (Raise e, w'') => (Raise e, w'')
               end
           end.

(** One call into a driver: it is recorded, and raises what the
    environment decides. *)
Definition driver (c : driver_call) : M nat :=
  fun w =>
    let n := length (calls w) in
    let w' := set_calls (calls w ++ [c]) w in
    match faults w n c with
    | Some e => (Raise e, w')
    | None => (Ok n, w')
    end.

(** [datetime.utcnow()] *)
Definition utcnow : M py.datetime :=
  fun w => (Ok (clock w (ticks w)), set_ticks (S (ticks w)) w).

(** [print(a, b)] *)
Definition print (line : string) : M unit :=
  modify (fun w => set_stdout (stdout w ++ [line]) w).

(** ** [src/db_logger.py] *)

Module db_logger.

Definition MAX_LOGS : nat := 100.

(** [_logs.append(entry)] followed by the trim
    [if len(_logs) > MAX_LOGS: del _logs[: len(_logs) - MAX_LOGS]] *)
Definition append_trim (entry : LogEntry) (logs : list LogEntry) : list LogEntry :=
  let l := (logs ++ [entry])%list in
  if (MAX_LOGS <? length l)%nat then drop (length l - MAX_LOGS) l else l.

Definition add_log (m : string) (is_error : bool) : M unit :=
  now <- utcnow ;;
  let entry := {| time := py.strftime_ms_Z now; msg := m; isError := is_error |} in
  modify (fun w => set_logs (append_trim entry (_logs w)) (log_history w ++ [entry]) w) ;;
  if is_error then print ("[DB] " ++ m) else print ("[DB] " ++ m).

Definition get_logs : M (list LogEntry) := get _logs.

End db_logger.

(** ** [src/db.py] *)

Module db.

Definition DB_TYPES : list string := ["POSTGRESQL"; "MYSQL"; "MARIADB"; "MONGODB"].

Definition PORT_TO_TYPE : gmap Z string :=
  {[ 5432 := "POSTGRESQL"; 3306 := "MYSQL"; 27017 := "MONGODB" ]}.

(** [get_db_type()], a function of [config_module] alone.  The [try]
    around [int(...)] turns its [ValueError] into the result [None]. *)
Definition get_db_type (c : config.t) : option string :=
  let explicit := py.or_None (py.upper (py.strip (py.or_empty (config.DB_TYPE c)))) in
  if py.opt_truthy explicit && py.in_strs explicit DB_TYPES then explicit
  else if py.opt_truthy (config.DB_PORT c) then
    match py.int_of_str (py.or_empty (config.DB_PORT c)) with
    | None => None
    | Some port => PORT_TO_TYPE !! port
    end
  else None.

Definition is_configured (c : config.t) : bool :=
  let t := get_db_type c in
  if negb (py.opt_truthy t) then false
  else py.opt_truthy (config.DB_HOST c) && py.opt_truthy (config.DB_NAME c).

Definition _item_from_row (r : gmap string py.value) : gmap string py.value :=
  let created := py.or_ (py.dict_get r "created_at") (py.dict_get r "createdAt") in
  let created_str :=
    if py.has_isoformat created then py.call_isoformat created
    else if py.is_not_None created then py.PyStr (py.str created)
    else py.PyNone in
  py.dict_of_pairs
    [("id", py.dict_get r "id"); ("name", py.dict_get r "name"); ("createdAt", created_str)].

(** [int(c.DB_PORT) if c.DB_PORT else default] *)
Definition port_or (c : config.t) (default : Z) : M Z :=
  if py.opt_truthy (config.DB_PORT c) then lift (py_int (py.or_empty (config.DB_PORT c)))
  else ret default.

(** [with conn.cursor() as cur: body]; the cursor is closed on exit. *)
Definition with_cursor {A} (body : M A) : M A :=
  driver sql_cursor ;;
  try_finally body (driver sql_cursor_close ;; ret tt).

(** [[r[0] for r in rows]] *)
Fixpoint first_column (rows : list (list py.value)) : M (list py.value) :=
  match rows with
  | [] => ret []
  | [] :: _ => raise (Exception "IndexError" "tuple index out of range")
  | (x :: _) :: rows' => xs <- first_column rows' ;; ret (x :: xs)
  end.

(** [cols = [d[0] for d in cur.description]] for the three [SELECT]s on [items] *)
Definition cols : list string := ["id"; "name"; "created_at"].

(** [dict(zip(cols, row))] for the row of [cur.fetchone()] *)
Definition zip_row (row : option (list py.value)) : M (gmap string py.value) :=
  match row with
  | Some r => ret (py.dict_of_pairs (zip cols r))
  | None => raise (Exception "TypeError" "'NoneType' object is not iterable")
  end.

(** [if not row: return None] followed by the conversion of the row *)
Definition row_to_item (row : option (list py.value)) : M (option (gmap string py.value)) :=
  match row with
  | None | Some [] => ret None
  | Some _ => d <- zip_row row ;; ret (Some (_item_from_row d))
  end.

(** The result of [get_tables]: [{"tables": names}] or [{"error": msg}]. *)
Inductive tables_result : Type :=
  | Tables (names : list py.value)
  | Error (msg : string).

(** *** PostgreSQL *)

Definition _get_pg_pool : M unit :=
  p <- get _pg_pool ;;
  if p then ret tt else
  c <- get config_module ;;
  port <- port_or c 5432 ;;
  db_logger.add_log
    ("Connecting to PostgreSQL {" ++
     py.sq ++ "host" ++ py.sq ++ ": " ++ py.repr_opt_str (config.DB_HOST c) ++ ", " ++
     py.sq ++ "port" ++ py.sq ++ ": " ++ py.str_of_int port ++ ", " ++
     py.sq ++ "database" ++ py.sq ++ ": " ++ py.repr_opt_str (config.DB_NAME c) ++ ", " ++
     py.sq ++ "user" ++ py.sq ++ ": " ++ py.repr_opt_str (config.DB_USER c) ++ "}") false ;;
  driver (pg_SimpleConnectionPool 1 10 (config.DB_HOST c) port (config.DB_NAME c)
            (config.DB_USER c) (config.DB_PASSWORD c)) ;;
  modify (set_pg_pool true).

(** [conn = pool.getconn()  try: body  finally: pool.putconn(conn)] *)
Definition with_pg_conn {A} (body : M A) : M A :=
  _get_pg_pool ;;
  driver pg_getconn ;;
  try_finally body (driver pg_putconn ;; ret tt).

Definition _pg_get_tables : M tables_result :=
  with_pg_conn
    (rows <- with_cursor (n <- driver (sql_execute (SELECT_tables None)) ;;
                          get (fun w => sql_rows w n)) ;;
     names <- first_column rows ;;
     ret (Tables names)).

Definition _pg_ensure_items : M unit :=
  with_pg_conn
    (with_cursor (driver (sql_execute CREATE_TABLE_IF_NOT_EXISTS_items) ;; ret tt) ;;
     driver sql_commit ;; ret tt).

Definition _pg_get_items : M (list (gmap string py.value)) :=
  _pg_ensure_items ;;
  with_pg_conn
    (rows <- with_cursor (n <- driver (sql_execute SELECT_items_ORDER_BY_id) ;;
                          rs <- get (fun w => sql_rows w n) ;;
                          ret (map (fun r => py.dict_of_pairs (zip cols r)) rs)) ;;
     ret (map _item_from_row rows)).

Definition _pg_get_item_by_id (id : Z) : M (option (gmap string py.value)) :=
  _pg_ensure_items ;;
  with_pg_conn
    (row <- with_cursor (n <- driver (sql_execute (SELECT_item_WHERE_id (py.PyInt id))) ;;
                         get (fun w => head (sql_rows w n))) ;;
     row_to_item row).

Definition _pg_create_item (name : py.value) : M (gmap string py.value) :=
  _pg_ensure_items ;;
  with_pg_conn
    (row <- with_cursor (n <- driver (sql_execute (INSERT_item_RETURNING name)) ;;
                         get (fun w => head (sql_rows w n))) ;;
     driver sql_commit ;;
     d <- zip_row row ;;
     ret (_item_from_row d)).

(** *** MySQL / MariaDB *)

Definition _mysql_get_connection : M unit :=
  c <- get config_module ;;
  port <- port_or c 3306 ;;
  driver (mysql_connect (config.DB_HOST c) port (config.DB_NAME c)
            (config.DB_USER c) (config.DB_PASSWORD c)) ;;
  ret tt.

(** [conn = _mysql_get_connection()  try: body  finally: conn.close()] *)
Definition with_mysql_conn {A} (body : M A) : M A :=
  _mysql_get_connection ;;
  try_finally body (driver mysql_close ;; ret tt).

Definition _mysql_get_tables : M tables_result :=
  with_mysql_conn
    (c <- get config_module ;;
     rows <- with_cursor (n <- driver (sql_execute (SELECT_tables (config.DB_NAME c))) ;;
                          get (fun w => sql_rows w n)) ;;
     names <- first_column rows ;;
     ret (Tables names)).

Definition _mysql_ensure_items : M unit :=
  with_mysql_conn
    (with_cursor (driver (sql_execute CREATE_TABLE_IF_NOT_EXISTS_items) ;; ret tt) ;;
     driver sql_commit ;; ret tt).

Definition _mysql_get_items : M (list (gmap string py.value)) :=
  _mysql_ensure_items ;;
  with_mysql_conn
    (rows <- with_cursor (n <- driver (sql_execute SELECT_items_ORDER_BY_id) ;;
                          rs <- get (fun w => sql_rows w n) ;;
                          ret (map (fun r => py.dict_of_pairs (zip cols r)) rs)) ;;
     ret (map _item_from_row rows)).

Definition _mysql_get_item_by_id (id : Z) : M (option (gmap string py.value)) :=
  _mysql_ensure_items ;;
  with_mysql_conn
    (row <- with_cursor (n <- driver (sql_execute (SELECT_item_WHERE_id (py.PyInt id))) ;;
                         get (fun w => head (sql_rows w n))) ;;
     row_to_item row).

Definition _mysql_create_item (name : py.value) : M (gmap string py.value) :=
  _mysql_ensure_items ;;
  with_mysql_conn
    (insert_id <- with_cursor (n <- driver (sql_execute (INSERT_item name)) ;;
                               get (fun w => sql_lastrowid w n)) ;;
     driver sql_commit ;;
     row <- with_cursor (n <- driver (sql_execute (SELECT_item_WHERE_id insert_id)) ;;
                         get (fun w => head (sql_rows w n))) ;;
     d <- zip_row row ;;
     ret (_item_from_row d)).

(** *** MongoDB *)

(** The document store.  A query with [sort("id", 1)] returns the
    documents in ascending order of [id]; [find_one(sort=[("id", -1)])]
    returns a document of greatest [id]; a [datetime] is stored with
    millisecond precision. *)
Fixpoint insert_by_id (d : mongo_doc) (l : list mongo_doc) : list mongo_doc :=
  match l with
  | [] => [d]
  | x :: l' => if d_id d <=? d_id x then d :: l else x :: insert_by_id d l'
  end.

Definition sort_by_id (l : list mongo_doc) : list mongo_doc :=
  fold_right insert_by_id [] l.

Fixpoint greatest_by_id (l : list mongo_doc) : option mongo_doc :=
  match l with
  | [] => None
  | d :: l' =>
      match greatest_by_id l' with
      | Some m => if d_id d <? d_id m then Some m else Some d
      | None => Some d
      end
  end.

Definition bson_value (v : py.value) : py.value :=
  match v with
  | py.PyDatetime d =>
      py.PyDatetime
        (py.mk_datetime (py.year d) (py.month d) (py.day d) (py.hour d)
           (py.minute d) (py.second d) (py.microsecond d / 1000 * 1000)%N
           (py.utcoffset d))
  | _ => v
  end.

Definition stored (d : mongo_doc) : mongo_doc :=
  mk_doc (d_id d) (bson_value (d_name d)) (bson_value (d_createdAt d)).

(** The [dict] pymongo hands to Python for a document. *)
Definition doc_dict (d : mongo_doc) : gmap string py.value :=
  py.dict_of_pairs
    [("_id", py.PyObject "ObjectId" "ObjectId" false); ("id", py.PyInt (d_id d));
     ("name", d_name d); ("createdAt", d_createdAt d)].

Definition _get_mongo_db : M unit :=
  p <- get _mongo_db ;;
  if p then ret tt else
  c <- get config_module ;;
  port <- port_or c 27017 ;;
  let auth :=
    if py.opt_truthy (config.DB_USER c) && py.opt_truthy (config.DB_PASSWORD c)
    then py.quote_plus (py.or_empty (config.DB_USER c)) ++ ":" ++
         py.quote_plus (py.or_empty (config.DB_PASSWORD c)) ++ "@"
    else "" in
  db_logger.add_log
    ("Connecting to MongoDB {" ++
     py.sq ++ "host" ++ py.sq ++ ": " ++ py.repr_opt_str (config.DB_HOST c) ++ ", " ++
     py.sq ++ "port" ++ py.sq ++ ": " ++ py.str_of_int port ++ ", " ++
     py.sq ++ "database" ++ py.sq ++ ": " ++ py.repr_opt_str (config.DB_NAME c) ++ ", " ++
     py.sq ++ "user" ++ py.sq ++ ": " ++
     py.repr_str (if py.opt_truthy (config.DB_USER c) then "(set)" else "(none)") ++ "}")
    false ;;
  let url := "mongodb://" ++ auth ++ py.str_opt (config.DB_HOST c) ++ ":" ++
             py.str_of_int port ++ "/" ++ py.str_opt (config.DB_NAME c) in
  driver (mongo_MongoClient url) ;;
  modify (set_mongo_client true) ;;
  driver (mongo_get_database (config.DB_NAME c)) ;;
  modify (set_mongo_db true).

Definition _mongo_get_tables : M tables_result :=
  _get_mongo_db ;;
  driver mongo_list_collection_names ;;
  names <- get mongo_collections ;;
  ret (Tables (map py.PyStr names)).

Definition _mongo_doc_to_item (doc : gmap string py.value) : gmap string py.value :=
  let created := py.dict_get doc "createdAt" in
  let created_str :=
    if py.has_isoformat created then py.call_isoformat created
    else if py.is_not_None created then py.PyStr (py.str created)
    else py.PyNone in
  py.dict_of_pairs
    [("id", py.dict_get doc "id"); ("name", py.dict_get doc "name");
     ("createdAt", created_str)].

Definition _mongo_get_items : M (list (gmap string py.value)) :=
  _get_mongo_db ;;
  driver mongo_find_sort_id ;;
  list_ <- get (fun w => map doc_dict (sort_by_id (mongo_items w))) ;;
  ret (map _mongo_doc_to_item list_).

(** [id] arrives as an [int], so [int(id)] is [id]. *)
Definition _mongo_get_item_by_id (id : Z) : M (option (gmap string py.value)) :=
  let num_id := id in
  _get_mongo_db ;;
  driver (mongo_find_one_by_id num_id) ;;
  doc <- get (fun w => head (filter (fun d => d_id d = num_id) (mongo_items w))) ;;
  match doc with
  | None => ret None
  | Some d => ret (Some (_mongo_doc_to_item (doc_dict d)))
  end.

Definition _mongo_create_item (name : py.value) : M (gmap string py.value) :=
  _get_mongo_db ;;
  driver mongo_find_one_sort_id_desc ;;
  last <- get (fun w => greatest_by_id (mongo_items w)) ;;
  let next_id := match last with Some d => d_id d + 1 | None => 1 end in
  now <- utcnow ;;
  let doc := mk_doc next_id name (py.PyDatetime now) in
  driver (mongo_insert_one doc) ;;
  modify (fun w => set_mongo_items (mongo_items w ++ [stored doc]) w) ;;
  ret (_mongo_doc_to_item (doc_dict doc)).

(** *** Ping *)

(** [if not _ping_ok_logged: db_logger.add_log(m); _ping_ok_logged = True] *)
Definition log_ping_ok_once (m : string) : M unit :=
  logged <- get _ping_ok_logged ;;
  if negb logged then
    db_logger.add_log m false ;;
    modify (set_ping_ok_logged true)
  else ret tt.

(** The body of the [try] block of [ping], for the resolved type [t]. *)
Definition ping_try (t : option string) : M bool :=
  if py.eq_str t "POSTGRESQL" then
    with_pg_conn (with_cursor (driver (sql_execute SELECT_1) ;; ret tt)) ;;
    log_ping_ok_once "Ping OK (PostgreSQL)" ;;
    ret true
  else if py.in_strs t ["MYSQL"; "MARIADB"] then
    with_mysql_conn (with_cursor (driver (sql_execute SELECT_1) ;; ret tt)) ;;
    log_ping_ok_once "Ping OK (MySQL/MariaDB)" ;;
    ret true
  else if py.eq_str t "MONGODB" then
    _get_mongo_db ;;
    driver (mongo_command "ping") ;;
    log_ping_ok_once "Ping OK (MongoDB)" ;;
    ret true
  else ret false.

Definition ping : M bool :=
  c <- get config_module ;;
  if negb (is_configured c) then ret false else
  let t := get_db_type c in
  try_except (ping_try t)
    (fun e => db_logger.add_log ("Ping failed: " ++ exc_str e) true ;; ret false).

(** *** Public API *)

Definition get_tables : M tables_result :=
  c <- get config_module ;;
  if negb (is_configured c) then
    ret (Error "DB가 설정되지 않았습니다. DB_TYPE, DB_HOST, DB_NAME 등 환경 변수를 확인하세요.")
  else
  let t := get_db_type c in
  try_except
    (if py.eq_str t "POSTGRESQL" then _pg_get_tables
     else if py.in_strs t ["MYSQL"; "MARIADB"] then _mysql_get_tables
     else if py.eq_str t "MONGODB" then _mongo_get_tables
     else ret (Error "지원하지 않는 DB_TYPE입니다. POSTGRESQL, MYSQL, MARIADB, MONGODB 중 하나를 사용하세요."))
    (fun e => ret (Error (exc_str e))).

Definition get_items : M (option (list (gmap string py.value))) :=
  c <- get config_module ;;
  if negb (is_configured c) then ret None else
  let t := get_db_type c in
  if py.eq_str t "POSTGRESQL" then l <- _pg_get_items ;; ret (Some l)
  else if py.in_strs t ["MYSQL"; "MARIADB"] then l <- _mysql_get_items ;; ret (Some l)
  else if py.eq_str t "MONGODB" then l <- _mongo_get_items ;; ret (Some l)
  else ret None.

Definition get_item_by_id (id : Z) : M (option (gmap string py.value)) :=
  c <- get config_module ;;
  if negb (is_configured c) then ret None else
  let t := get_db_type c in
  if py.eq_str t "POSTGRESQL" then _pg_get_item_by_id id
  else if py.in_strs t ["MYSQL"; "MARIADB"] then _mysql_get_item_by_id id
  else if py.eq_str t "MONGODB" then _mongo_get_item_by_id id
  else ret None.

Definition create_item (name : py.value) : M (option (gmap string py.value)) :=
  c <- get config_module ;;
  if negb (is_configured c) then ret None else
  let t := get_db_type c in
  if py.eq_str t "POSTGRESQL" then i <- _pg_create_item name ;; ret (Some i)
  else if py.in_strs t ["MYSQL"; "MARIADB"] then i <- _mysql_create_item name ;; ret (Some i)
  else if py.eq_str t "MONGODB" then i <- _mongo_create_item name ;; ret (Some i)
  else ret None.

End db.

(** ** [src/app.py]: the liveness probes and the availability gate *)

Module app.

Record Request : Type := mk_request {
  method : string;
  path : string
}.

(** A [flask.Response]; [status] defaults to 200. *)
Record Response : Type := mk_response {
  body : string;
  status : Z;
  mimetype : string;
  headers : list (string * string)
}.

Definition nl : string := String (ascii_of_nat 10) "".

(** [str(v) if (v is not None and v != "") else "(미설정)"] *)
Definition display (v : option string) : string :=
  match v with
  | Some s => if py.str_truthy s then s else "(미설정)"
  | None => "(미설정)"
  end.

Definition get_db_env_for_display (c : config.t) : list (string * string) :=
  [("PORT", py.str_of_int (config.PORT c));
   ("DB_TYPE", display (config.DB_TYPE c));
   ("DB_HOST", display (config.DB_HOST c));
   ("DB_PORT", display (config.DB_PORT c));
   ("DB_NAME", display (config.DB_NAME c));
   ("DB_USER", display (config.DB_USER c));
   ("DB_PASSWORD",
    match config.DB_PASSWORD c with
    | Some s => if (0 <? String.length s)%nat then "********" else "(미설정)"
    | None => "(미설정)"
    end)].

Definition escape_html (s : string) : string := py.html_escape s.

(** ["sep".join(l)] *)
Fixpoint join (sep : string) (l : list string) : string :=
  match l with
  | [] => ""
  | [x] => x
  | x :: l' => x ++ sep ++ join sep l'
  end.

Definition env_row (kv : string * string) : string :=
  "<tr><th style=" ++ py.dq ++
  "text-align:left;padding:0.4rem 0.6rem;border-bottom:1px solid #eee;" ++ py.dq ++
  ">" ++ escape_html (fst kv) ++ "</th>" ++
  "<td style=" ++ py.dq ++
  "padding:0.4rem 0.6rem;border-bottom:1px solid #eee;word-break:break-all;" ++ py.dq ++
  ">" ++ escape_html (snd kv) ++ "</td></tr>".

Definition log_line (e : LogEntry) : string :=
  "[" ++ time e ++ "] " ++ (if isError e then "ERROR: " else "") ++ escape_html (msg e).

Definition get_access_denied_html : M string :=
  c <- get config_module ;;
  let env := get_db_env_for_display c in
  let rows := join "" (map env_row env) in
  let table :=
    "<table style=" ++ py.dq ++
    "width:100%;max-width:400px;margin:1rem auto;font-size:0.9rem;border-collapse:collapse;" ++
    py.dq ++ ">" ++ rows ++ "</table>" in
  log_entries <- db_logger.get_logs ;;
  let log_lines :=
    match log_entries with
    | [] => "(아직 로그 없음)"
    | _ => join nl (map log_line log_entries)
    end in
  let log_block :=
    "<pre style=" ++ py.dq ++
    "text-align:left;background:#1a1a2e;color:#e2e8f0;padding:1rem;border-radius:6px;font-size:0.8rem;overflow:auto;max-height:200px;" ++
    py.dq ++ ">" ++ escape_html log_lines ++ "</pre>" in
  ret ("<!DOCTYPE html>" ++ nl ++
       "<html lang=" ++ py.dq ++ "ko" ++ py.dq ++ ">" ++ nl ++
       "<head><meta charset=" ++ py.dq ++ "UTF-8" ++ py.dq ++
       "><title>접속 불가</title></head>" ++ nl ++
       "<body style=" ++ py.dq ++
       "font-family:sans-serif;max-width:560px;margin:3rem auto;padding:2rem;text-align:center;" ++
       py.dq ++ ">" ++ nl ++
       "  <h1 style=" ++ py.dq ++ "color:#dc2626;" ++ py.dq ++ ">접속 불가</h1>" ++ nl ++
       "  <p>DB가 설정되지 않았거나 연결되지 않아 서비스를 이용할 수 없습니다.</p>" ++ nl ++
       "  <p style=" ++ py.dq ++ "color:#64748b;font-size:0.9rem;" ++ py.dq ++
       ">DB_TYPE, DB_HOST, DB_NAME 등 환경 변수를 설정하고 DB 서버가 동작 중인지 확인하세요. (변수·메모리 DB는 사용하지 않습니다.)</p>" ++ nl ++
       "  <p style=" ++ py.dq ++ "margin-top:1.5rem;font-size:0.9rem;color:#333;" ++ py.dq ++
       ">현재 설정된 환경 변수</p>" ++ nl ++
       "  " ++ table ++ nl ++
       "  <p style=" ++ py.dq ++ "margin-top:1.5rem;font-size:0.9rem;color:#333;" ++ py.dq ++
       ">연결 과정 / 디버그 로그</p>" ++ nl ++
       "  " ++ log_block ++ nl ++
       "</body>" ++ nl ++
       "</html>").

(** [@app.route("/ok", methods=["GET"])] *)
Definition ok : M Response :=
  ret {| body := "OK"; status := 200; mimetype := "text/plain"; headers := [] |}.

(** [@app.route("/gateway-timeout", methods=["GET"])] *)
Definition gateway_timeout : M Response :=
  ret {| body := "Gateway Timeout"; status := 504; mimetype := "text/plain";
         headers := [] |}.

(** The response both denial branches of the gate build. *)
Definition access_denied_response : M Response :=
  html <- get_access_denied_html ;;
  ret {| body := html; status := 200; mimetype := "text/html; charset=utf-8";
         headers := [("X-Service-Status", "unavailable")] |}.

(** [@app.before_request]: [None] lets the request through to its view. *)
Definition check_db_before_request (request : Request) : M (option Response) :=
  if py.in_strs (Some (path request)) ["/ok"; "/gateway-timeout"] then ret None else
  c <- get config_module ;;
  if negb (db.is_configured c) then
    db_logger.add_log
      "Access denied: DB not configured (DB_TYPE/DB_HOST/DB_NAME or DB_PORT for inference)"
      false ;;
    r <- access_denied_response ;;
    ret (Some r)
  else
  alive <- db.ping ;;
  if negb alive then
    db_logger.add_log "Access denied: DB ping failed" false ;;
    r <- access_denied_response ;;
    ret (Some r)
  else ret None.

Section dispatch.

(** The views of every other URL rule (the [/api] blueprint, the static
    files, [/], [/sample]) together with Flask's own answers for
    requests that match no rule or no allowed method. *)
Variable view_functions : Request -> M Response.

(** [Flask.dispatch_request] over the two rules declared before the gate *)
Definition dispatch_request (request : Request) : M Response :=
  if String.eqb (method request) "GET" && String.eqb (path request) "/ok" then ok
  else if String.eqb (method request) "GET"
          && String.eqb (path request) "/gateway-timeout" then gateway_timeout
  else view_functions request.

(** [Flask.full_dispatch_request]: a value returned by a
    [before_request] function is the response, and the view is not
    called. *)
Definition full_dispatch_request (request : Request) : M Response :=
  rv <- check_db_before_request request ;;
  match rv with
  | Some r => ret r
  | None => dispatch_request request
  end.

End dispatch.

(** [main()] up to [app.run]: the start-up entry of the log. *)
Definition main : M unit :=
  c <- get config_module ;;
  let db_type := db.get_db_type c in
  let configured := db.is_configured c in
  db_logger.add_log
    ("Config check: dbType=" ++ py.str_opt (py.or_else db_type (Some "(none)")) ++
     ", configured=" ++ (if configured then "True" else "False")) false.

End app.

(** ** [src/routes.py]: the [/api] blueprint *)

Module routes.

(** What [request.get_json(silent=True)] yields: [None] when the body is
    absent, is not JSON, or is the JSON [null]; otherwise the parsed
    document, an object, an array or a scalar.  The fields of an object
    are the scalar values of [py.value]. *)
Inductive json_body : Type :=
  | no_json
  | json_object (d : gmap string py.value)
  | json_array (items : list py.value)
  | json_scalar (v : py.value).

(** [type(v).__name__], as an [AttributeError] message prints it *)
Definition type_name (v : py.value) : string :=
  match v with
  | py.PyNone => "NoneType"
  | py.PyBool _ => "bool"
  | py.PyInt _ => "int"
  | py.PyStr _ => "str"
  | py.PyDatetime _ => "datetime.datetime"
  | py.PyObject cls _ _ => cls
  end.

Definition no_attribute_get (ty : string) : exn :=
  Exception "AttributeError"
    (py.sq ++ ty ++ py.sq ++ " object has no attribute " ++ py.sq ++ "get" ++ py.sq).

(** [data = request.get_json(silent=True) or {}] followed by
    [name = data.get("name")]: a falsy document is replaced by the
    empty [dict]; a truthy one that is no [dict] has no [get]. *)
Definition data_get_name (b : json_body) : result py.value :=
  match b with
  | no_json => Ok py.PyNone
  | json_object d => Ok (py.dict_get d "name")
  | json_array [] => Ok py.PyNone
  | json_array (_ :: _) => Raise (no_attribute_get "list")
  | json_scalar v =>
      if py.truthy v then Raise (no_attribute_get (type_name v)) else Ok py.PyNone
  end.

(** The JSON document a response carries. *)
Inductive payload : Type :=
  | env_ (env : list (string * string))
  | tables_ (names : list py.value)
  | error_ (m : string)
  | health_ (timestamp : string)
  | items_ (l : list (gmap string py.value))
  | item_ (i : gmap string py.value).

(** [jsonify(...)] with the status that goes with it (200 by default) *)
Record response : Type := mk_response {
  json : payload;
  status : Z
}.

(** The [dict] of [db.get_tables] as a document *)
Definition jsonify_tables (r : db.tables_result) : payload :=
  match r with db.Tables names => tables_ names | db.Error m => error_ m end.

(** [jsonify(...)] serialises at once, with [json.dumps] and Flask's
    default hook: the first value, in document order, that cannot be
    serialised makes it raise [TypeError]. *)
Definition jsonable (v : py.value) : bool :=
  match v with py.PyObject _ _ b => b | _ => true end.

Definition not_serializable (v : py.value) : exn :=
  Exception "TypeError" ("Object of type " ++ type_name v ++ " is not JSON serializable").

Fixpoint dumps_values (l : list py.value) : result unit :=
  match l with
  | [] => Ok tt
  | v :: l' => if jsonable v then dumps_values l' else Raise (not_serializable v)
  end.

(** The values of an item, in the order its [dict] was built; any other
    key comes after. *)
Definition item_values (i : gmap string py.value) : list py.value :=
  [py.dict_get i "id"; py.dict_get i "name"; py.dict_get i "createdAt"]
  ++ (snd <$> map_to_list i).

Definition payload_values (p : payload) : list py.value :=
  match p with
  | tables_ names => names
  | items_ l => flat_map item_values l
  | item_ i => item_values i
  | env_ _ | error_ _ | health_ _ => []
  end.

Definition jsonify (p : payload) : result payload :=
  match dumps_values (payload_values p) with
  | Ok _ => Ok p
  | Raise e => Raise e
  end.

Definition get_db_env_for_display (c : config.t) : list (string * string) :=
  [("DB_TYPE", app.display (config.DB_TYPE c));
   ("DB_HOST", app.display (config.DB_HOST c));
   ("DB_PORT", app.display (config.DB_PORT c));
   ("DB_NAME", app.display (config.DB_NAME c));
   ("DB_USER", app.display (config.DB_USER c));
   ("DB_PASSWORD",
    match config.DB_PASSWORD c with
    | Some s => if (0 <? String.length s)%nat then "********" else "(미설정)"
    | None => "(미설정)"
    end)].

(** [GET /api/config] *)
Definition config : M response :=
  c <- get config_module ;;
  ret {| json := env_ (get_db_env_for_display c); status := 200 |}.

(** [GET /api/tables] *)
Definition tables : M response :=
  try_except
    (result <- db.get_tables ;;
     j <- lift (jsonify (jsonify_tables result)) ;;
     ret {| json := j; status := 200 |})
    (fun e =>
       ret {| json := error_ (if py.str_truthy (exc_str e) then exc_str e else "서버 오류");
              status := 500 |}).

(** [GET /api/health] *)
Definition health : M response :=
  now <- utcnow ;;
  ret {| json := health_ (py.strftime_ms_Z now); status := 200 |}.

(** [GET /api/items]; [items] is a list or [None], so [isinstance]
    adds nothing to [items is None]. *)
Definition get_items : M response :=
  try_except
    (items <- db.get_items ;;
     match items with
     | None =>
         ret {| json := error_ "DB 연결을 사용할 수 없습니다. 아이템은 DB에서만 조회됩니다.";
                status := 503 |}
     | Some l => j <- lift (jsonify (items_ l)) ;; ret {| json := j; status := 200 |}
     end)
    (fun e => ret {| json := error_ (exc_str e); status := 500 |}).

(** [not item] for an [Optional[dict]]: [None] and the empty [dict] are falsy. *)
Definition item_falsy (item : option (gmap string py.value)) : bool :=
  match item with
  | None => true
  | Some i => bool_decide (dom i = (∅ : gset string))
  end.

(** [GET /api/items/<int:id>] *)
Definition get_item_by_id (id : Z) : M response :=
  try_except
    (item <- db.get_item_by_id id ;;
     if item_falsy item then ret {| json := error_ "Not found"; status := 404 |}
     else
       match item with
       | Some i => j <- lift (jsonify (item_ i)) ;; ret {| json := j; status := 200 |}
       | None => ret {| json := error_ "Not found"; status := 404 |}
       end)
    (fun e => ret {| json := error_ (exc_str e); status := 500 |}).

(** [POST /api/items]; the name is read before the [try] block. *)
Definition create_item (body : json_body) : M response :=
  name <- lift (data_get_name body) ;;
  if negb (py.truthy name) then
    ret {| json := error_ "name is required"; status := 400 |}
  else
    try_except
      (new_item <- db.create_item name ;;
       match new_item with
       | None =>
           ret {| json := error_ "DB 연결을 사용할 수 없습니다. 아이템은 DB에만 저장됩니다.";
                  status := 503 |}
       | Some i => j <- lift (jsonify (item_ i)) ;; ret {| json := j; status := 201 |}
       end)
      (fun e => ret {| json := error_ (exc_str e); status := 500 |}).

End routes.

(** ** Vocabulary of the properties *)

(** The configured type string, trimmed and upper-cased ([""] when unset). *)
Definition normalized_type (c : config.t) : string :=
  py.upper (py.strip (default "" (config.DB_TYPE c))).

(** The fixed port table, written out. *)
Definition port_table (p : Z) : option string :=
  if p =? 5432 then Some "POSTGRESQL"
  else if p =? 3306 then Some "MYSQL"
  else if p =? 27017 then Some "MONGODB"
  else None.

(** A host or database name that is set and not empty. *)
Definition non_empty (o : option string) : Prop :=
  exists s, o = Some s /\ s <> "".

(** The [n] most recent elements of a list that grows at its end. *)
Definition most_recent {A} (n : nat) (l : list A) : list A :=
  drop (length l - n) l.

(** The log buffer after the entries [es] were appended in turn. *)
Definition appends (es logs : list LogEntry) : list LogEntry :=
  fold_left (fun l e => db_logger.append_trim e l) es logs.

(** The computation [m], started in [w], ends with an exception. *)
Definition raises {A} (m : M A) (w : World) : Prop :=
  exists e w', m w = (Raise e, w').

(** Every run of [m] relates the world it starts in to the world it ends in. *)
Definition preserves {A} (R : World -> World -> Prop) (m : M A) : Prop :=
  forall w, R w (snd (m w)).

(** Success entries of the ping, and how many a history holds. *)
Definition is_ping_ok (e : LogEntry) : bool := String.prefix "Ping OK" (msg e).

Definition ping_ok_count (h : list LogEntry) : nat :=
  length (List.filter is_ping_ok h).

(** The world after [n] successive calls of [ping]. *)
Fixpoint after_pings (n : nat) (w : World) : World :=
  match n with
  | O => w
  | S n' => after_pings n' (snd (db.ping w))
  end.

Fixpoint last_char (s : string) : option ascii :=
  match s with
  | EmptyString => None
  | String c EmptyString => Some c
  | String _ s' => last_char s'
  end.

Definition ends_with_Z (s : string) : bool :=
  match last_char s with Some c => Ascii.eqb c "Z" | None => false end.

Definition ends_in_digit (s : string) : Prop :=
  exists c, last_char s = Some c /\ py.is_digit c = true.

(** What a dispatcher operation hands back, as a Python object:
    [None], a [bool], the record [{"error": msg}], the record
    [{"tables": names}], an item, or a list of items. *)
Inductive returned : Type :=
  | R_None
  | R_bool (b : bool)
  | R_error (msg : string)
  | R_tables (names : list py.value)
  | R_item (i : gmap string py.value)
  | R_items (l : list (gmap string py.value)).

Definition of_tables (r : db.tables_result) : returned :=
  match r with db.Tables names => R_tables names | db.Error m => R_error m end.

Definition of_item (o : option (gmap string py.value)) : returned :=
  match o with Some i => R_item i | None => R_None end.

Definition of_items (o : option (list (gmap string py.value))) : returned :=
  match o with Some l => R_items l | None => R_None end.

(** A structured error result: a record that carries an error message. *)
Definition structured_error (r : returned) : Prop :=
  exists m, r = R_error m.

(** No driver call fails in this world. *)
Definition no_faults (w : World) : Prop :=
  forall n c, faults w n c = None.

(** The configured port is unset, empty, or accepted by [int]. *)
Definition port_ok (c : config.t) : Prop :=
  py.opt_truthy (config.DB_PORT c) = false
  \/ exists p, py.int_of_str (py.or_empty (config.DB_PORT c)) = Some p.

(** The liveness call of each backend. *)
Definition liveness_call (t : string) : driver_call :=
  if String.eqb t "MONGODB" then mongo_command "ping" else sql_execute SELECT_1.

(** Relations between the world before and after a computation. *)
Definition same_faults (w w' : World) : Prop := faults w' = faults w.

Definition same_latch (w w' : World) : Prop :=
  _ping_ok_logged w' = _ping_ok_logged w
  /\ ping_ok_count (log_history w') = ping_ok_count (log_history w).

(** How a run of [ping] started in [w] may end: with [True], the latch
    set and one more success entry if the latch was clear; or otherwise,
    with latch and count as they were. *)
Definition latch_outcome (w : World) (r : result bool * World) : Prop :=
  match fst r with
  | Ok true =>
      _ping_ok_logged (snd r) = true
      /\ ping_ok_count (log_history (snd r))
         = (ping_ok_count (log_history w) + (if _ping_ok_logged w then 0 else 1))%nat
  | _ => same_latch w (snd r)
  end.

(** ** Sample configurations and worlds *)

Module sample.

Definition cfg (ty host port name : option string) : config.t :=
  config.mk 81 ty host port name None None.

Definition unset : config.t := cfg None None None None.
Definition mysql_explicit : config.t :=
  cfg (Some "  MySql ") (Some "db.local") (Some "9999") (Some "shop").
Definition pg_by_port : config.t :=
  cfg (Some "oracle") (Some "db.local") (Some " 5432 ") (Some "shop").
Definition other_port : config.t :=
  cfg None (Some "db.local") (Some "1521") (Some "shop").
Definition no_host : config.t :=
  cfg (Some "MONGODB") (Some "") (Some "27017") (Some "shop").
Definition mongo : config.t :=
  cfg (Some "mongodb") (Some "db.local") None (Some "shop").

Definition noon : py.datetime := py.mk_datetime 2024 1 2 12 0 0 0 None.

(** A freshly started process: empty log, no pool or client, latch
    clear; the clock advances by one microsecond per reading. *)
Definition start (c : config.t) (f : nat -> driver_call -> option exn)
    (docs : list mongo_doc) : World :=
  {| config_module := c; _logs := []; log_history := []; stdout := [];
     _pg_pool := false; _mongo_client := false; _mongo_db := false;
     _ping_ok_logged := false;
     clock := fun n => py.mk_datetime 2024 1 2 12 0 0 (N.of_nat n) None;
     ticks := 0; calls := [];
     faults := f;
     sql_rows := fun _ => []; sql_lastrowid := fun _ => py.PyNone;
     mongo_collections := ["items"]; mongo_items := docs |}.

(** A world in which no driver call fails. *)
Definition healthy : nat -> driver_call -> option exn := fun _ _ => None.

(** A world in which the liveness query fails. *)
Definition query_fails : nat -> driver_call -> option exn :=
  fun _ c =>
    match c with
    | sql_execute SELECT_1 | mongo_command _ =>
        Some (Exception "OperationalError" "server closed the connection")
    | _ => None
    end.

End sample.

(** ** Vocabulary of the further properties *)

(** The adapter call each dispatcher operation makes for a resolved
    type: MYSQL and MARIADB share one adapter. *)
Definition tables_adapter (t : string) : M db.tables_result :=
  if String.eqb t "POSTGRESQL" then db._pg_get_tables
  else if String.eqb t "MONGODB" then db._mongo_get_tables
  else db._mysql_get_tables.

Definition items_adapter (t : string) : M (list (gmap string py.value)) :=
  if String.eqb t "POSTGRESQL" then db._pg_get_items
  else if String.eqb t "MONGODB" then db._mongo_get_items
  else db._mysql_get_items.

Definition item_adapter (t : string) (id : Z) : M (option (gmap string py.value)) :=
  if String.eqb t "POSTGRESQL" then db._pg_get_item_by_id id
  else if String.eqb t "MONGODB" then db._mongo_get_item_by_id id
  else db._mysql_get_item_by_id id.

Definition create_adapter (t : string) (name : py.value) : M (gmap string py.value) :=
  if String.eqb t "POSTGRESQL" then db._pg_create_item name
  else if String.eqb t "MONGODB" then db._mongo_create_item name
  else db._mysql_create_item name.

(** A world set up for the document store, with a healthy driver. *)
Definition mongo_ready (w : World) : Prop :=
  db.get_db_type (config_module w) = Some "MONGODB"
  /\ db.is_configured (config_module w) = true
  /\ no_faults w
  /\ port_ok (config_module w).

(** The same world with another password configured. *)
Definition with_password (pw : option string) (w : World) : World :=
  let c := config_module w in
  mk_world
    (config.mk (config.PORT c) (config.DB_TYPE c) (config.DB_HOST c) (config.DB_PORT c)
       (config.DB_NAME c) (config.DB_USER c) pw)
    (_logs w) (log_history w) (stdout w) (_pg_pool w) (_mongo_client w) (_mongo_db w)
    (_ping_ok_logged w) (clock w) (ticks w) (calls w) (faults w) (sql_rows w)
    (sql_lastrowid w) (mongo_collections w) (mongo_items w).

(** Connections: a call that hands out a connection, a call that gives
    one back. *)
Definition is_acquire (c : driver_call) : bool :=
  match c with
  | pg_getconn | mysql_connect _ _ _ _ _ => true
  | _ => false
  end.

Definition is_release (c : driver_call) : bool :=
  match c with
  | pg_putconn | mysql_close => true
  | _ => false
  end.

(** The number of connections handed out by the calls [cs], the first of
    which is call number [i]: a call that raised handed out nothing. *)
Fixpoint acquired_from (f : nat -> driver_call -> option exn) (i : nat)
    (cs : list driver_call) : nat :=
  match cs with
  | [] => 0%nat
  | c :: cs' =>
      ((if is_acquire c && negb (bool_decide (is_Some (f i c))) then 1 else 0)
       + acquired_from f (S i) cs')%nat
  end.

Definition acquired (w : World) : nat := acquired_from (faults w) 0 (calls w).

Definition released (w : World) : nat := length (List.filter is_release (calls w)).

(** Between [w] and [w'] as many connections were given back as were
    handed out. *)
Definition conn_balanced (w w' : World) : Prop :=
  faults w' = faults w
  /\ (exists cs, calls w' = (calls w ++ cs)%list)
  /\ (acquired w' + released w = acquired w + released w')%nat.

(** Between [w] and [w'] one more connection was handed out than given back. *)
Definition conn_taken (w w' : World) : Prop :=
  faults w' = faults w
  /\ (exists cs, calls w' = (calls w ++ cs)%list)
  /\ (acquired w' + released w = S (acquired w + released w'))%nat.

(** Whatever [m] returns satisfies [P]. *)
Definition returns_only {A} (P : A -> Prop) (m : M A) : Prop :=
  forall w a w', m w = (Ok a, w') -> P a.

(** The canonical shape of an item. *)
Definition three_fields_of (i : gmap string py.value) : Prop :=
  dom i = ({[ "id"; "name"; "createdAt" ]} : gset string).


(** The id the document-store adapter gives the next document. *)
Definition next_id (l : list mongo_doc) : Z :=
  match db.greatest_by_id l with Some d => d_id d + 1 | None => 1 end.

(** The item the adapter makes of a document of the collection. *)
Definition mongo_item (d : mongo_doc) : gmap string py.value :=
  db._mongo_doc_to_item (db.doc_dict d).

(** The world after the items [names] were created one after the other. *)
Fixpoint after_creates (names : list py.value) (w : World) : World :=
  match names with
  | [] => w
  | n :: ns => after_creates ns (snd (db.create_item n w))
  end.

(** A computation that hands out one connection when it returns, and
    none when it raises. *)
Definition takes {A} (m : M A) : Prop :=
  forall w,
    match fst (m w) with
    | Ok _ => conn_taken w (snd (m w))
    | Raise _ => conn_balanced w (snd (m w))
    end.

(** The buffer holds the most recent entries of everything logged. *)
Definition log_is_recent (w : World) : Prop :=
  _logs w = most_recent db_logger.MAX_LOGS (log_history w).

Definition keeps_log (w w' : World) : Prop :=
  log_is_recent w -> log_is_recent w'.

(** The log as the page shows it, and all that was ever logged. *)
Definition shown_log (w : World) : list LogEntry * list LogEntry :=
  (_logs w, log_history w).

(** How often a character occurs in a text. *)
Fixpoint occurrences (c : ascii) (s : string) : nat :=
  match s with
  | EmptyString => 0
  | String a s' => (if Ascii.eqb a c then 1 else 0) + occurrences c s'
  end.

(** The characters [html.escape] replaces, the ampersand apart. *)
Definition is_markup (c : ascii) : Prop :=
  c = "<"%char \/ c = ">"%char \/ c = ascii_of_nat 34 \/ c = ascii_of_nat 39.


(** The calls that build a connection pool, and those that build a client. *)
Definition is_pool_creation (c : driver_call) : bool :=
  match c with pg_SimpleConnectionPool _ _ _ _ _ _ _ => true | _ => false end.

Definition is_client_creation (c : driver_call) : bool :=
  match c with mongo_MongoClient _ => true | _ => false end.

(** How many of the calls made so far satisfy [f]. *)
Definition made (f : driver_call -> bool) (w : World) : nat :=
  length (List.filter f (calls w)).

(** Once [flag] is set it stays set, and no further call of kind [f]
    is made. *)
Definition kept (flag : World -> bool) (f : driver_call -> bool) (w w' : World) : Prop :=
  flag w = true -> flag w' = true /\ made f w' = made f w.

(** The pool is kept once [_pg_pool] is set; no further client is built
    once the database handle [_mongo_db] is set.  ([_mongo_client] alone
    does not stop [_get_mongo_db] from building another client.) *)
Definition pool_kept : World -> World -> Prop := kept _pg_pool is_pool_creation.
Definition database_kept : World -> World -> Prop := kept _mongo_db is_client_creation.

(** [m] keeps an existing pool and an existing database handle. *)
Definition stays_connected {A} (m : M A) : Prop :=
  preserves pool_kept m /\ preserves database_kept m.

(** The statements that read or write the [items] table. *)
Definition touches_items (c : driver_call) : bool :=
  match c with
  | sql_execute (SELECT_items_ORDER_BY_id | SELECT_item_WHERE_id _
                | INSERT_item_RETURNING _ | INSERT_item _) => true
  | _ => false
  end.

Definition items_untouched : World -> World -> Prop :=
  kept (fun _ => true) touches_items.

(** [m] ends with an exception, having sent no statement on [items]. *)
Definition stops_short {A} (m : M A) (w : World) : Prop :=
  exists e w', m w = (Raise e, w') /\ made touches_items w' = made touches_items w.

(** The steady state of the backend [t]: the success of the ping has
    been logged and, where the backend keeps one, the pool or the
    client exists. *)
Definition steady (t : string) (w : World) : bool :=
  _ping_ok_logged w
  && (if String.eqb t "POSTGRESQL" then _pg_pool w else true)
  && (if String.eqb t "MONGODB" then _mongo_db w else true).

(** From the steady state, the run stays in it and logs nothing. *)
Definition silent (t : string) (w w' : World) : Prop :=
  steady t w = true ->
  steady t w' = true /\ shown_log w' = shown_log w /\ config_module w' = config_module w.

(** [text in page] *)
Definition occurs_in (text page : string) : Prop :=
  exists before after, page = before ++ text ++ after.

(** The variables the page lists with the value shown for each: the
    text as configured, a placeholder when it is unset or empty, and
    eight asterisks for a password that is set. *)
Definition shown (o : option string) : string :=
  match o with
  | Some (String _ _ as s) => s
  | _ => "(미설정)"
  end.

Definition masked (o : option string) : string :=
  match o with
  | Some (String _ _) => "********"
  | _ => "(미설정)"
  end.

Definition settings_table (c : config.t) : list (string * string) :=
  [("PORT", py.str_of_int (config.PORT c));
   ("DB_TYPE", shown (config.DB_TYPE c));
   ("DB_HOST", shown (config.DB_HOST c));
   ("DB_PORT", shown (config.DB_PORT c));
   ("DB_NAME", shown (config.DB_NAME c));
   ("DB_USER", shown (config.DB_USER c));
   ("DB_PASSWORD", masked (config.DB_PASSWORD c))].

(** The notice at the top of the page. *)
Definition unavailable_notice : string :=
  "<p>DB가 설정되지 않았거나 연결되지 않아 서비스를 이용할 수 없습니다.</p>".

(** * Properties *)

(** ** Backend type resolution *)

Lemma or_empty_default (o : option string) : py.or_empty o = default "" o.
Proof. destruct o as [[|a s]|]; reflexivity. Qed.

Lemma or_None_Some (s e : string) : py.or_None s = Some e <-> s = e /\ e <> "".
Proof.
  unfold py.or_None. destruct s; simpl; split.
  - discriminate.
  - intros [<- H]. congruence.
  - intros [= <-]. split; [reflexivity | discriminate].
  - intros [<- _]. reflexivity.
Qed.

Lemma eq_str_Some (x s : string) : py.eq_str (Some x) s = true <-> x = s.
Proof. simpl. apply String.eqb_eq. Qed.

Lemma in_strs_elem_of (e : string) (l : list string) :
  py.in_strs (Some e) l = true <-> e ∈ l.
Proof.
  unfold py.in_strs. rewrite existsb_exists, list_elem_of_In. split.
  - intros (x & Hx & Heq). apply eq_str_Some in Heq. now subst.
  - intros H. exists e. split; [assumption | now apply eq_str_Some].
Qed.

Lemma in_strs_None (l : list string) : py.in_strs None l = false.
Proof. induction l; simpl; auto. Qed.

Lemma PORT_TO_TYPE_lookup (p : Z) : db.PORT_TO_TYPE !! p = port_table p.
Proof.
  unfold db.PORT_TO_TYPE, port_table.
  destruct (Z.eqb_spec p 5432) as [->|H1]; [reflexivity|].
  destruct (Z.eqb_spec p 3306) as [->|H2]; [reflexivity|].
  destruct (Z.eqb_spec p 27017) as [->|H3]; [reflexivity|].
  rewrite !lookup_insert_ne by congruence. apply lookup_singleton_ne. congruence.
Qed.

Lemma DB_TYPES_non_empty (e : string) : e ∈ db.DB_TYPES -> e <> "".
Proof.
  unfold db.DB_TYPES. rewrite !elem_of_cons, elem_of_nil.
  intros [->|[->|[->|[->|[]]]]]; discriminate.
Qed.

Lemma explicit_branch (c : config.t) :
  let explicit := py.or_None (py.upper (py.strip (py.or_empty (config.DB_TYPE c)))) in
  py.opt_truthy explicit && py.in_strs explicit db.DB_TYPES = true
  <-> normalized_type c ∈ db.DB_TYPES.
Proof.
  unfold normalized_type. rewrite or_empty_default.
  set (n := py.upper (py.strip (default "" (config.DB_TYPE c)))).
  cbv zeta. destruct n as [|a n'] eqn:E.
  - split; [discriminate|]. intros H. now apply DB_TYPES_non_empty in H.
  - change (py.or_None (String a n')) with (Some (String a n')).
    change (py.opt_truthy (Some (String a n'))) with true.
    rewrite andb_true_l. apply in_strs_elem_of.
Qed.

(** What the port fallback yields. *)
Lemma port_branch (c : config.t) :
  normalized_type c ∉ db.DB_TYPES ->
  db.get_db_type c =
    match config.DB_PORT c with
    | Some s => match py.int_of_str s with Some p => port_table p | None => None end
    | None => None
    end.
Proof.
  intros Hn. unfold db.get_db_type.
  destruct (_ && _) eqn:E.
  - apply explicit_branch in E. contradiction.
  - destruct (config.DB_PORT c) as [[|a s]|]; try reflexivity.
    change (py.opt_truthy (Some (String a s))) with true. cbv iota.
    change (py.or_empty (Some (String a s))) with (String a s).
    destruct (py.int_of_str _); [apply PORT_TO_TYPE_lookup | reflexivity].
Qed.

Lemma explicit_taken (c : config.t) :
  normalized_type c ∈ db.DB_TYPES -> db.get_db_type c = Some (normalized_type c).
Proof.
  intros Hn. unfold db.get_db_type.
  destruct (_ && _) eqn:E.
  - unfold normalized_type in *. rewrite or_empty_default.
    apply DB_TYPES_non_empty in Hn.
    destruct (py.upper _); [contradiction | reflexivity].
  - apply explicit_branch in Hn. cbv zeta in Hn. congruence.
Qed.







(** The recognised spellings, whatever their case and surrounding white space. *)
Example resolution_spellings :
  map (fun s => db.get_db_type (sample.cfg (Some s) None None None))
    ["postgresql"; " MySQL"; "MariaDb  "; String (ascii_of_nat 9) "mongodb"; "oracle"; ""]
  = [Some "POSTGRESQL"; Some "MYSQL"; Some "MARIADB"; Some "MONGODB"; None; None].
Proof. reflexivity. Qed.

(** ** Configuration completeness *)

Lemma opt_truthy_non_empty (o : option string) :
  py.opt_truthy o = true <-> non_empty o.
Proof.
  unfold non_empty. destruct o as [[|a s]|]; simpl; split; try discriminate.
  - intros (s & [= <-] & H). congruence.
  - intros _. eexists. split; [reflexivity | discriminate].
  - intros (s' & _ & _). reflexivity.
  - intros (s & [=] & _).
Qed.

Lemma port_table_kind (p : Z) (t : string) : port_table p = Some t -> t ∈ db.DB_TYPES.
Proof.
  unfold port_table, db.DB_TYPES.
  repeat (destruct (_ =? _)); intros [= <-]; rewrite !elem_of_cons; tauto.
Qed.

(** A resolved type is always one of the four kinds. *)
Lemma get_db_type_kind (c : config.t) (t : string) :
  db.get_db_type c = Some t -> t ∈ db.DB_TYPES.
Proof.
  destruct (decide (normalized_type c ∈ db.DB_TYPES)) as [Hin|Hn].
  - rewrite (explicit_taken c Hin). now intros [= <-].
  - rewrite (port_branch c Hn).
    destruct (config.DB_PORT c) as [s|]; [|discriminate].
    destruct (py.int_of_str s) as [p|]; [|discriminate].
    apply port_table_kind.
Qed.

Lemma get_db_type_truthy (c : config.t) :
  py.opt_truthy (db.get_db_type c) = true <-> db.get_db_type c <> None.
Proof.
  destruct (db.get_db_type c) as [t|] eqn:E; simpl.
  - apply get_db_type_kind, DB_TYPES_non_empty in E.
    destruct t; [contradiction|]. split; [discriminate | reflexivity].
  - split; [discriminate | congruence].
Qed.

(** C2.  [is_configured] is false whenever the resolved type is
    undetermined, or the host is empty or absent, or the database name
    is empty or absent, and true in every other case; user and password
    play no part. *)
Theorem is_configured_iff (c : config.t) :
  (db.get_db_type c = None -> db.is_configured c = false)
  /\ (~ non_empty (config.DB_HOST c) -> db.is_configured c = false)
  /\ (~ non_empty (config.DB_NAME c) -> db.is_configured c = false)
  /\ (db.get_db_type c <> None -> non_empty (config.DB_HOST c) ->
      non_empty (config.DB_NAME c) -> db.is_configured c = true)
  /\ (forall user password user' password',
        db.is_configured
          (config.mk (config.PORT c) (config.DB_TYPE c) (config.DB_HOST c)
             (config.DB_PORT c) (config.DB_NAME c) user password)
        = db.is_configured
          (config.mk (config.PORT c) (config.DB_TYPE c) (config.DB_HOST c)
             (config.DB_PORT c) (config.DB_NAME c) user' password')).
Proof.
  unfold db.is_configured. cbv zeta.
  rewrite <- !opt_truthy_non_empty.
  pose proof (get_db_type_truthy c) as Ht.
  repeat split.
  - intros H. rewrite H. reflexivity.
  - intros H. destruct (py.opt_truthy (db.get_db_type c)); [|reflexivity].
    destruct (py.opt_truthy (config.DB_HOST c)); [contradiction | reflexivity].
  - intros H. destruct (py.opt_truthy (db.get_db_type c)); [|reflexivity].
    destruct (py.opt_truthy (config.DB_NAME c)); [contradiction|].
    apply andb_false_r.
  - intros H Hh Hn. apply Ht in H. rewrite H, Hh, Hn. reflexivity.
Qed.

Lemma is_configured_iff_witness :
  db.is_configured sample.mysql_explicit = true
  /\ db.is_configured sample.unset = false
  /\ db.is_configured sample.no_host = false.
Proof.
  split; [|split].
  - apply (proj1 (proj2 (proj2 (proj2 (is_configured_iff sample.mysql_explicit))))).
    + discriminate.
    + exists "db.local". split; [reflexivity | discriminate].
    + exists "shop". split; [reflexivity | discriminate].
  - apply (proj1 (is_configured_iff sample.unset)). reflexivity.
  - apply (proj1 (proj2 (is_configured_iff sample.no_host))).
    intros (s & [= <-] & H). congruence.
Defined.
(** ** The diagnostic log *)

Lemma append_trim_most_recent (e : LogEntry) (l : list LogEntry) :
  db_logger.append_trim e l = most_recent db_logger.MAX_LOGS (l ++ [e]).
Proof.
  unfold db_logger.append_trim, most_recent. cbv zeta.
  destruct (Nat.ltb_spec db_logger.MAX_LOGS (length (l ++ [e]))) as [H|H].
  - reflexivity.
  - replace (length (l ++ [e]) - db_logger.MAX_LOGS)%nat with 0%nat by lia.
    reflexivity.
Qed.

Lemma most_recent_length {A} (n : nat) (l : list A) :
  (length (most_recent n l) <= n)%nat.
Proof. unfold most_recent. rewrite length_drop. lia. Qed.

Lemma most_recent_short {A} (n : nat) (l : list A) :
  (length l <= n)%nat -> most_recent n l = l.
Proof.
  intros H. unfold most_recent.
  replace (length l - n)%nat with 0%nat by lia. reflexivity.
Qed.

(** Trimming early does not change what is left after later appends. *)
Lemma most_recent_app {A} (n : nat) (l es : list A) :
  most_recent n (most_recent n l ++ es) = most_recent n (l ++ es).
Proof.
  destruct (Nat.le_gt_cases (length l) n) as [H|H].
  - now rewrite (most_recent_short n l H).
  - unfold most_recent.
    rewrite !length_app, length_drop, !drop_app, drop_drop, length_drop.
    f_equal; [f_equal; lia | f_equal; lia].
Qed.

Lemma appends_most_recent (es logs : list LogEntry) :
  appends es (most_recent db_logger.MAX_LOGS logs)
  = most_recent db_logger.MAX_LOGS (logs ++ es).
Proof.
  revert logs. induction es as [|e es IH]; intros logs; simpl.
  - rewrite app_nil_r. reflexivity.
  - rewrite append_trim_most_recent, most_recent_app.
    unfold appends in IH. rewrite IH, <- app_assoc. reflexivity.
Qed.

(** C6.  The log buffer never holds more than 100 entries: whatever is
    appended, the buffer is the 100 most recent entries in their order
    of arrival, so that after the 101st append the 1st entry is gone and
    the other 100 remain in order; [add_log] is one such append. *)
Theorem log_keeps_most_recent_100 :
  (forall es logs : list LogEntry,
     (length logs <= 100)%nat ->
     (length (appends es logs) <= 100)%nat
     /\ appends es logs = most_recent 100 (logs ++ es))
  /\ (forall (e1 : LogEntry) (rest : list LogEntry),
        length rest = 100%nat -> appends (e1 :: rest) [] = rest)
  /\ (forall (m : string) (is_error : bool) (w : World),
        exists e w',
          db_logger.add_log m is_error w = (Ok tt, w')
          /\ msg e = m /\ isError e = is_error
          /\ _logs w' = appends [e] (_logs w)
          /\ log_history w' = (log_history w ++ [e])%list).
Proof.
  assert (Hmain : forall es logs : list LogEntry,
     (length logs <= 100)%nat -> appends es logs = most_recent 100 (logs ++ es)).
  { intros es logs H.
    rewrite <- (most_recent_short 100 logs H) at 1. apply appends_most_recent. }
  split; [|split].
  - intros es logs H. rewrite (Hmain es logs H).
    split; [apply most_recent_length | reflexivity].
  - intros e1 rest H. rewrite Hmain by (simpl; lia).
    unfold most_recent. simpl length. rewrite H. reflexivity.
  - intros m b w. eexists. eexists.
    unfold db_logger.add_log, bind, utcnow, modify, print.
    destruct b; simpl; repeat split; reflexivity.
Qed.

Lemma log_keeps_most_recent_100_witness :
  let entry n := mk_entry "2024-01-02T12:00:00.000Z" (py.str_of_int (Z.of_nat n)) false in
  (length (appends (map entry (seq 1 250)) []) <= 100)%nat
  /\ appends (entry 1%nat :: map entry (seq 2 100)) [] = map entry (seq 2 100).
Proof.
  intros entry. split.
  - apply (proj1 log_keeps_most_recent_100 (map entry (seq 1 250)) []).
    simpl. lia.
  - apply (proj1 (proj2 log_keeps_most_recent_100) (entry 1%nat) (map entry (seq 2 100))).
    reflexivity.
Defined.
(** ** Item normalisation *)

Lemma last_char_app (s1 s2 : string) :
  s2 <> "" -> last_char (s1 ++ s2) = last_char s2.
Proof.
  intros H. induction s1 as [|c s1 IH]; [reflexivity|].
  simpl. rewrite IH. destruct (s1 ++ s2) eqn:E; [|reflexivity].
  destruct s1; simpl in E; [contradiction | discriminate].
Qed.

Lemma ends_in_digit_non_empty (s : string) : ends_in_digit s -> s <> "".
Proof. intros (c & H & _) ->. discriminate. Qed.

Lemma ends_in_digit_app (s1 s2 : string) :
  ends_in_digit s2 -> ends_in_digit (s1 ++ s2).
Proof.
  intros H. pose proof (ends_in_digit_non_empty _ H) as Hne.
  destruct H as (c & H & Hd). exists c. now rewrite last_char_app.
Qed.

Lemma string_of_uint_ends_in_digit (u : Decimal.uint) :
  u <> Decimal.Nil -> ends_in_digit (NilEmpty.string_of_uint u).
Proof.
  induction u as [|u IH|u IH|u IH|u IH|u IH|u IH|u IH|u IH|u IH|u IH];
    intros H; [contradiction | ..];
    (destruct (Decimal.uint_eq_dec u Decimal.Nil) as [->|Hu];
     [eexists; split; reflexivity
     | destruct (IH Hu) as (c & Hc & Hd); exists c; split; [|exact Hd];
       simpl; destruct (NilEmpty.string_of_uint u); [discriminate | exact Hc]]).
Qed.

Lemma dec_N_ends_in_digit (n : N) : ends_in_digit (py.dec_N n).
Proof.
  unfold py.dec_N. apply string_of_uint_ends_in_digit.
  destruct n as [|p]; [discriminate | apply Unsigned.to_uint_nonnil].
Qed.

Lemma pad_ends_in_digit (w : nat) (n : N) : ends_in_digit (py.pad w n).
Proof. unfold py.pad. apply ends_in_digit_app, dec_N_ends_in_digit. Qed.

Lemma append_empty_r (s : string) : s ++ "" = s.
Proof.
  induction s as [|c s IH]; [reflexivity|].
  change (String c (s ++ "") = String c s). now rewrite IH.
Qed.

Ltac digits :=
  repeat first
    [ rewrite append_empty_r
    | apply pad_ends_in_digit
    | apply ends_in_digit_app ].

Lemma format_offset_ends_in_digit (o : Z) : ends_in_digit (py.format_offset (Some o)).
Proof.
  unfold py.format_offset. cbv zeta.
  destruct (_ =? 0)%N; [digits|].
  destruct (_ =? 0)%N; digits.
Qed.

Lemma isoformat_ends_in_digit (sep : string) (d : py.datetime) :
  ends_in_digit (py.isoformat_sep sep d).
Proof.
  unfold py.isoformat_sep.
  destruct (py.utcoffset d) as [o|].
  - pose proof (format_offset_ends_in_digit o) as H.
    revert H. generalize (py.format_offset (Some o)). intros s H.
    repeat first [exact H | apply ends_in_digit_app].
  - change (py.format_offset None) with "".
    destruct (_ =? 0)%N; digits.
Qed.

Lemma isoformat_no_trailing_Z (d : py.datetime) : ends_with_Z (py.isoformat d) = false.
Proof.
  destruct (isoformat_ends_in_digit "T" d) as (c & Hc & Hd).
  unfold ends_with_Z, py.isoformat. rewrite Hc.
  destruct (Ascii.eqb_spec c "Z") as [->|]; [discriminate | reflexivity].
Qed.

Lemma three_fields (a b c : py.value) :
  dom (py.dict_of_pairs [("id", a); ("name", b); ("createdAt", c)])
  = ({[ "id"; "name"; "createdAt" ]} : gset string).
Proof.
  unfold py.dict_of_pairs. simpl.
  rewrite !dom_insert_L, dom_empty_L. set_solver.
Qed.

Lemma three_fields_createdAt (a b c : py.value) :
  py.dict_of_pairs [("id", a); ("name", b); ("createdAt", c)] !! "createdAt" = Some c.
Proof. unfold py.dict_of_pairs. simpl. apply lookup_insert_eq. Qed.

Lemma three_fields_id (a b c : py.value) :
  py.dict_of_pairs [("id", a); ("name", b); ("createdAt", c)] !! "id" = Some a.
Proof.
  unfold py.dict_of_pairs. simpl.
  rewrite !lookup_insert_ne by discriminate. apply lookup_insert_eq.
Qed.

Lemma three_fields_name (a b c : py.value) :
  py.dict_of_pairs [("id", a); ("name", b); ("createdAt", c)] !! "name" = Some b.
Proof.
  unfold py.dict_of_pairs. simpl.
  rewrite lookup_insert_ne by discriminate. apply lookup_insert_eq.
Qed.

(** C4, as amended.  Every item built by [_item_from_row] or
    [_mongo_doc_to_item] has exactly the fields id, name and createdAt,
    copied from the row or document; createdAt is the [isoformat()]
    string of the timestamp the backend supplied, which ends in a digit
    and never in "Z", and it is null when the backend supplied no value. *)
Theorem item_shape (r : gmap string py.value) :
  (dom (db._item_from_row r) = ({[ "id"; "name"; "createdAt" ]} : gset string)
   /\ dom (db._mongo_doc_to_item r) = ({[ "id"; "name"; "createdAt" ]} : gset string))
  /\ (db._item_from_row r !! "id" = Some (py.dict_get r "id")
      /\ db._item_from_row r !! "name" = Some (py.dict_get r "name")
      /\ db._mongo_doc_to_item r !! "id" = Some (py.dict_get r "id")
      /\ db._mongo_doc_to_item r !! "name" = Some (py.dict_get r "name"))
  /\ (forall d, py.dict_get r "created_at" = py.PyDatetime d ->
        db._item_from_row r !! "createdAt" = Some (py.PyStr (py.isoformat d))
        /\ ends_in_digit (py.isoformat d) /\ ends_with_Z (py.isoformat d) = false)
  /\ (forall d, py.dict_get r "createdAt" = py.PyDatetime d ->
        db._mongo_doc_to_item r !! "createdAt" = Some (py.PyStr (py.isoformat d))
        /\ ends_in_digit (py.isoformat d) /\ ends_with_Z (py.isoformat d) = false)
  /\ (py.dict_get r "created_at" = py.PyNone -> py.dict_get r "createdAt" = py.PyNone ->
      db._item_from_row r !! "createdAt" = Some py.PyNone)
  /\ (py.dict_get r "createdAt" = py.PyNone ->
      db._mongo_doc_to_item r !! "createdAt" = Some py.PyNone).
Proof.
  unfold db._item_from_row, db._mongo_doc_to_item. cbv zeta.
  split; [split; apply three_fields|].
  split; [rewrite !three_fields_id, !three_fields_name; repeat split|].
  rewrite !three_fields_createdAt.
  split; [|split; [|split]].
  - intros d ->. split; [reflexivity|].
    split; [apply isoformat_ends_in_digit | apply isoformat_no_trailing_Z].
  - intros d ->. split; [reflexivity|].
    split; [apply isoformat_ends_in_digit | apply isoformat_no_trailing_Z].
  - intros -> ->. reflexivity.
  - intros ->. reflexivity.
Qed.

Lemma item_shape_witness :
  let naive := py.mk_datetime 2024 1 2 3 4 5 0 None in
  let aware := py.mk_datetime 2024 1 2 3 4 5 678900 (Some 0) in
  db._mongo_doc_to_item (db.doc_dict (mk_doc 7 (py.PyStr "widget") (py.PyDatetime naive)))
    !! "createdAt" = Some (py.PyStr "2024-01-02T03:04:05")
  /\ db._item_from_row
       (py.dict_of_pairs (zip db.cols [py.PyInt 7; py.PyStr "widget"; py.PyDatetime aware]))
     !! "createdAt" = Some (py.PyStr "2024-01-02T03:04:05.678900+00:00")
  /\ db._item_from_row
       (py.dict_of_pairs (zip db.cols [py.PyInt 7; py.PyStr "widget"; py.PyNone]))
     !! "createdAt" = Some py.PyNone.
Proof.
  intros naive aware. split; [|split].
  - apply (proj1 (proj2 (proj2 (proj2 (item_shape _)))) naive). reflexivity.
  - apply (proj1 (proj2 (proj2 (item_shape _))) aware). reflexivity.
  - apply (proj1 (proj2 (proj2 (proj2 (proj2 (item_shape _)))))); reflexivity.
Defined.

(** The claim as the specification words it fails on the first document
    the adapter itself writes: a naive [utcnow()] timestamp is rendered
    without any zone suffix. *)
Lemma createdAt_trailing_Z_fails :
  ~ (forall (doc : gmap string py.value) (d : py.datetime),
       py.dict_get doc "createdAt" = py.PyDatetime d ->
       exists s, db._mongo_doc_to_item doc !! "createdAt" = Some (py.PyStr s)
                 /\ ends_with_Z s = true).
Proof.
  intros H.
  destruct (H (db.doc_dict (mk_doc 1 (py.PyStr "widget") (py.PyDatetime sample.noon)))
              sample.noon eq_refl) as (s & Hs & Hz).
  vm_compute in Hs. injection Hs as <-. vm_compute in Hz. discriminate.
Qed.
(** ** Reasoning about computations *)

Lemma bind_ok {A B} (m : M A) (k : A -> M B) (w w' : World) (a : A) :
  m w = (Ok a, w') -> bind m k w = k a w'.
Proof. intros H. unfold bind. now rewrite H. Qed.

Lemma bind_raise {A B} (m : M A) (k : A -> M B) (w w' : World) (e : exn) :
  m w = (Raise e, w') -> bind m k w = (Raise e, w').
Proof. intros H. unfold bind. now rewrite H. Qed.

Lemma bind_assoc {A B C} (m : M A) (f : A -> M B) (g : B -> M C) (w : World) :
  bind (bind m f) g w = bind m (fun x => bind (f x) g) w.
Proof. unfold bind. destruct (m w) as [[a|e] w1]; reflexivity. Qed.

Section preservation.

Variable R : World -> World -> Prop.
Hypothesis R_refl : forall w, R w w.
Hypothesis R_trans : forall a b c, R a b -> R b c -> R a c.

Lemma preserves_ret {A} (a : A) : preserves R (ret a).
Proof. intros w. apply R_refl. Qed.

Lemma preserves_raise {A} (e : exn) : preserves R (@raise A e).
Proof. intros w. apply R_refl. Qed.

Lemma preserves_lift {A} (r : result A) : preserves R (lift r).
Proof. intros w. apply R_refl. Qed.

Lemma preserves_get {A} (f : World -> A) : preserves R (get f).
Proof. intros w. apply R_refl. Qed.

Lemma preserves_bind {A B} (m : M A) (k : A -> M B) :
  preserves R m -> (forall a, preserves R (k a)) -> preserves R (bind m k).
Proof.
  intros Hm Hk w. unfold bind. specialize (Hm w).
  destruct (m w) as [[a|e] w1]; simpl in *; [|exact Hm].
  eapply R_trans; [exact Hm | apply Hk].
Qed.

Lemma preserves_try_except {A} (body : M A) (handler : exn -> M A) :
  preserves R body -> (forall e, preserves R (handler e)) ->
  preserves R (try_except body handler).
Proof.
  intros Hm Hk w. unfold try_except. specialize (Hm w).
  destruct (body w) as [[a|e] w1]; simpl in *; [exact Hm|].
  eapply R_trans; [exact Hm | apply Hk].
Qed.

Lemma preserves_try_finally {A} (body : M A) (cleanup : M unit) :
  preserves R body -> preserves R cleanup -> preserves R (try_finally body cleanup).
Proof.
  intros Hm Hc w. unfold try_finally. specialize (Hm w).
  destruct (body w) as [r w1]. specialize (Hc w1).
  destruct (cleanup w1) as [[u|e] w2]; simpl in *; eapply R_trans; eauto.
Qed.

Lemma preserves_if {A} (b : bool) (m1 m2 : M A) :
  preserves R m1 -> preserves R m2 -> preserves R (if b then m1 else m2).
Proof. destruct b; auto. Qed.

End preservation.

Lemma same_faults_refl w : same_faults w w.
Proof. reflexivity. Qed.

Lemma same_faults_trans a b c : same_faults a b -> same_faults b c -> same_faults a c.
Proof. unfold same_faults. congruence. Qed.

Lemma same_latch_refl w : same_latch w w.
Proof. split; reflexivity. Qed.

Lemma same_latch_trans a b c : same_latch a b -> same_latch b c -> same_latch a c.
Proof. unfold same_latch. intros [] []. split; congruence. Qed.

Create HintDb frame.

#[local] Hint Resolve same_faults_refl same_faults_trans same_latch_refl
  same_latch_trans : frame.
#[local] Hint Resolve preserves_ret preserves_raise preserves_lift preserves_get
  preserves_bind preserves_try_except preserves_try_finally preserves_if : frame.

Lemma driver_same_faults c : preserves same_faults (driver c).
Proof. intros w. unfold driver. destruct (faults w _ c); reflexivity. Qed.

Lemma driver_same_latch c : preserves same_latch (driver c).
Proof. intros w. unfold driver. destruct (faults w _ c); split; reflexivity. Qed.

Lemma add_log_same_faults m b : preserves same_faults (db_logger.add_log m b).
Proof. intros w. destruct b; reflexivity. Qed.

Lemma ping_ok_count_snoc (h : list LogEntry) (e : LogEntry) :
  ping_ok_count (h ++ [e]) = (ping_ok_count h + (if is_ping_ok e then 1 else 0))%nat.
Proof.
  unfold ping_ok_count. rewrite List.filter_app, length_app. simpl.
  destruct (is_ping_ok e); reflexivity.
Qed.

(** An entry that is not a ping success leaves latch and count alone. *)
Lemma add_log_same_latch m b :
  String.prefix "Ping OK" m = false -> preserves same_latch (db_logger.add_log m b).
Proof.
  intros H w. split; [destruct b; reflexivity|].
  assert (Hh : log_history (snd (db_logger.add_log m b w))
               = (log_history w ++ [mk_entry (py.strftime_ms_Z (clock w (ticks w))) m b])%list)
    by (destruct b; reflexivity).
  rewrite Hh, ping_ok_count_snoc. unfold is_ping_ok. simpl msg. rewrite H. lia.
Qed.

Lemma port_or_same_faults c d : preserves same_faults (db.port_or c d).
Proof. unfold db.port_or. auto with frame. Qed.

Lemma port_or_same_latch c d : preserves same_latch (db.port_or c d).
Proof. unfold db.port_or. auto with frame. Qed.

#[local] Hint Resolve driver_same_faults driver_same_latch add_log_same_faults
  port_or_same_faults port_or_same_latch : frame.

Ltac rel_side :=
  first [ exact same_faults_refl | exact same_faults_trans
        | exact same_latch_refl | exact same_latch_trans ].

(** Splits a goal [preserves R m] along the structure of [m]. *)
Ltac frame :=
  repeat lazymatch goal with
  | |- preserves _ (bind _ _) =>
      apply preserves_bind; [rel_side .. | | intros]
  | |- preserves _ (try_finally _ _) =>
      apply preserves_try_finally; [rel_side .. | | ]
  | |- preserves _ (try_except _ _) =>
      apply preserves_try_except; [rel_side .. | | intros]
  | |- preserves _ (if _ then _ else _) => apply preserves_if
  | |- preserves _ (match ?x with _ => _ end) => destruct x
  | |- preserves _ (modify _) =>
      let w := fresh "w" in intros w; first [reflexivity | split; reflexivity]
  | |- preserves _ _ => solve [auto with frame]
  end.

Lemma get_pg_pool_same_faults : preserves same_faults db._get_pg_pool.
Proof. unfold db._get_pg_pool. frame. Qed.

Lemma get_pg_pool_same_latch : preserves same_latch db._get_pg_pool.
Proof.
  unfold db._get_pg_pool. frame.
  apply add_log_same_latch. reflexivity.
Qed.

Lemma mysql_get_connection_same_faults : preserves same_faults db._mysql_get_connection.
Proof. unfold db._mysql_get_connection. frame. Qed.

Lemma mysql_get_connection_same_latch : preserves same_latch db._mysql_get_connection.
Proof. unfold db._mysql_get_connection. frame. Qed.

Lemma get_mongo_db_same_faults : preserves same_faults db._get_mongo_db.
Proof. unfold db._get_mongo_db. frame. Qed.

Lemma get_mongo_db_same_latch : preserves same_latch db._get_mongo_db.
Proof.
  unfold db._get_mongo_db. frame.
  apply add_log_same_latch. reflexivity.
Qed.

#[local] Hint Resolve get_pg_pool_same_faults get_pg_pool_same_latch
  mysql_get_connection_same_faults mysql_get_connection_same_latch
  get_mongo_db_same_faults get_mongo_db_same_latch : frame.

Lemma with_cursor_same_faults {A} (body : M A) :
  preserves same_faults body -> preserves same_faults (db.with_cursor body).
Proof. intros H. unfold db.with_cursor. frame. Qed.

Lemma with_cursor_same_latch {A} (body : M A) :
  preserves same_latch body -> preserves same_latch (db.with_cursor body).
Proof. intros H. unfold db.with_cursor. frame. Qed.

Lemma with_pg_conn_same_latch {A} (body : M A) :
  preserves same_latch body -> preserves same_latch (db.with_pg_conn body).
Proof. intros H. unfold db.with_pg_conn. frame. Qed.

Lemma with_mysql_conn_same_latch {A} (body : M A) :
  preserves same_latch body -> preserves same_latch (db.with_mysql_conn body).
Proof. intros H. unfold db.with_mysql_conn. frame. Qed.

(** ** Ping *)

Lemma raises_bind_l {A B} (m : M A) (k : A -> M B) (w : World) :
  raises m w -> raises (bind m k) w.
Proof. intros (e & w' & H). exists e, w'. now apply bind_raise. Qed.

(** To show that [m ;; k] raises it is enough to look at the runs in
    which [m] returned. *)
Lemma raises_bind {A B} (m : M A) (k : A -> M B) (w : World) :
  preserves same_faults m ->
  (forall a w', same_faults w w' -> raises (k a) w') ->
  raises (bind m k) w.
Proof.
  intros Hm Hk. specialize (Hm w). unfold raises, bind in *.
  destruct (m w) as [[a|e] w1]; simpl in Hm.
  - apply Hk, Hm.
  - eauto.
Qed.

Lemma raises_try_finally {A} (body : M A) (cleanup : M unit) (w : World) :
  raises body w -> raises (try_finally body cleanup) w.
Proof.
  intros (e & w1 & H). unfold raises, try_finally. rewrite H.
  destruct (cleanup w1) as [[u|e2] w2]; eauto.
Qed.

Lemma raises_driver (c : driver_call) (w : World) :
  (forall n, is_Some (faults w n c)) -> raises (driver c) w.
Proof.
  intros H. destruct (H (length (calls w))) as [e He].
  unfold raises, driver. rewrite He. eauto.
Qed.

(** The cursor block around a failing statement fails. *)
Lemma with_cursor_raises (q : sql) (w : World) :
  (forall n, is_Some (faults w n (sql_execute q))) ->
  raises (db.with_cursor (driver (sql_execute q) ;; ret tt)) w.
Proof.
  intros H. unfold db.with_cursor.
  apply raises_bind; [auto with frame|]. intros ? w1 H1.
  apply raises_try_finally, raises_bind_l, raises_driver.
  unfold same_faults in H1. now rewrite H1.
Qed.

(** When the liveness call of the backend fails whenever it is made, the
    [try] block of [ping] ends with an exception. *)
Lemma ping_try_raises (t : string) (w : World) :
  t ∈ db.DB_TYPES ->
  (forall n, is_Some (faults w n (liveness_call t))) ->
  raises (db.ping_try (Some t)) w.
Proof.
  unfold db.DB_TYPES. rewrite !elem_of_cons, elem_of_nil.
  intros [->|[->|[->|[->|[]]]]] H; unfold db.ping_try;
    simpl py.eq_str; simpl py.in_strs; cbv iota; simpl liveness_call in H.
  - apply raises_bind_l. unfold db.with_pg_conn.
    apply raises_bind; [auto with frame|]. intros ? w1 H1.
    apply raises_bind; [auto with frame|]. intros ? w2 H2.
    apply raises_try_finally, with_cursor_raises.
    unfold same_faults in *. now rewrite H2, H1.
  - apply raises_bind_l. unfold db.with_mysql_conn.
    apply raises_bind; [auto with frame|]. intros ? w1 H1.
    apply raises_try_finally, with_cursor_raises.
    unfold same_faults in *. now rewrite H1.
  - apply raises_bind_l. unfold db.with_mysql_conn.
    apply raises_bind; [auto with frame|]. intros ? w1 H1.
    apply raises_try_finally, with_cursor_raises.
    unfold same_faults in *. now rewrite H1.
  - apply raises_bind; [auto with frame|]. intros ? w1 H1.
    apply raises_bind_l, raises_driver.
    unfold same_faults in *. now rewrite H1.
Qed.

Lemma prefix_app (s t : string) : String.prefix s (s ++ t) = true.
Proof.
  induction s as [|c s IH]; [destruct t; reflexivity|].
  change (String c s ++ t) with (String c (s ++ t)). simpl.
  destruct (ascii_dec c c); [exact IH | contradiction].
Qed.

Lemma last_append_trim (e : LogEntry) (l : list LogEntry) :
  last (db_logger.append_trim e l) = Some e.
Proof.
  rewrite append_trim_most_recent. unfold most_recent.
  rewrite length_app, drop_app_le by (unfold db_logger.MAX_LOGS; simpl; lia).
  apply last_snoc.
Qed.

(** What one [add_log] does to the world. *)
Lemma add_log_spec (m : string) (b : bool) (w : World) :
  exists w',
    db_logger.add_log m b w = (Ok tt, w')
    /\ _logs w' = db_logger.append_trim (mk_entry (py.strftime_ms_Z (clock w (ticks w))) m b) (_logs w)
    /\ log_history w' = (log_history w ++ [mk_entry (py.strftime_ms_Z (clock w (ticks w))) m b])%list
    /\ calls w' = calls w
    /\ config_module w' = config_module w.
Proof.
  exists (snd (db_logger.add_log m b w)).
  destruct b; split; [reflexivity | repeat split | reflexivity | repeat split].
Qed.

(** The [except] clause: the failure is logged and [False] returned. *)
Lemma ping_handler (e : exn) (w : World) :
  exists w' entry,
    (db_logger.add_log ("Ping failed: " ++ exc_str e) true ;; ret false) w = (Ok false, w')
    /\ msg entry = "Ping failed: " ++ exc_str e
    /\ isError entry = true
    /\ log_history w' = (log_history w ++ [entry])%list
    /\ last (_logs w') = Some entry.
Proof.
  destruct (add_log_spec ("Ping failed: " ++ exc_str e) true w)
    as (w' & Hrun & Hlogs & Hhist & _).
  exists w', (mk_entry (py.strftime_ms_Z (clock w (ticks w))) ("Ping failed: " ++ exc_str e) true).
  rewrite (bind_ok _ _ _ _ _ Hrun), Hlogs, last_append_trim.
  repeat split; assumption.
Qed.

Lemma ping_configured (w : World) :
  db.is_configured (config_module w) = true ->
  db.ping w =
    try_except (db.ping_try (db.get_db_type (config_module w)))
      (fun e => db_logger.add_log ("Ping failed: " ++ exc_str e) true ;; ret false) w.
Proof. intros H. unfold db.ping, bind, get. rewrite H. reflexivity. Qed.

Lemma ping_unconfigured (w : World) :
  db.is_configured (config_module w) = false -> db.ping w = (Ok false, w).
Proof. intros H. unfold db.ping, bind, get. rewrite H. reflexivity. Qed.

(** [ping] always returns. *)
Lemma ping_returns (w : World) : exists b w', db.ping w = (Ok b, w').
Proof.
  destruct (db.is_configured (config_module w)) eqn:Hc.
  - rewrite (ping_configured w Hc). unfold try_except.
    destruct (db.ping_try _ w) as [[b|e] w1]; [eauto|].
    destruct (ping_handler e w1) as (w' & _ & H & _). eauto.
  - rewrite (ping_unconfigured w Hc). eauto.
Qed.

(** C7.  [ping] never lets an exception reach its caller: it always
    returns a boolean; an exception raised inside its [try] block is
    caught, a failure entry "Ping failed: ..." flagged as error is
    appended to the log, and the result is false; in particular, for
    each of the four backends, when the liveness query ([SELECT 1], or
    the ping command of the document store) raises, [ping] returns
    false with such an entry as the newest one of the log. *)
Theorem ping_never_raises :
  (forall w, exists b w', db.ping w = (Ok b, w'))
  /\ (forall w e w1,
        db.is_configured (config_module w) = true ->
        db.ping_try (db.get_db_type (config_module w)) w = (Raise e, w1) ->
        exists w' entry,
          db.ping w = (Ok false, w')
          /\ msg entry = "Ping failed: " ++ exc_str e
          /\ isError entry = true
          /\ log_history w' = (log_history w1 ++ [entry])%list
          /\ last (_logs w') = Some entry)
  /\ (forall w t,
        db.is_configured (config_module w) = true ->
        db.get_db_type (config_module w) = Some t ->
        (forall n, is_Some (faults w n (liveness_call t))) ->
        exists w' entry,
          db.ping w = (Ok false, w')
          /\ String.prefix "Ping failed: " (msg entry) = true
          /\ isError entry = true
          /\ last (log_history w') = Some entry
          /\ last (_logs w') = Some entry).
Proof.
  split; [exact ping_returns|]. split.
  - intros w e w1 Hc Ht. rewrite (ping_configured w Hc).
    unfold try_except. rewrite Ht. apply ping_handler.
  - intros w t Hc Ht Hf. rewrite (ping_configured w Hc), Ht.
    destruct (ping_try_raises t w (get_db_type_kind _ _ Ht) Hf) as (e & w1 & Hr).
    unfold try_except. rewrite Hr.
    destruct (ping_handler e w1) as (w' & entry & Hrun & Hm & He & Hh & Hl).
    exists w', entry. rewrite Hm, Hh, last_snoc, prefix_app.
    repeat split; assumption.
Qed.

Lemma ping_never_raises_witness :
  fst (db.ping (sample.start sample.mysql_explicit sample.query_fails [])) = Ok false
  /\ fst (db.ping (sample.start sample.mongo sample.query_fails [])) = Ok false
  /\ fst (db.ping (sample.start (sample.cfg (Some "postgresql") (Some "h") (Some "5432x")
                                   (Some "d")) sample.healthy [])) = Ok false.
Proof.
  split; [|split].
  - destruct (proj2 (proj2 ping_never_raises)
                (sample.start sample.mysql_explicit sample.query_fails []) "MYSQL"
                eq_refl eq_refl (fun n => ex_intro _ _ eq_refl))
      as (w' & entry & Hrun & _).
    rewrite Hrun. reflexivity.
  - destruct (proj2 (proj2 ping_never_raises)
                (sample.start sample.mongo sample.query_fails []) "MONGODB"
                eq_refl eq_refl (fun n => ex_intro _ _ eq_refl))
      as (w' & entry & Hrun & _).
    rewrite Hrun. reflexivity.
  - set (w := sample.start _ _ _).
    destruct (proj1 (proj2 ping_never_raises) w
                (Exception "ValueError"
                   ("invalid literal for int() with base 10: " ++ py.repr_str "5432x"))
                w eq_refl eq_refl)
      as (w' & entry & Hrun & _).
    rewrite Hrun. reflexivity.
Defined.

(** ** The ping-success latch *)

Lemma log_ping_ok_once_spec (m : string) (w : World) :
  String.prefix "Ping OK" m = true ->
  exists w',
    db.log_ping_ok_once m w = (Ok tt, w')
    /\ _ping_ok_logged w' = true
    /\ ping_ok_count (log_history w')
       = (ping_ok_count (log_history w) + (if _ping_ok_logged w then 0 else 1))%nat.
Proof.
  intros Hm. unfold db.log_ping_ok_once.
  rewrite (bind_ok (get _ping_ok_logged) _ w w (_ping_ok_logged w) eq_refl).
  destruct (_ping_ok_logged w) eqn:E; cbv [negb].
  - exists w. repeat split; [assumption | lia].
  - destruct (add_log_spec m false w) as (w1 & Hrun & _ & Hh & _).
    rewrite (bind_ok _ _ _ _ _ Hrun).
    eexists. split; [reflexivity|]. split; [reflexivity|].
    simpl log_history. rewrite Hh, ping_ok_count_snoc. unfold is_ping_ok.
    simpl msg. now rewrite Hm.
Qed.

Lemma then_log_once {A} (m : M A) (s : string) (w : World) :
  preserves same_latch m -> String.prefix "Ping OK" s = true ->
  latch_outcome w ((m ;; db.log_ping_ok_once s ;; ret true) w).
Proof.
  intros Hm Hs. specialize (Hm w). unfold latch_outcome.
  destruct (m w) as [[a|e] w1] eqn:E; simpl in Hm.
  - destruct (log_ping_ok_once_spec s w1 Hs) as (w2 & Hrun & Hl & Hc).
    rewrite (bind_ok _ _ _ _ _ E), (bind_ok _ _ _ _ _ Hrun). simpl.
    destruct Hm as [Hm1 Hm2]. split; [assumption|]. now rewrite Hc, Hm1, Hm2.
  - rewrite (bind_raise _ _ _ _ _ E). exact Hm.
Qed.

Lemma ping_try_latch (t : option string) (w : World) :
  latch_outcome w (db.ping_try t w).
Proof.
  unfold db.ping_try.
  destruct (py.eq_str t "POSTGRESQL").
  { apply then_log_once; [|reflexivity].
    apply with_pg_conn_same_latch, with_cursor_same_latch. frame. }
  destruct (py.in_strs t _).
  { apply then_log_once; [|reflexivity].
    apply with_mysql_conn_same_latch, with_cursor_same_latch. frame. }
  destruct (py.eq_str t "MONGODB").
  { rewrite <- (bind_assoc db._get_mongo_db (fun _ => driver (mongo_command "ping"))
                  (fun _ => db.log_ping_ok_once "Ping OK (MongoDB)" ;; ret true) w).
    apply then_log_once; [frame | reflexivity]. }
  apply same_latch_refl.
Qed.

Lemma ping_latch (w : World) : latch_outcome w (db.ping w).
Proof.
  destruct (db.is_configured (config_module w)) eqn:Hc.
  - rewrite (ping_configured w Hc). unfold try_except.
    pose proof (ping_try_latch (db.get_db_type (config_module w)) w) as H.
    destruct (db.ping_try _ w) as [[b|e] w1]; [exact H|].
    unfold latch_outcome in *. simpl in H.
    pose proof (add_log_same_latch ("Ping failed: " ++ exc_str e) true eq_refl w1) as H1.
    destruct (add_log_spec ("Ping failed: " ++ exc_str e) true w1) as (w2 & Hrun & _).
    rewrite Hrun in H1. rewrite (bind_ok _ _ _ _ _ Hrun). simpl in *.
    eapply same_latch_trans; eassumption.
  - rewrite (ping_unconfigured w Hc). apply same_latch_refl.
Qed.

(** The invariant behind the latch: while it is clear no success entry
    was written, and never more than one was. *)
Lemma after_pings_invariant (n : nat) (w : World) :
  (_ping_ok_logged w = false -> ping_ok_count (log_history w) = 0%nat) ->
  (ping_ok_count (log_history w) <= 1)%nat ->
  (ping_ok_count (log_history (after_pings n w)) <= 1)%nat.
Proof.
  revert w. induction n as [|n IH]; intros w H0 H1; [exact H1|].
  simpl. pose proof (ping_latch w) as H. unfold latch_outcome in H.
  destruct (db.ping w) as [[[|]|e] w1]; simpl in *.
  - destruct H as [Hl Hc]. apply IH; [congruence|].
    rewrite Hc. destruct (_ping_ok_logged w); [lia|]. rewrite H0; [lia | reflexivity].
  - destruct H as [Hl Hc]. apply IH; rewrite ?Hl, ?Hc; assumption.
  - destruct H as [Hl Hc]. apply IH; rewrite ?Hl, ?Hc; assumption.
Qed.

(** C8.  The success entry of the ping is written at most once: over
    any number of successive [ping] calls of a process that starts with
    the latch clear and no success entry, the log receives at most one
    "Ping OK" entry; a successful ping leaves the latch set, the first
    one writes the entry, and once the latch is set no ping writes it
    again. *)
Theorem ping_ok_logged_at_most_once :
  (forall n w,
     _ping_ok_logged w = false -> ping_ok_count (log_history w) = 0%nat ->
     (ping_ok_count (log_history (after_pings n w)) <= 1)%nat)
  /\ (forall w w', db.ping w = (Ok true, w') -> _ping_ok_logged w' = true)
  /\ (forall w w',
        _ping_ok_logged w = false -> db.ping w = (Ok true, w') ->
        ping_ok_count (log_history w') = S (ping_ok_count (log_history w)))
  /\ (forall w b w',
        _ping_ok_logged w = true -> db.ping w = (Ok b, w') ->
        _ping_ok_logged w' = true
        /\ ping_ok_count (log_history w') = ping_ok_count (log_history w)).
Proof.
  split; [|split; [|split]].
  - intros n w Hl Hc. apply after_pings_invariant; [auto | lia].
  - intros w w' H. pose proof (ping_latch w) as P. unfold latch_outcome in P.
    rewrite H in P. apply P.
  - intros w w' Hl H. pose proof (ping_latch w) as P. unfold latch_outcome in P.
    rewrite H, Hl in P. simpl in P. destruct P as [_ ->]. lia.
  - intros w b w' Hl H. pose proof (ping_latch w) as P. unfold latch_outcome in P.
    rewrite H, Hl in P. simpl in P. destruct b.
    + destruct P as [-> ->]. split; [reflexivity | lia].
    + destruct P as [-> ->]. split; [assumption | reflexivity].
Qed.

Lemma ping_ok_logged_at_most_once_witness :
  let w := sample.start sample.mysql_explicit sample.healthy [] in
  (ping_ok_count (log_history (after_pings 5 w)) <= 1)%nat
  /\ _ping_ok_logged (snd (db.ping w)) = true
  /\ ping_ok_count (log_history (snd (db.ping w))) = 1%nat
  /\ ping_ok_count (log_history (snd (db.ping (snd (db.ping w))))) = 1%nat.
Proof.
  intros w. split; [|split; [|split]].
  - apply (proj1 ping_ok_logged_at_most_once 5%nat w); reflexivity.
  - apply (proj1 (proj2 ping_ok_logged_at_most_once) w (snd (db.ping w))).
    vm_compute. reflexivity.
  - apply (proj1 (proj2 (proj2 ping_ok_logged_at_most_once)) w (snd (db.ping w)));
      vm_compute; reflexivity.
  - refine (eq_trans
              (proj2 (proj2 (proj2 (proj2 ping_ok_logged_at_most_once))
                        (snd (db.ping w)) true (snd (db.ping (snd (db.ping w)))) _ _))
              _);
      vm_compute; reflexivity.
Defined.

(** Five pings of a healthy backend: five successes, one success entry. *)
Example five_pings_one_entry :
  let w := after_pings 5 (sample.start sample.mysql_explicit sample.healthy []) in
  map msg (log_history w) = ["Ping OK (MySQL/MariaDB)"]
  /\ length (calls w) = 25%nat.
Proof. vm_compute. split; reflexivity. Qed.
(** ** The dispatcher without a resolved backend *)

Lemma undetermined_unconfigured (c : config.t) :
  db.get_db_type c = None -> db.is_configured c = false.
Proof. intros H. unfold db.is_configured. now rewrite H. Qed.

(** C5, as amended.  When the backend type is undetermined no public
    operation of the dispatcher touches the world, so none attempts a
    database connection or writes to the log: [get_tables] returns the
    record [{"error": ...}] that says the database is not configured,
    [get_items], [get_item_by_id] and [create_item] return [None], and
    [ping] returns [False]. *)
Theorem undetermined_operations (w : World) :
  db.get_db_type (config_module w) = None ->
  db.get_tables w
    = (Ok (db.Error "DB가 설정되지 않았습니다. DB_TYPE, DB_HOST, DB_NAME 등 환경 변수를 확인하세요."), w)
  /\ db.get_items w = (Ok None, w)
  /\ (forall id, db.get_item_by_id id w = (Ok None, w))
  /\ (forall name, db.create_item name w = (Ok None, w))
  /\ db.ping w = (Ok false, w).
Proof.
  intros H. apply undetermined_unconfigured in H.
  unfold db.get_tables, db.get_items, db.get_item_by_id, db.create_item, db.ping.
  unfold bind, get. rewrite H. repeat split.
Qed.

Lemma undetermined_operations_witness :
  let w := sample.start sample.other_port sample.healthy [] in
  db.get_items w = (Ok None, w)
  /\ db.ping w = (Ok false, w)
  /\ calls (snd (db.create_item (py.PyStr "widget") w)) = [].
Proof.
  intros w.
  destruct (undetermined_operations w eq_refl) as (_ & Hitems & _ & Hcreate & Hping).
  split; [exact Hitems|]. split; [exact Hping|].
  rewrite (Hcreate (py.PyStr "widget")). reflexivity.
Defined.

(** The claim as the specification words it: all five operations hand
    back a structured error.  Four of them do not: with nothing
    configured [get_items] returns [None]. *)
Lemma undetermined_results_not_structured :
  ~ (forall w : World,
       db.get_db_type (config_module w) = None ->
       (exists r w', db.get_tables w = (Ok r, w') /\ structured_error (of_tables r))
       /\ (exists r w', db.get_items w = (Ok r, w') /\ structured_error (of_items r))
       /\ (forall id, exists r w',
             db.get_item_by_id id w = (Ok r, w') /\ structured_error (of_item r))
       /\ (forall name, exists r w',
             db.create_item name w = (Ok r, w') /\ structured_error (of_item r))
       /\ (exists b w', db.ping w = (Ok b, w') /\ structured_error (R_bool b))).
Proof.
  intros H.
  destruct (H (sample.start sample.unset sample.healthy []) eq_refl)
    as (_ & (r & w' & Hrun & m & Hm) & _).
  vm_compute in Hrun. injection Hrun as <- _. discriminate Hm.
Qed.

(** For [get_item_by_id] the answer without configuration is the answer
    a configured, empty collection gives for a missing item. *)
Example not_configured_looks_like_not_found :
  fst (db.get_item_by_id 7 (sample.start sample.unset sample.healthy [])) = Ok None
  /\ fst (db.get_item_by_id 7 (sample.start sample.mongo sample.healthy [])) = Ok None.
Proof. vm_compute. split; reflexivity. Qed.
(** ** The availability gate *)

Lemma probe_path (p : string) :
  py.in_strs (Some p) ["/ok"; "/gateway-timeout"] = false
  <-> p <> "/ok" /\ p <> "/gateway-timeout".
Proof.
  rewrite <- not_true_iff_false, in_strs_elem_of, !elem_of_cons, elem_of_nil.
  tauto.
Qed.

Lemma access_denied_html_spec (w : World) :
  exists html,
    app.get_access_denied_html w = (Ok html, w)
    /\ String.prefix "<!DOCTYPE html>" html = true.
Proof.
  unfold app.get_access_denied_html, db_logger.get_logs, bind, get, ret.
  eexists. split; [reflexivity|]. apply prefix_app.
Qed.

Lemma access_denied_response_spec (w : World) :
  exists html,
    app.get_access_denied_html w = (Ok html, w)
    /\ String.prefix "<!DOCTYPE html>" html = true
    /\ app.access_denied_response w
       = (Ok {| app.body := html; app.status := 200;
                app.mimetype := "text/html; charset=utf-8";
                app.headers := [("X-Service-Status", "unavailable")] |}, w).
Proof.
  destruct (access_denied_html_spec w) as (html & Hrun & Hp).
  exists html. split; [exact Hrun|]. split; [exact Hp|].
  unfold app.access_denied_response. now rewrite (bind_ok _ _ _ _ _ Hrun).
Qed.

(** The gate answers a probe path with [None] and touches nothing. *)
Lemma gate_probe (request : app.Request) (w : World) :
  py.in_strs (Some (app.path request)) ["/ok"; "/gateway-timeout"] = true ->
  app.check_db_before_request request w = (Ok None, w).
Proof. intros H. unfold app.check_db_before_request. now rewrite H. Qed.

(** The denial both branches build: the entry is logged, then the page
    is rendered from the log that already holds it. *)
Lemma deny_spec (m : string) (w : World) :
  exists html entry w',
    (db_logger.add_log m false ;; r <- app.access_denied_response ;; ret (Some r)) w
    = (Ok (Some {| app.body := html; app.status := 200;
                   app.mimetype := "text/html; charset=utf-8";
                   app.headers := [("X-Service-Status", "unavailable")] |}), w')
    /\ app.get_access_denied_html w' = (Ok html, w')
    /\ String.prefix "<!DOCTYPE html>" html = true
    /\ msg entry = m /\ isError entry = false
    /\ log_history w' = (log_history w ++ [entry])%list
    /\ last (_logs w') = Some entry
    /\ calls w' = calls w.
Proof.
  destruct (add_log_spec m false w) as (w' & Hrun & Hlogs & Hh & Hc & _).
  destruct (access_denied_response_spec w') as (html & Hhtml & Hp & Hresp).
  exists html, (mk_entry (py.strftime_ms_Z (clock w (ticks w))) m false), w'.
  rewrite (bind_ok _ _ _ _ _ Hrun), (bind_ok _ _ _ _ _ Hresp), Hlogs, last_append_trim.
  repeat split; assumption.
Qed.

Lemma gate_unconfigured (request : app.Request) (w : World) :
  py.in_strs (Some (app.path request)) ["/ok"; "/gateway-timeout"] = false ->
  db.is_configured (config_module w) = false ->
  app.check_db_before_request request w
  = (db_logger.add_log
       "Access denied: DB not configured (DB_TYPE/DB_HOST/DB_NAME or DB_PORT for inference)"
       false ;;
     r <- app.access_denied_response ;; ret (Some r)) w.
Proof.
  intros Hp Hc. unfold app.check_db_before_request. rewrite Hp.
  rewrite (bind_ok (get config_module) _ w w (config_module w) eq_refl), Hc.
  reflexivity.
Qed.

Lemma gate_configured (request : app.Request) (w w1 : World) (alive : bool) :
  py.in_strs (Some (app.path request)) ["/ok"; "/gateway-timeout"] = false ->
  db.is_configured (config_module w) = true ->
  db.ping w = (Ok alive, w1) ->
  app.check_db_before_request request w
  = if alive then (Ok None, w1)
    else (db_logger.add_log "Access denied: DB ping failed" false ;;
          r <- app.access_denied_response ;; ret (Some r)) w1.
Proof.
  intros Hp Hc Hping. unfold app.check_db_before_request. rewrite Hp.
  rewrite (bind_ok (get config_module) _ w w (config_module w) eq_refl), Hc.
  cbv [negb]. rewrite (bind_ok _ _ _ _ _ Hping). destruct alive; reflexivity.
Qed.

(** ** What the diagnostic page shows *)

Lemma append_assoc (a b c : string) : (a ++ b) ++ c = a ++ b ++ c.
Proof.
  induction a as [|x a IH]; [reflexivity|].
  change (String x ((a ++ b) ++ c) = String x (a ++ b ++ c)). now rewrite IH.
Qed.

Lemma occurs_in_refl (t : string) : occurs_in t t.
Proof. exists "", "". now rewrite append_empty_r. Qed.

Lemma occurs_in_head (t s : string) : occurs_in t (t ++ s).
Proof. now exists "", s. Qed.

Lemma occurs_in_app_r (t p s : string) : occurs_in t s -> occurs_in t (p ++ s).
Proof. intros (a & b & ->). exists (p ++ a), b. now rewrite append_assoc. Qed.

Lemma occurs_in_app_l (t s q : string) : occurs_in t s -> occurs_in t (s ++ q).
Proof. intros (a & b & ->). exists a, (b ++ q). now rewrite !append_assoc. Qed.

Lemma occurs_in_trans (t s u : string) : occurs_in t s -> occurs_in s u -> occurs_in t u.
Proof. intros H (a & b & ->). now apply occurs_in_app_r, occurs_in_app_l. Qed.

(** An element of a joined list occurs in the result. *)
Lemma occurs_in_join (sep x : string) (l : list string) :
  x ∈ l -> occurs_in x (app.join sep l).
Proof.
  induction l as [|y l IH]; [intros H; now apply elem_of_nil in H|].
  intros H. apply elem_of_cons in H as [->|H].
  - destruct l; [apply occurs_in_refl | apply occurs_in_head].
  - destruct l as [|z l]; [now apply elem_of_nil in H|].
    change (app.join sep (y :: z :: l)) with (y ++ sep ++ app.join sep (z :: l)).
    now apply occurs_in_app_r, occurs_in_app_r, IH.
Qed.

Lemma html_escape_app (s t : string) :
  py.html_escape (s ++ t) = py.html_escape s ++ py.html_escape t.
Proof.
  induction s as [|c s IH]; [reflexivity|].
  change (String c s ++ t) with (String c (s ++ t)). cbn [py.html_escape].
  now rewrite IH, append_assoc.
Qed.

(** Escaping keeps what occurs where it occurs. *)
Lemma occurs_in_escape (t s : string) :
  occurs_in t s -> occurs_in (app.escape_html t) (app.escape_html s).
Proof.
  intros (a & b & ->). unfold app.escape_html. rewrite !html_escape_app.
  now apply occurs_in_app_r, occurs_in_head.
Qed.

(** Finds [t] among the pieces of a concatenation. *)
Ltac find_in :=
  first
    [ apply occurs_in_refl
    | apply occurs_in_head
    | apply occurs_in_app_l; solve [find_in]
    | apply occurs_in_app_r; solve [find_in] ].

(** The page: its first line, a row of the table for each variable of
    the configuration, and every line of the log, escaped; or the
    placeholder when the log is empty. *)
Lemma page_content (w : World) :
  exists html,
    app.get_access_denied_html w = (Ok html, w)
    /\ String.prefix "<!DOCTYPE html>" html = true
    /\ occurs_in unavailable_notice html
    /\ (forall kv, kv ∈ app.get_db_env_for_display (config_module w) ->
          occurs_in (app.env_row kv) html)
    /\ (forall e, e ∈ _logs w -> occurs_in (app.escape_html (app.log_line e)) html)
    /\ (_logs w = [] -> occurs_in "(아직 로그 없음)" html).
Proof.
  unfold app.get_access_denied_html.
  rewrite (bind_ok (get config_module) _ w w (config_module w) eq_refl).
  cbv beta zeta.
  rewrite (bind_ok db_logger.get_logs _ w w (_logs w) eq_refl).
  eexists. split; [reflexivity|]. split; [apply prefix_app|].
  split; [apply (occurs_in_trans _ ("  " ++ unavailable_notice));
          [apply occurs_in_app_r, occurs_in_refl | find_in]|].
  split; [|split].
  - intros kv Hkv.
    apply (occurs_in_trans _ (app.join "" (map app.env_row
             (app.get_db_env_for_display (config_module w))))).
    + apply occurs_in_join, list_elem_of_fmap. now exists kv.
    + find_in.
  - intros e He.
    apply (occurs_in_trans _ (app.escape_html (app.join app.nl (map app.log_line (_logs w))))).
    + apply occurs_in_escape, occurs_in_join, list_elem_of_fmap. now exists e.
    + destruct (_logs w) as [|e0 l]; [now apply elem_of_nil in He|]. find_in.
  - intros ->. apply (occurs_in_trans _ (app.escape_html "(아직 로그 없음)")).
    + vm_compute. apply occurs_in_refl.
    + find_in.
Qed.

Lemma settings_table_eq (c : config.t) :
  app.get_db_env_for_display c = settings_table c.
Proof.
  unfold app.get_db_env_for_display, settings_table, app.display.
  destruct (config.DB_TYPE c) as [[|? ?]|], (config.DB_HOST c) as [[|? ?]|],
    (config.DB_PORT c) as [[|? ?]|], (config.DB_NAME c) as [[|? ?]|],
    (config.DB_USER c) as [[|? ?]|], (config.DB_PASSWORD c) as [[|? ?]|]; reflexivity.
Qed.

(** A line of the log that is no error shows its message, escaped by
    [log_line] and again with the block. *)
Lemma log_line_shows_msg (e : LogEntry) :
  occurs_in (app.escape_html (app.escape_html (msg e))) (app.escape_html (app.log_line e)).
Proof.
  apply occurs_in_escape. unfold app.log_line. find_in.
Qed.

(** A denial: the entry goes to the log, and the page rendered after it
    shows the notice, the settings with the password masked, every
    line of the log and so the entry itself. *)
Lemma deny_page (m : string) (w : World) :
  exists html w',
    (db_logger.add_log m false ;; r <- app.access_denied_response ;; ret (Some r)) w
    = (Ok (Some {| app.body := html; app.status := 200;
                   app.mimetype := "text/html; charset=utf-8";
                   app.headers := [("X-Service-Status", "unavailable")] |}), w')
    /\ occurs_in unavailable_notice html
    /\ (forall kv, kv ∈ settings_table (config_module w) -> occurs_in (app.env_row kv) html)
    /\ (forall e, e ∈ _logs w' -> occurs_in (app.escape_html (app.log_line e)) html)
    /\ occurs_in (app.escape_html (app.escape_html m)) html.
Proof.
  destruct (add_log_spec m false w) as (w' & Hrun & Hlogs & _ & _ & Hcfg).
  destruct (page_content w') as (html & Hhtml & _ & Hn & Hrows & Hlines & _).
  exists html, w'.
  split.
  - destruct (access_denied_response_spec w') as (h & Hh & _ & Hresp).
    rewrite Hhtml in Hh. injection Hh as <-.
    rewrite (bind_ok _ _ _ _ _ Hrun), (bind_ok _ _ _ _ _ Hresp). reflexivity.
  - split; [exact Hn|]. split; [|split; [exact Hlines|]].
    + intros kv Hkv. apply Hrows. now rewrite Hcfg, settings_table_eq.
    + set (entry := mk_entry (py.strftime_ms_Z (clock w (ticks w))) m false).
      apply (occurs_in_trans _ (app.escape_html (app.log_line entry))).
      * exact (log_line_shows_msg entry).
      * apply Hlines. rewrite Hlogs.
        destruct (proj1 (last_Some _ _) (last_append_trim entry (_logs w))) as (l' & Hl).
        unfold entry in Hl. rewrite Hl. apply elem_of_app. right. now left.
Qed.

(** C3.  For every request whose path is neither /ok nor
    /gateway-timeout, when configuration is absent the gate appends the
    access-denied entry to the log and the response is the diagnostic
    HTML page with status 200, whatever the views of the application
    are: no view runs and no driver call is made.  The page starts
    with its doctype and shows the notice that the service is
    unavailable, a table row for each of the seven settings (the value
    as configured, a placeholder when unset, asterisks for a password
    that is set) and every line of the log, the new entry's text among
    them.  The GET requests to
    /ok and /gateway-timeout are answered "OK" with status 200 and
    "Gateway Timeout" with status 504 as plain text in every world, and
    leave the world untouched. *)
Theorem gate_denies_unconfigured_probes_bypass :
  (forall (request : app.Request) (w : World),
     app.path request <> "/ok" -> app.path request <> "/gateway-timeout" ->
     db.is_configured (config_module w) = false ->
     exists html entry w',
       (forall view_functions : app.Request -> M app.Response,
          app.full_dispatch_request view_functions request w
          = (Ok {| app.body := html; app.status := 200;
                   app.mimetype := "text/html; charset=utf-8";
                   app.headers := [("X-Service-Status", "unavailable")] |}, w'))
       /\ app.get_access_denied_html w' = (Ok html, w')
       /\ String.prefix "<!DOCTYPE html>" html = true
       /\ msg entry
          = "Access denied: DB not configured (DB_TYPE/DB_HOST/DB_NAME or DB_PORT for inference)"
       /\ isError entry = false
       /\ log_history w' = (log_history w ++ [entry])%list
       /\ last (_logs w') = Some entry
       /\ calls w' = calls w
       /\ occurs_in unavailable_notice html
       /\ (forall kv, kv ∈ settings_table (config_module w) ->
             occurs_in (app.env_row kv) html)
       /\ (forall e, e ∈ _logs w' -> occurs_in (app.escape_html (app.log_line e)) html)
       /\ occurs_in
            "Access denied: DB not configured (DB_TYPE/DB_HOST/DB_NAME or DB_PORT for inference)"
            html)
  /\ (forall (view_functions : app.Request -> M app.Response) (w : World),
        app.full_dispatch_request view_functions (app.mk_request "GET" "/ok") w
        = (Ok {| app.body := "OK"; app.status := 200; app.mimetype := "text/plain";
                 app.headers := [] |}, w))
  /\ (forall (view_functions : app.Request -> M app.Response) (w : World),
        app.full_dispatch_request view_functions (app.mk_request "GET" "/gateway-timeout") w
        = (Ok {| app.body := "Gateway Timeout"; app.status := 504;
                 app.mimetype := "text/plain"; app.headers := [] |}, w)).
Proof.
  split; [|split].
  - intros request w H1 H2 Hc.
    pose proof (proj2 (probe_path (app.path request)) (conj H1 H2)) as Hp.
    destruct (deny_spec
      "Access denied: DB not configured (DB_TYPE/DB_HOST/DB_NAME or DB_PORT for inference)" w)
      as (html & entry & w' & Hrun & Hhtml & Hpre & Hm & He & Hh & Hl & Hcalls).
    destruct (deny_page
      "Access denied: DB not configured (DB_TYPE/DB_HOST/DB_NAME or DB_PORT for inference)" w)
      as (html2 & w2 & Hrun2 & Hn & Hrows & Hlines & Htext).
    rewrite Hrun in Hrun2. injection Hrun2 as <- <-.
    assert (E : app.escape_html (app.escape_html
                  "Access denied: DB not configured (DB_TYPE/DB_HOST/DB_NAME or DB_PORT for inference)")
                = "Access denied: DB not configured (DB_TYPE/DB_HOST/DB_NAME or DB_PORT for inference)")
      by (vm_compute; reflexivity).
    rewrite E in Htext.
    exists html, entry, w'. split; [|repeat split; assumption].
    intros view_functions. unfold app.full_dispatch_request.
    rewrite <- (gate_unconfigured request w Hp Hc) in Hrun.
    now rewrite (bind_ok _ _ _ _ _ Hrun).
  - intros view_functions w. unfold app.full_dispatch_request.
    now rewrite (bind_ok _ _ _ _ _ (gate_probe (app.mk_request "GET" "/ok") w eq_refl)).
  - intros view_functions w. unfold app.full_dispatch_request.
    now rewrite (bind_ok _ _ _ _ _
                   (gate_probe (app.mk_request "GET" "/gateway-timeout") w eq_refl)).
Qed.

Lemma gate_denies_unconfigured_probes_bypass_witness :
  let w := sample.start sample.unset sample.healthy [] in
  let request := app.mk_request "POST" "/api/items" in
  exists r w',
    app.full_dispatch_request
      (fun _ => raise (Exception "AssertionError" "a view was reached")) request w
    = (Ok r, w')
    /\ app.status r = 200
    /\ app.mimetype r = "text/html; charset=utf-8"
    /\ map msg (log_history w')
       = ["Access denied: DB not configured (DB_TYPE/DB_HOST/DB_NAME or DB_PORT for inference)"].
Proof.
  intros w request.
  destruct (proj1 gate_denies_unconfigured_probes_bypass request w
              ltac:(discriminate) ltac:(discriminate) eq_refl)
    as (html & entry & w' & Hrun & _ & _ & Hm & _ & Hh & _).
  eexists. exists w'. split; [apply Hrun|].
  split; [reflexivity|]. split; [reflexivity|].
  rewrite Hh. simpl. now rewrite Hm.
Defined.

(** The probes answer the same when nothing is configured and when the
    database is down. *)
Example probes_in_any_state :
  let view := fun _ : app.Request => raise (Exception "AssertionError" "a view was reached") in
  map (fun w => fst (app.full_dispatch_request view (app.mk_request "GET" "/ok") w))
    [sample.start sample.unset sample.healthy [];
     sample.start sample.mysql_explicit sample.query_fails []]
  = [Ok (app.mk_response "OK" 200 "text/plain" []);
     Ok (app.mk_response "OK" 200 "text/plain" [])].
Proof. vm_compute. reflexivity. Qed.

(** C10.  Every response the gate itself produces, whether for absent
    configuration or for a failed ping, has status 200 and carries the
    header X-Service-Status: unavailable; both denial cases do produce
    such a response; the fixed answers of the two probes carry no such
    header. *)
Theorem denial_carries_unavailable_header :
  (forall (request : app.Request) (w w' : World) (r : app.Response),
     app.check_db_before_request request w = (Ok (Some r), w') ->
     app.status r = 200 /\ ("X-Service-Status", "unavailable") ∈ app.headers r)
  /\ (forall (request : app.Request) (w : World),
        app.path request <> "/ok" -> app.path request <> "/gateway-timeout" ->
        db.is_configured (config_module w) = false ->
        exists r w',
          app.check_db_before_request request w = (Ok (Some r), w')
          /\ app.status r = 200
          /\ ("X-Service-Status", "unavailable") ∈ app.headers r)
  /\ (forall (request : app.Request) (w w1 : World),
        app.path request <> "/ok" -> app.path request <> "/gateway-timeout" ->
        db.is_configured (config_module w) = true ->
        db.ping w = (Ok false, w1) ->
        exists r w',
          app.check_db_before_request request w = (Ok (Some r), w')
          /\ app.status r = 200
          /\ ("X-Service-Status", "unavailable") ∈ app.headers r)
  /\ (forall (w : World) (r : app.Response),
        fst (app.ok w) = Ok r \/ fst (app.gateway_timeout w) = Ok r ->
        ("X-Service-Status", "unavailable") ∉ app.headers r).
Proof.
  assert (Hdeny : forall m w,
            exists r w',
              (db_logger.add_log m false ;; r <- app.access_denied_response ;; ret (Some r)) w
              = (Ok (Some r), w')
              /\ app.status r = 200
              /\ ("X-Service-Status", "unavailable") ∈ app.headers r).
  { intros m w. destruct (deny_spec m w) as (html & entry & w' & Hrun & _).
    eexists. exists w'. split; [exact Hrun|]. split; [reflexivity|]. simpl. left. }
  split; [|split; [|split]].
  - intros request w w' r Hrun.
    destruct (py.in_strs (Some (app.path request)) ["/ok"; "/gateway-timeout"]) eqn:Hp.
    { rewrite (gate_probe request w Hp) in Hrun. discriminate. }
    destruct (db.is_configured (config_module w)) eqn:Hc.
    + destruct (ping_returns w) as (alive & w1 & Hping).
      rewrite (gate_configured request w w1 alive Hp Hc Hping) in Hrun.
      destruct alive; [discriminate|].
      destruct (Hdeny "Access denied: DB ping failed" w1) as (r' & w'' & Hrun' & Hs & Hh).
      rewrite Hrun' in Hrun. injection Hrun as <- _. auto.
    + rewrite (gate_unconfigured request w Hp Hc) in Hrun.
      destruct (Hdeny
        "Access denied: DB not configured (DB_TYPE/DB_HOST/DB_NAME or DB_PORT for inference)" w)
        as (r' & w'' & Hrun' & Hs & Hh).
      rewrite Hrun' in Hrun. injection Hrun as <- _. auto.
  - intros request w H1 H2 Hc.
    rewrite (gate_unconfigured request w (proj2 (probe_path _) (conj H1 H2)) Hc).
    apply Hdeny.
  - intros request w w1 H1 H2 Hc Hping.
    rewrite (gate_configured request w w1 false (proj2 (probe_path _) (conj H1 H2)) Hc Hping).
    apply Hdeny.
  - intros w r [H|H]; injection H as <-; simpl; apply not_elem_of_nil.
Qed.

Lemma denial_carries_unavailable_header_witness :
  let request := app.mk_request "GET" "/api/tables" in
  (exists r w',
     app.check_db_before_request request (sample.start sample.no_host sample.healthy [])
     = (Ok (Some r), w')
     /\ app.status r = 200 /\ ("X-Service-Status", "unavailable") ∈ app.headers r)
  /\ (exists r w',
        app.check_db_before_request request
          (sample.start sample.mysql_explicit sample.query_fails [])
        = (Ok (Some r), w')
        /\ app.status r = 200 /\ ("X-Service-Status", "unavailable") ∈ app.headers r).
Proof.
  intros request. split.
  - apply (proj1 (proj2 denial_carries_unavailable_header) request
             (sample.start sample.no_host sample.healthy []));
      [discriminate | discriminate | reflexivity].
  - apply (proj1 (proj2 (proj2 denial_carries_unavailable_header)) request
             (sample.start sample.mysql_explicit sample.query_fails [])
             (snd (db.ping (sample.start sample.mysql_explicit sample.query_fails []))));
      [discriminate | discriminate | reflexivity | vm_compute; reflexivity].
Defined.
(** ** The document-store adapter *)

Lemma greatest_by_id_None (l : list mongo_doc) :
  db.greatest_by_id l = None <-> l = [].
Proof.
  destruct l as [|d l]; simpl; [tauto|].
  split; [|discriminate].
  destruct (db.greatest_by_id l) as [m|]; [destruct (d_id d <? d_id m)|]; discriminate.
Qed.

(** [greatest_by_id] picks a document of the collection whose [id] no
    other exceeds. *)
Lemma greatest_by_id_Some (l : list mongo_doc) (m : mongo_doc) :
  db.greatest_by_id l = Some m ->
  m ∈ l /\ forall d, d ∈ l -> d_id d <= d_id m.
Proof.
  revert m. induction l as [|x l IH]; intros m; simpl; [discriminate|].
  destruct (db.greatest_by_id l) as [g|] eqn:E.
  - destruct (IH g eq_refl) as [Hin Hmax].
    destruct (Z.ltb_spec (d_id x) (d_id g)); intros [= <-].
    + split; [now right|]. intros d [->|Hd]%elem_of_cons; [lia | auto].
    + split; [now left|]. intros d [->|Hd]%elem_of_cons; [lia|].
      specialize (Hmax d Hd). lia.
  - apply greatest_by_id_None in E. subst l. intros [= <-].
    split; [now left|]. intros d [->|Hd]%elem_of_cons; [lia|].
    now apply elem_of_nil in Hd.
Qed.

Lemma insert_by_id_perm (d : mongo_doc) (l : list mongo_doc) :
  db.insert_by_id d l ≡ₚ d :: l.
Proof.
  induction l as [|x l IH]; simpl; [reflexivity|].
  destruct (d_id d <=? d_id x); [reflexivity|].
  rewrite IH. apply Permutation_swap.
Qed.

Lemma sort_by_id_perm (l : list mongo_doc) : db.sort_by_id l ≡ₚ l.
Proof.
  induction l as [|x l IH]; simpl; [reflexivity|].
  rewrite insert_by_id_perm. now rewrite IH.
Qed.

Lemma insert_by_id_sorted (d : mongo_doc) (l : list mongo_doc) :
  StronglySorted (fun a b => d_id a <= d_id b) l ->
  StronglySorted (fun a b => d_id a <= d_id b) (db.insert_by_id d l).
Proof.
  induction 1 as [|x l Hs IH Hx]; simpl.
  - repeat constructor.
  - destruct (Z.leb_spec (d_id d) (d_id x)).
    + constructor; [now constructor|].
      constructor; [assumption|].
      eapply Forall_impl; [exact Hx|]. simpl. intros; lia.
    + constructor; [exact IH|].
      rewrite insert_by_id_perm. constructor; [lia | exact Hx].
Qed.

Lemma sort_by_id_sorted (l : list mongo_doc) :
  StronglySorted (fun a b => d_id a <= d_id b) (db.sort_by_id l).
Proof.
  induction l as [|x l IH]; simpl; [constructor|].
  now apply insert_by_id_sorted.
Qed.

Lemma driver_ok (c : driver_call) (w : World) :
  no_faults w ->
  driver c w = (Ok (length (calls w)), set_calls (calls w ++ [c]) w).
Proof. intros H. unfold driver. now rewrite H. Qed.

Lemma port_or_ok (c : config.t) (d : Z) (w : World) :
  port_ok c -> exists p, db.port_or c d w = (Ok p, w).
Proof.
  unfold port_ok, db.port_or, py_int, lift.
  intros [H|[p H]].
  - rewrite H. eexists. reflexivity.
  - rewrite H. destruct (py.opt_truthy _); eexists; reflexivity.
Qed.

(** With a healthy driver and a usable port the client is obtained; the
    driver stays healthy and the collection is as it was. *)
Lemma get_mongo_db_ok (w : World) :
  no_faults w -> port_ok (config_module w) ->
  exists w',
    db._get_mongo_db w = (Ok tt, w')
    /\ no_faults w'
    /\ mongo_items w' = mongo_items w.
Proof.
  intros Hf Hp. unfold db._get_mongo_db.
  rewrite (bind_ok (get _mongo_db) _ w w (_mongo_db w) eq_refl).
  destruct (_mongo_db w); [exists w; auto|].
  rewrite (bind_ok (get config_module) _ w w (config_module w) eq_refl).
  destruct (port_or_ok (config_module w) 27017 w Hp) as (p & Hport).
  rewrite (bind_ok _ _ _ _ _ Hport). cbv zeta.
  match goal with |- context [db_logger.add_log ?m false] =>
    destruct (add_log_spec m false w) as (w1 & Hlog & _);
    assert (Hw1 : w1 = snd (db_logger.add_log m false w)) by now rewrite Hlog
  end.
  rewrite (bind_ok _ _ _ _ _ Hlog).
  assert (Hf1 : no_faults w1) by (subst w1; exact Hf).
  rewrite (bind_ok _ _ _ _ _ (driver_ok _ w1 Hf1)).
  rewrite (bind_ok (modify (set_mongo_client true)) _ _ _ tt eq_refl).
  match goal with |- context [bind (driver ?c) _ ?w2] =>
    assert (Hf2 : no_faults w2) by exact Hf1;
    rewrite (bind_ok _ _ _ _ _ (driver_ok c w2 Hf2))
  end.
  eexists. split; [reflexivity|]. split; [exact Hf1|].
  subst w1. reflexivity.
Qed.

(** One step of a run in a world where no driver call fails. *)
Ltac step Hf :=
  lazymatch goal with
  | |- context [bind (get ?f) ?k ?w] =>
      rewrite (bind_ok (get f) k w w (f w) eq_refl)
  | |- context [bind utcnow ?k ?w] =>
      rewrite (bind_ok utcnow k w _ _ eq_refl)
  | |- context [bind (modify ?f) ?k ?w] =>
      rewrite (bind_ok (modify f) k w _ tt eq_refl)
  | |- context [bind (driver ?c) ?k ?w] =>
      let H := fresh in
      assert (H : no_faults w) by exact Hf;
      rewrite (bind_ok (driver c) k w _ _ (driver_ok c w H)); clear H
  end; cbv beta zeta.

Lemma doc_dict_id (d : mongo_doc) : py.dict_get (db.doc_dict d) "id" = py.PyInt (d_id d).
Proof.
  unfold py.dict_get, db.doc_dict, py.dict_of_pairs. simpl.
  rewrite !lookup_insert_ne by discriminate. now rewrite lookup_insert_eq.
Qed.

Lemma mongo_item_id (d : mongo_doc) :
  db._mongo_doc_to_item (db.doc_dict d) !! "id" = Some (py.PyInt (d_id d)).
Proof. unfold db._mongo_doc_to_item. cbv zeta. now rewrite three_fields_id, doc_dict_id. Qed.

(** C9.  With a healthy driver, [_mongo_create_item] gives the new item
    the id 1 when the collection is empty and otherwise the greatest id
    of the collection plus one, and stores the document under that id;
    [_mongo_get_items] returns the items of the collection in ascending
    order of id. *)
Theorem mongo_next_id_and_order :
  (forall (name : py.value) (w : World),
     no_faults w -> port_ok (config_module w) ->
     exists item w' next_id created,
       db._mongo_create_item name w = (Ok item, w')
       /\ item !! "id" = Some (py.PyInt next_id)
       /\ (mongo_items w = [] -> next_id = 1)
       /\ (mongo_items w <> [] ->
           exists d, d ∈ mongo_items w /\ next_id = d_id d + 1)
       /\ (forall d, d ∈ mongo_items w -> d_id d + 1 <= next_id)
       /\ mongo_items w'
          = (mongo_items w ++ [mk_doc next_id (db.bson_value name) created])%list)
  /\ (forall w : World,
        no_faults w -> port_ok (config_module w) ->
        exists docs w',
          db._mongo_get_items w
          = (Ok (map (fun d => db._mongo_doc_to_item (db.doc_dict d)) docs), w')
          /\ docs ≡ₚ mongo_items w
          /\ StronglySorted (fun a b => d_id a <= d_id b) docs
          /\ (forall d, db._mongo_doc_to_item (db.doc_dict d) !! "id"
                        = Some (py.PyInt (d_id d)))).
Proof.
  split.
  - intros name w Hf Hp. unfold db._mongo_create_item.
    destruct (get_mongo_db_ok w Hf Hp) as (w1 & Hdb & Hf1 & Hitems).
    rewrite (bind_ok _ _ _ _ _ Hdb).
    step Hf1. step Hf1. step Hf1. step Hf1. step Hf1.
    simpl mongo_items. rewrite Hitems.
    destruct (db.greatest_by_id (mongo_items w)) as [m|] eqn:E.
    + destruct (greatest_by_id_Some _ _ E) as [Hin Hmax].
      eexists. eexists. exists (d_id m + 1). eexists.
      split; [reflexivity|]. split; [apply mongo_item_id|].
      split; [intros H0; rewrite H0 in Hin; now apply elem_of_nil in Hin|].
      split; [intros _; exists m; auto|].
      split; [intros d Hd; specialize (Hmax d Hd); lia | reflexivity].
    + apply greatest_by_id_None in E.
      eexists. eexists. exists 1. eexists.
      split; [reflexivity|]. split; [apply mongo_item_id|].
      split; [reflexivity|]. split; [congruence|].
      split; [intros d Hd; rewrite E in Hd; now apply elem_of_nil in Hd | reflexivity].
  - intros w Hf Hp. unfold db._mongo_get_items.
    destruct (get_mongo_db_ok w Hf Hp) as (w1 & Hdb & Hf1 & Hitems).
    rewrite (bind_ok _ _ _ _ _ Hdb).
    step Hf1. step Hf1.
    simpl mongo_items. rewrite Hitems.
    exists (db.sort_by_id (mongo_items w)). eexists.
    split; [unfold ret; now rewrite map_map|].
    split; [apply sort_by_id_perm|].
    split; [apply sort_by_id_sorted | apply mongo_item_id].
Qed.

Lemma mongo_next_id_and_order_witness :
  let docs := [mk_doc 4 (py.PyStr "d") py.PyNone; mk_doc 9 (py.PyStr "i") py.PyNone;
               mk_doc 2 (py.PyStr "b") py.PyNone] in
  let w := sample.start sample.mongo sample.healthy docs in
  (exists item w' next_id,
     db._mongo_create_item (py.PyStr "widget") w = (Ok item, w')
     /\ item !! "id" = Some (py.PyInt next_id)
     /\ 9 + 1 <= next_id)
  /\ (exists sorted w',
        db._mongo_get_items w
        = (Ok (map (fun d => db._mongo_doc_to_item (db.doc_dict d)) sorted), w')
        /\ sorted ≡ₚ docs
        /\ StronglySorted (fun a b => d_id a <= d_id b) sorted).
Proof.
  intros docs w.
  assert (Hf : no_faults w) by (intros n c; reflexivity).
  assert (Hp : port_ok (config_module w)) by (left; reflexivity).
  split.
  - destruct (proj1 mongo_next_id_and_order (py.PyStr "widget") w Hf Hp)
      as (item & w' & next_id & created & Hrun & Hid & _ & _ & Hall & _).
    exists item, w', next_id. split; [exact Hrun|]. split; [exact Hid|].
    apply (Hall (mk_doc 9 (py.PyStr "i") py.PyNone)). right. left.
  - destruct (proj2 mongo_next_id_and_order w Hf Hp)
      as (sorted & w' & Hrun & Hperm & Hsorted & _).
    exists sorted, w'. split; [exact Hrun|]. split; [exact Hperm | exact Hsorted].
Defined.

(** The same collection, run: the new id is 10 and the listing is 2, 4, 9. *)
Example mongo_create_and_list :
  let docs := [mk_doc 4 (py.PyStr "d") py.PyNone; mk_doc 9 (py.PyStr "i") py.PyNone;
               mk_doc 2 (py.PyStr "b") py.PyNone] in
  let w := sample.start sample.mongo sample.healthy docs in
  match fst (db._mongo_create_item (py.PyStr "widget") w),
        fst (db._mongo_get_items w),
        fst (db._mongo_create_item (py.PyStr "first") (sample.start sample.mongo sample.healthy []))
  with
  | Ok item, Ok items, Ok first =>
      item !! "id" = Some (py.PyInt 10)
      /\ map (fun i => i !! "id") items
         = [Some (py.PyInt 2); Some (py.PyInt 4); Some (py.PyInt 9)]
      /\ first !! "id" = Some (py.PyInt 1)
  | _, _, _ => False
  end.
Proof. vm_compute. repeat split. Qed.


(** * Further properties *)

(** ** The gate, continued *)

(** X1.  When the configuration is complete and the ping fails, the
    gate appends "Access denied: DB ping failed" to the log and the
    response is the diagnostic page with status 200, whatever the views
    are; the denial itself makes no driver call.  The page starts with
    its doctype and shows the notice that the service is unavailable,
    a table row for each of the seven settings with the password
    masked, and every line of the log, the new entry's text among
    them. *)
Theorem gate_denies_failed_ping :
  forall (request : app.Request) (w w1 : World),
    app.path request <> "/ok" -> app.path request <> "/gateway-timeout" ->
    db.is_configured (config_module w) = true ->
    db.ping w = (Ok false, w1) ->
    exists html entry w',
      (forall view_functions : app.Request -> M app.Response,
         app.full_dispatch_request view_functions request w
         = (Ok {| app.body := html; app.status := 200;
                  app.mimetype := "text/html; charset=utf-8";
                  app.headers := [("X-Service-Status", "unavailable")] |}, w'))
      /\ app.get_access_denied_html w' = (Ok html, w')
      /\ msg entry = "Access denied: DB ping failed"
      /\ isError entry = false
      /\ log_history w' = (log_history w1 ++ [entry])%list
      /\ last (_logs w') = Some entry
      /\ calls w' = calls w1
      /\ String.prefix "<!DOCTYPE html>" html = true
      /\ occurs_in unavailable_notice html
      /\ (forall kv, kv ∈ settings_table (config_module w1) ->
            occurs_in (app.env_row kv) html)
      /\ (forall e, e ∈ _logs w' -> occurs_in (app.escape_html (app.log_line e)) html)
      /\ occurs_in "Access denied: DB ping failed" html.
Proof.
  intros request w w1 H1 H2 Hc Hping.
  pose proof (proj2 (probe_path (app.path request)) (conj H1 H2)) as Hp.
  destruct (deny_spec "Access denied: DB ping failed" w1)
    as (html & entry & w' & Hrun & Hhtml & Hpre & Hm & He & Hh & Hl & Hcalls).
  destruct (deny_page "Access denied: DB ping failed" w1)
    as (html2 & w2 & Hrun2 & Hn & Hrows & Hlines & Htext).
  rewrite Hrun in Hrun2. injection Hrun2 as <- <-.
  assert (E : app.escape_html (app.escape_html "Access denied: DB ping failed")
              = "Access denied: DB ping failed")
    by (vm_compute; reflexivity).
  rewrite E in Htext.
  exists html, entry, w'. repeat split; try assumption.
  intros view_functions. unfold app.full_dispatch_request.
  pose proof (gate_configured request w w1 false Hp Hc Hping) as Hgate.
  cbv iota in Hgate. rewrite <- Hgate in Hrun.
  now rewrite (bind_ok _ _ _ _ _ Hrun).
Qed.

Lemma gate_denies_failed_ping_witness :
  let w := sample.start sample.mysql_explicit sample.query_fails [] in
  exists r w',
    app.full_dispatch_request
      (fun _ => raise (Exception "AssertionError" "a view was reached"))
      (app.mk_request "GET" "/api/items") w
    = (Ok r, w')
    /\ app.status r = 200
    /\ map msg (log_history w')
       = ["Ping failed: server closed the connection"; "Access denied: DB ping failed"].
Proof.
  intros w.
  destruct (gate_denies_failed_ping (app.mk_request "GET" "/api/items") w (snd (db.ping w))
              ltac:(discriminate) ltac:(discriminate) eq_refl
              ltac:(vm_compute; reflexivity))
    as (html & entry & w' & Hrun & _ & Hm & _ & Hh & _).
  eexists. exists w'. split; [apply Hrun|]. split; [reflexivity|].
  rewrite Hh, map_app. simpl. rewrite Hm. vm_compute. reflexivity.
Defined.

(** X2.  When the configuration is complete and the ping succeeds, a
    request whose path is not a probe path is answered by its view, run
    in the world the ping left behind. *)
Theorem gate_passes_to_view :
  forall (view_functions : app.Request -> M app.Response)
         (request : app.Request) (w w1 : World),
    app.path request <> "/ok" -> app.path request <> "/gateway-timeout" ->
    db.is_configured (config_module w) = true ->
    db.ping w = (Ok true, w1) ->
    app.full_dispatch_request view_functions request w = view_functions request w1.
Proof.
  intros view request w w1 H1 H2 Hc Hping.
  pose proof (proj2 (probe_path (app.path request)) (conj H1 H2)) as Hp.
  unfold app.full_dispatch_request.
  rewrite (bind_ok _ _ _ _ _ (gate_configured request w w1 true Hp Hc Hping)).
  unfold app.dispatch_request.
  destruct (String.eqb_spec (app.path request) "/ok") as [E|_]; [contradiction|].
  destruct (String.eqb_spec (app.path request) "/gateway-timeout") as [E|_];
    [contradiction|].
  now rewrite !andb_false_r.
Qed.

Lemma gate_passes_to_view_witness :
  let w := sample.start sample.mysql_explicit sample.healthy [] in
  fst (app.full_dispatch_request
         (fun _ => ret (app.mk_response "view" 200 "text/plain" []))
         (app.mk_request "GET" "/api/health") w)
  = Ok (app.mk_response "view" 200 "text/plain" []).
Proof.
  intros w.
  rewrite (gate_passes_to_view _ (app.mk_request "GET" "/api/health") w (snd (db.ping w))
             ltac:(discriminate) ltac:(discriminate) eq_refl
             ltac:(vm_compute; reflexivity)).
  reflexivity.
Defined.

(** X3.  The gate never raises, whatever the drivers do, and it lets a
    request through only on a probe path or when the configuration is
    complete and the ping returned true. *)
Theorem gate_never_raises :
  forall (request : app.Request) (w : World),
    exists rv w',
      app.check_db_before_request request w = (Ok rv, w')
      /\ (rv = None ->
          app.path request = "/ok" \/ app.path request = "/gateway-timeout"
          \/ (db.is_configured (config_module w) = true /\ db.ping w = (Ok true, w'))).
Proof.
  intros request w.
  destruct (py.in_strs (Some (app.path request)) ["/ok"; "/gateway-timeout"]) eqn:Hp.
  { rewrite (gate_probe request w Hp). exists None, w. split; [reflexivity|].
    intros _. apply in_strs_elem_of in Hp.
    rewrite !elem_of_cons, elem_of_nil in Hp. tauto. }
  destruct (db.is_configured (config_module w)) eqn:Hc.
  - destruct (ping_returns w) as (alive & w1 & Hping).
    rewrite (gate_configured request w w1 alive Hp Hc Hping).
    destruct alive.
    + exists None, w1. split; [reflexivity|]. auto.
    + destruct (deny_spec "Access denied: DB ping failed" w1)
        as (html & entry & w' & Hrun & _).
      eexists. exists w'. split; [exact Hrun | discriminate].
  - rewrite (gate_unconfigured request w Hp Hc).
    destruct (deny_spec
      "Access denied: DB not configured (DB_TYPE/DB_HOST/DB_NAME or DB_PORT for inference)" w)
      as (html & entry & w' & Hrun & _).
    eexists. exists w'. split; [exact Hrun | discriminate].
Qed.

Lemma gate_never_raises_witness :
  let w := sample.start sample.mysql_explicit sample.healthy [] in
  exists w',
    app.check_db_before_request (app.mk_request "GET" "/api/items") w = (Ok None, w')
    /\ db.ping w = (Ok true, w').
Proof.
  intros w.
  destruct (gate_never_raises (app.mk_request "GET" "/api/items") w)
    as (rv & w' & Hrun & Hnone).
  assert (Hrv : rv = None).
  { vm_compute in Hrun. now injection Hrun as <- _. }
  subst rv. exists w'. split; [exact Hrun|].
  destruct (Hnone eq_refl) as [H|[H|[_ H]]]; [discriminate H | discriminate H | exact H].
Defined.

(** ** The dispatcher and the routes *)

(** A resolved type selects one of the three adapter families. *)
Lemma kind_cases (t : string) :
  t ∈ db.DB_TYPES ->
  t = "POSTGRESQL" \/ t = "MYSQL" \/ t = "MARIADB" \/ t = "MONGODB".
Proof. unfold db.DB_TYPES. rewrite !elem_of_cons, elem_of_nil. tauto. Qed.

Lemma configured_kind (c : config.t) :
  db.is_configured c = true -> exists t, db.get_db_type c = Some t /\ t ∈ db.DB_TYPES.
Proof.
  unfold db.is_configured. cbv zeta.
  destruct (db.get_db_type c) as [t|] eqn:E; [|discriminate].
  intros _. exists t. split; [reflexivity | now apply get_db_type_kind in E].
Qed.

Lemma get_tables_unconfigured (w : World) :
  db.is_configured (config_module w) = false ->
  db.get_tables w
  = (Ok (db.Error "DB가 설정되지 않았습니다. DB_TYPE, DB_HOST, DB_NAME 등 환경 변수를 확인하세요."), w).
Proof. intros H. unfold db.get_tables, bind, get. now rewrite H. Qed.

Lemma get_tables_configured (w : World) (t : string) :
  db.is_configured (config_module w) = true ->
  db.get_db_type (config_module w) = Some t ->
  db.get_tables w
  = try_except (tables_adapter t) (fun e => ret (db.Error (exc_str e))) w.
Proof.
  intros Hc Ht. pose proof (get_db_type_kind _ _ Ht) as Hk.
  unfold db.get_tables. rewrite (bind_ok (get config_module) _ w w _ eq_refl), Hc, Ht.
  apply kind_cases in Hk as [->|[->|[->| ->]]]; reflexivity.
Qed.

Lemma get_items_unconfigured (w : World) :
  db.is_configured (config_module w) = false -> db.get_items w = (Ok None, w).
Proof. intros H. unfold db.get_items, bind, get. now rewrite H. Qed.

Lemma get_item_by_id_unconfigured (id : Z) (w : World) :
  db.is_configured (config_module w) = false -> db.get_item_by_id id w = (Ok None, w).
Proof. intros H. unfold db.get_item_by_id, bind, get. now rewrite H. Qed.

Lemma create_item_unconfigured (name : py.value) (w : World) :
  db.is_configured (config_module w) = false -> db.create_item name w = (Ok None, w).
Proof. intros H. unfold db.create_item, bind, get. now rewrite H. Qed.

Lemma get_items_configured (w : World) (t : string) :
  db.is_configured (config_module w) = true ->
  db.get_db_type (config_module w) = Some t ->
  db.get_items w = (l <- items_adapter t ;; ret (Some l)) w.
Proof.
  intros Hc Ht. pose proof (get_db_type_kind _ _ Ht) as Hk.
  unfold db.get_items. rewrite (bind_ok (get config_module) _ w w _ eq_refl), Hc, Ht.
  apply kind_cases in Hk as [->|[->|[->| ->]]]; reflexivity.
Qed.

Lemma get_item_by_id_configured (id : Z) (w : World) (t : string) :
  db.is_configured (config_module w) = true ->
  db.get_db_type (config_module w) = Some t ->
  db.get_item_by_id id w = item_adapter t id w.
Proof.
  intros Hc Ht. pose proof (get_db_type_kind _ _ Ht) as Hk.
  unfold db.get_item_by_id. rewrite (bind_ok (get config_module) _ w w _ eq_refl), Hc, Ht.
  apply kind_cases in Hk as [->|[->|[->| ->]]]; reflexivity.
Qed.

Lemma create_item_configured (name : py.value) (w : World) (t : string) :
  db.is_configured (config_module w) = true ->
  db.get_db_type (config_module w) = Some t ->
  db.create_item name w = (i <- create_adapter t name ;; ret (Some i)) w.
Proof.
  intros Hc Ht. pose proof (get_db_type_kind _ _ Ht) as Hk.
  unfold db.create_item. rewrite (bind_ok (get config_module) _ w w _ eq_refl), Hc, Ht.
  apply kind_cases in Hk as [->|[->|[->| ->]]]; reflexivity.
Qed.

Lemma get_tables_returns (w : World) : exists r w', db.get_tables w = (Ok r, w').
Proof.
  destruct (db.is_configured (config_module w)) eqn:Hc.
  - destruct (configured_kind _ Hc) as (t & Ht & _).
    rewrite (get_tables_configured w t Hc Ht). unfold try_except.
    destruct (tables_adapter t w) as [[r|e] w1]; eauto.
  - rewrite (get_tables_unconfigured w Hc). eauto.
Qed.



(** How [jsonify] ends: with the document, or with the [TypeError] for
    the first value it cannot carry. *)
Lemma jsonify_cases (p : routes.payload) :
  (Forall (fun v => routes.jsonable v = true) (routes.payload_values p)
   /\ routes.jsonify p = Ok p)
  \/ (exists v, v ∈ routes.payload_values p /\ routes.jsonable v = false
                /\ routes.jsonify p = Raise (routes.not_serializable v)).
Proof.
  unfold routes.jsonify. generalize (routes.payload_values p). intros l.
  induction l as [|v l IH]; [left; split; [constructor | reflexivity]|].
  cbn [routes.dumps_values]. destruct (routes.jsonable v) eqn:E.
  - destruct IH as [[HF Hj]|(v' & Hin & Hv & Hj)].
    + left. split; [constructor; assumption | exact Hj].
    + right. exists v'. rewrite elem_of_cons. auto.
  - right. exists v. rewrite elem_of_cons. auto.
Qed.

Lemma jsonify_then_ret (p : routes.payload) (s : Z) (w : World) :
  (j <- lift (routes.jsonify p) ;; ret (routes.mk_response j s)) w
  = match routes.jsonify p with
    | Ok j => (Ok (routes.mk_response j s), w)
    | Raise e => (Raise e, w)
    end.
Proof. unfold bind, lift, ret. destruct (routes.jsonify p); reflexivity. Qed.

(** X5.  [GET /api/tables] never raises.  A failure of the database
    arrives as [{"error": ...}] under status 200, and so do table names
    that JSON can carry; the 500 branch of the route is taken only when
    [jsonify] meets a table name it cannot serialise, and the answer
    then carries the text of its [TypeError]. *)
Theorem tables_route_status :
  forall w, exists r w' res,
    routes.tables w = (Ok r, w')
    /\ db.get_tables w = (Ok res, w')
    /\ ((exists m, res = db.Error m /\ r = routes.mk_response (routes.error_ m) 200)
        \/ (exists names, res = db.Tables names
               /\ Forall (fun v => routes.jsonable v = true) names
               /\ r = routes.mk_response (routes.tables_ names) 200)
        \/ (exists names v, res = db.Tables names /\ v ∈ names
               /\ routes.jsonable v = false
               /\ r = routes.mk_response
                        (routes.error_ ("Object of type " ++ routes.type_name v
                                         ++ " is not JSON serializable")) 500)).
Proof.
  intros w. destruct (get_tables_returns w) as (res & w' & Hrun).
  unfold routes.tables, try_except.
  rewrite (bind_ok _ _ _ _ _ Hrun), jsonify_then_ret.
  destruct res as [names|m0].
  - destruct (jsonify_cases (routes.tables_ names)) as [[HF Hj]|(v & Hin & Hv & Hj)];
      cbn [routes.jsonify_tables]; rewrite Hj.
    + eexists. exists w', (db.Tables names). split; [reflexivity|].
      split; [exact Hrun|]. right. left. exists names. auto.
    + eexists. exists w', (db.Tables names). split; [reflexivity|].
      split; [exact Hrun|]. right. right. exists names, v. auto.
  - eexists. exists w', (db.Error m0). split; [reflexivity|].
    split; [exact Hrun|]. left. exists m0. auto.
Qed.

(** *** What the operations return *)

Lemma returns_ret {A} (P : A -> Prop) (a : A) : P a -> returns_only P (ret a).
Proof. intros H w a' w' [= <- _]. exact H. Qed.

Lemma returns_raise {A} (P : A -> Prop) (e : exn) : returns_only P (raise e).
Proof. intros w a w' [=]. Qed.

Lemma returns_bind {A B} (P : B -> Prop) (m : M A) (k : A -> M B) :
  (forall a, returns_only P (k a)) -> returns_only P (bind m k).
Proof.
  intros Hk w b w'. unfold bind.
  destruct (m w) as [[a|e] w1]; [apply Hk | discriminate].
Qed.

Lemma returns_try_finally {A} (P : A -> Prop) (body : M A) (cleanup : M unit) :
  returns_only P body -> returns_only P (try_finally body cleanup).
Proof.
  intros Hb w a w'. unfold try_finally.
  destruct (body w) as [r w1] eqn:E.
  destruct (cleanup w1) as [[u|e] w2]; [|discriminate].
  intros [= -> _]. eapply Hb. exact E.
Qed.

Lemma item_from_row_three_fields (r : gmap string py.value) :
  three_fields_of (db._item_from_row r).
Proof. unfold db._item_from_row. cbv zeta. apply three_fields. Qed.

Lemma mongo_doc_to_item_three_fields (r : gmap string py.value) :
  three_fields_of (db._mongo_doc_to_item r).
Proof. unfold db._mongo_doc_to_item. cbv zeta. apply three_fields. Qed.

Lemma zip_row_then_item (row : option (list py.value)) :
  returns_only three_fields_of (d <- db.zip_row row ;; ret (db._item_from_row d)).
Proof.
  apply returns_bind. intros d. apply returns_ret, item_from_row_three_fields.
Qed.

Lemma row_to_item_three_fields (row : option (list py.value)) :
  returns_only (fun o => forall i, o = Some i -> three_fields_of i) (db.row_to_item row).
Proof.
  unfold db.row_to_item. destruct row as [[|x r]|].
  - apply returns_ret. discriminate.
  - apply returns_bind. intros d. apply returns_ret.
    intros i [= <-]. apply item_from_row_three_fields.
  - apply returns_ret. discriminate.
Qed.

(** Splits a goal [returns_only P m] along the structure of [m]. *)
Ltac returns :=
  repeat lazymatch goal with
  | |- returns_only _ (db.with_pg_conn _) => unfold db.with_pg_conn
  | |- returns_only _ (db.with_mysql_conn _) => unfold db.with_mysql_conn
  | |- returns_only _ (bind _ _) => apply returns_bind; intros
  | |- returns_only _ (try_finally _ _) => apply returns_try_finally
  | |- returns_only _ (ret _) => apply returns_ret
  end.

Lemma items_adapter_three_fields (t : string) :
  returns_only (Forall three_fields_of) (items_adapter t).
Proof.
  unfold items_adapter.
  destruct (String.eqb t "POSTGRESQL"); [|destruct (String.eqb t "MONGODB")].
  - unfold db._pg_get_items. returns.
    apply Forall_map, Forall_true. intros r. apply item_from_row_three_fields.
  - unfold db._mongo_get_items. returns.
    apply Forall_map, Forall_true. intros r. apply mongo_doc_to_item_three_fields.
  - unfold db._mysql_get_items. returns.
    apply Forall_map, Forall_true. intros r. apply item_from_row_three_fields.
Qed.

Lemma item_adapter_three_fields (t : string) (id : Z) :
  returns_only (fun o => forall i, o = Some i -> three_fields_of i) (item_adapter t id).
Proof.
  unfold item_adapter.
  destruct (String.eqb t "POSTGRESQL"); [|destruct (String.eqb t "MONGODB")].
  - unfold db._pg_get_item_by_id. returns. apply row_to_item_three_fields.
  - unfold db._mongo_get_item_by_id. cbv zeta. returns.
    match goal with |- returns_only _ (match ?x with _ => _ end) => destruct x end;
      apply returns_ret; [|discriminate].
    intros i [= <-]. apply mongo_doc_to_item_three_fields.
  - unfold db._mysql_get_item_by_id. returns. apply row_to_item_three_fields.
Qed.

Lemma create_adapter_three_fields (t : string) (name : py.value) :
  returns_only three_fields_of (create_adapter t name).
Proof.
  unfold create_adapter.
  destruct (String.eqb t "POSTGRESQL"); [|destruct (String.eqb t "MONGODB")].
  - unfold db._pg_create_item. returns. apply item_from_row_three_fields.
  - unfold db._mongo_create_item. returns. apply mongo_doc_to_item_three_fields.
  - unfold db._mysql_create_item. returns. apply item_from_row_three_fields.
Qed.

Lemma returns_bind_post {A B} (Q : A -> Prop) (P : B -> Prop) (m : M A) (k : A -> M B) :
  returns_only Q m -> (forall a, Q a -> returns_only P (k a)) ->
  returns_only P (bind m k).
Proof.
  intros Hm Hk w b w'. unfold bind.
  destruct (m w) as [[a|e] w1] eqn:E; [|discriminate].
  apply Hk. eapply Hm. exact E.
Qed.

Lemma get_item_by_id_three_fields (id : Z) (w w' : World) (i : gmap string py.value) :
  db.get_item_by_id id w = (Ok (Some i), w') -> three_fields_of i.
Proof.
  destruct (db.is_configured (config_module w)) eqn:Hc.
  - destruct (configured_kind _ Hc) as (t & Ht & _).
    rewrite (get_item_by_id_configured id w t Hc Ht). intros Hrun.
    exact (item_adapter_three_fields t id w (Some i) w' Hrun i eq_refl).
  - rewrite (get_item_by_id_unconfigured id w Hc). discriminate.
Qed.

(** X6.  Every item the dispatcher hands out has exactly the fields id,
    name and createdAt: each element of the list of [get_items], the
    item of [get_item_by_id] and the item of [create_item], for every
    backend and whatever the driver answers. *)
Theorem dispatcher_items_have_three_fields :
  forall w w',
    (forall l, db.get_items w = (Ok (Some l), w') -> Forall three_fields_of l)
    /\ (forall id i, db.get_item_by_id id w = (Ok (Some i), w') -> three_fields_of i)
    /\ (forall name i, db.create_item name w = (Ok (Some i), w') -> three_fields_of i).
Proof.
  intros w w'.
  split; [|split; [intros id i; apply get_item_by_id_three_fields|]].
  - intros l. destruct (db.is_configured (config_module w)) eqn:Hc.
    + destruct (configured_kind _ Hc) as (t & Ht & _).
      rewrite (get_items_configured w t Hc Ht). intros Hrun.
      refine (returns_bind_post _ (fun o => forall l, o = Some l -> Forall three_fields_of l)
                _ _ (items_adapter_three_fields t) _ w (Some l) w' Hrun l eq_refl).
      intros l0 Hl0. apply returns_ret. now intros l1 [= <-].
    + rewrite (get_items_unconfigured w Hc). discriminate.
  - intros name i. destruct (db.is_configured (config_module w)) eqn:Hc.
    + destruct (configured_kind _ Hc) as (t & Ht & _).
      rewrite (create_item_configured name w t Hc Ht). intros Hrun.
      refine (returns_bind_post _ (fun o => forall i, o = Some i -> three_fields_of i)
                _ _ (create_adapter_three_fields t name) _ w (Some i) w' Hrun i eq_refl).
      intros i0 Hi0. apply returns_ret. now intros i1 [= <-].
    + rewrite (create_item_unconfigured name w Hc). discriminate.
Qed.

Lemma dispatcher_items_have_three_fields_witness :
  let a := mk_doc 1 (py.PyStr "a") py.PyNone in
  let c := mk_doc 3 (py.PyStr "c") py.PyNone in
  let w := sample.start sample.mongo sample.healthy [c; a] in
  let l := map (fun d => db._mongo_doc_to_item (db.doc_dict d)) [a; c] in
  fst (db.get_items w) = Ok (Some l) /\ Forall three_fields_of l.
Proof.
  intros a c w l.
  assert (E : db.get_items w = (Ok (Some l), snd (db.get_items w)))
    by (vm_compute; reflexivity).
  split; [now rewrite E|].
  exact (proj1 (dispatcher_items_have_three_fields w _) l E).
Defined.

(** *** The routes over the dispatcher *)











(** ** The document store, continued *)

Lemma get_mongo_db_run (w : World) :
  no_faults w -> port_ok (config_module w) ->
  exists w',
    db._get_mongo_db w = (Ok tt, w')
    /\ no_faults w'
    /\ mongo_items w' = mongo_items w
    /\ config_module w' = config_module w.
Proof.
  intros Hf Hp. unfold db._get_mongo_db.
  rewrite (bind_ok (get _mongo_db) _ w w (_mongo_db w) eq_refl).
  destruct (_mongo_db w); [exists w; auto|].
  rewrite (bind_ok (get config_module) _ w w (config_module w) eq_refl).
  destruct (port_or_ok (config_module w) 27017 w Hp) as (p & Hport).
  rewrite (bind_ok _ _ _ _ _ Hport). cbv zeta.
  match goal with |- context [db_logger.add_log ?m false] =>
    destruct (add_log_spec m false w) as (w1 & Hlog & _);
    assert (Hw1 : w1 = snd (db_logger.add_log m false w)) by now rewrite Hlog
  end.
  rewrite (bind_ok _ _ _ _ _ Hlog).
  assert (Hf1 : no_faults w1) by (subst w1; exact Hf).
  step Hf1. step Hf1. step Hf1.
  eexists. split; [reflexivity|]. split; [exact Hf1|].
  subst w1. split; reflexivity.
Qed.

(** What a creation does with a healthy driver. *)
Lemma mongo_create_run (name : py.value) (w : World) :
  no_faults w -> port_ok (config_module w) ->
  exists w' now,
    let doc := mk_doc (next_id (mongo_items w)) name (py.PyDatetime now) in
    db._mongo_create_item name w = (Ok (mongo_item doc), w')
    /\ mongo_items w' = (mongo_items w ++ [db.stored doc])%list
    /\ no_faults w'
    /\ config_module w' = config_module w.
Proof.
  intros Hf Hp. unfold db._mongo_create_item.
  destruct (get_mongo_db_run w Hf Hp) as (w1 & Hdb & Hf1 & Hitems & Hcfg).
  rewrite (bind_ok _ _ _ _ _ Hdb).
  step Hf1. step Hf1. step Hf1. step Hf1. step Hf1.
  simpl mongo_items. rewrite Hitems.
  eexists. eexists. cbv zeta. split; [reflexivity|].
  split; [reflexivity|]. split; [exact Hf1 | exact Hcfg].
Qed.

Lemma mongo_get_by_id_run (id : Z) (w : World) :
  no_faults w -> port_ok (config_module w) ->
  exists w',
    db._mongo_get_item_by_id id w
    = (Ok (mongo_item <$> head (filter (fun d => d_id d = id) (mongo_items w))), w')
    /\ mongo_items w' = mongo_items w
    /\ no_faults w'
    /\ config_module w' = config_module w.
Proof.
  intros Hf Hp. unfold db._mongo_get_item_by_id. cbv zeta.
  destruct (get_mongo_db_run w Hf Hp) as (w1 & Hdb & Hf1 & Hitems & Hcfg).
  rewrite (bind_ok _ _ _ _ _ Hdb).
  step Hf1. step Hf1.
  change (mongo_items (set_calls (calls w1 ++ [mongo_find_one_by_id id]) w1))
    with (mongo_items w1).
  rewrite Hitems.
  exists (set_calls (calls w1 ++ [mongo_find_one_by_id id]) w1).
  split; [|split; [exact Hitems|split; [exact Hf1 | exact Hcfg]]].
  destruct (head _); reflexivity.
Qed.


(** The next id exceeds every id of the collection. *)
Lemma next_id_fresh (l : list mongo_doc) (d : mongo_doc) :
  d ∈ l -> d_id d < next_id l.
Proof.
  intros Hd. unfold next_id.
  destruct (db.greatest_by_id l) as [m|] eqn:E.
  - destruct (greatest_by_id_Some _ _ E) as [_ Hmax]. specialize (Hmax d Hd). lia.
  - apply greatest_by_id_None in E. subst l. now apply elem_of_nil in Hd.
Qed.

Lemma filter_id_fresh (l : list mongo_doc) (id : Z) :
  (forall d, d ∈ l -> d_id d < id) -> filter (fun d => d_id d = id) l = [].
Proof.
  intros H. induction l as [|x l IH]; [reflexivity|].
  rewrite filter_cons_False by (specialize (H x ltac:(left)); lia).
  apply IH. intros d Hd. apply H. now right.
Qed.

Lemma mongo_item_lookup (d : mongo_doc) :
  mongo_item d !! "id" = Some (py.PyInt (d_id d))
  /\ mongo_item d !! "name" = Some (d_name d).
Proof.
  split; [apply mongo_item_id|].
  unfold mongo_item, db._mongo_doc_to_item. cbv zeta. rewrite three_fields_name.
  assert (E : py.dict_get (db.doc_dict d) "name" = d_name d).
  { unfold py.dict_get, db.doc_dict, py.dict_of_pairs. simpl.
    rewrite lookup_insert_ne by discriminate. now rewrite lookup_insert_eq. }
  now rewrite E.
Qed.

Lemma mongo_item_createdAt (d : mongo_doc) (t : py.datetime) :
  d_createdAt d = py.PyDatetime t ->
  mongo_item d !! "createdAt" = Some (py.PyStr (py.isoformat t)).
Proof.
  intros H. unfold mongo_item, db._mongo_doc_to_item. cbv zeta.
  rewrite three_fields_createdAt.
  assert (E : py.dict_get (db.doc_dict d) "createdAt" = py.PyDatetime t).
  { unfold py.dict_get, db.doc_dict, py.dict_of_pairs. simpl.
    now rewrite lookup_insert_eq. }
  now rewrite E.
Qed.

Lemma bson_value_not_datetime (v : py.value) :
  py.has_isoformat v = false -> db.bson_value v = v.
Proof. destruct v; simpl; congruence. Qed.

Lemma mongo_ready_dispatch (w : World) :
  mongo_ready w ->
  (forall name, db.create_item name w = (i <- db._mongo_create_item name ;; ret (Some i)) w)
  /\ (forall id, db.get_item_by_id id w = db._mongo_get_item_by_id id w)
  /\ db.get_items w = (l <- db._mongo_get_items ;; ret (Some l)) w.
Proof.
  intros (Ht & Hc & _). split; [|split].
  - intros name. exact (create_item_configured name w "MONGODB" Hc Ht).
  - intros id. exact (get_item_by_id_configured id w "MONGODB" Hc Ht).
  - exact (get_items_configured w "MONGODB" Hc Ht).
Qed.

Lemma mongo_ready_config (w w' : World) :
  mongo_ready w -> no_faults w' -> config_module w' = config_module w -> mongo_ready w'.
Proof. unfold mongo_ready. intros (Ht & Hc & _ & Hp) Hf ->. auto. Qed.

(** X11.  Round trip on the document store: with a healthy driver,
    [create_item] returns an item with the given name under a new id,
    and [get_item_by_id] for that id then returns an item with the same
    id, the same name and a createdAt string. *)
Theorem mongo_create_then_get :
  forall (name : py.value) (w : World),
    mongo_ready w -> py.has_isoformat name = false ->
    exists item w' id,
      db.create_item name w = (Ok (Some item), w')
      /\ item !! "id" = Some (py.PyInt id)
      /\ item !! "name" = Some name
      /\ exists item' w'' s,
           db.get_item_by_id id w' = (Ok (Some item'), w'')
           /\ item' !! "id" = Some (py.PyInt id)
           /\ item' !! "name" = Some name
           /\ item' !! "createdAt" = Some (py.PyStr s).
Proof.
  intros name w Hr Hname.
  destruct (mongo_ready_dispatch w Hr) as (Hcreate & _ & _).
  pose proof Hr as (_ & _ & Hf & Hp).
  destruct (mongo_create_run name w Hf Hp) as (w' & now & Hrun & Hitems & Hf' & Hcfg).
  cbv zeta in Hrun, Hitems.
  set (doc := mk_doc (next_id (mongo_items w)) name (py.PyDatetime now)) in *.
  exists (mongo_item doc), w', (next_id (mongo_items w)).
  rewrite Hcreate, (bind_ok _ _ _ _ _ Hrun).
  destruct (mongo_item_lookup doc) as [Hid Hnm].
  split; [reflexivity|]. split; [exact Hid|]. split; [exact Hnm|].
  pose proof (mongo_ready_config w w' Hr Hf' Hcfg) as Hr'.
  destruct (mongo_ready_dispatch w' Hr') as (_ & Hget & _).
  pose proof Hr' as (_ & _ & _ & Hp').
  destruct (mongo_get_by_id_run (next_id (mongo_items w)) w' Hf' Hp')
    as (w'' & Hrun' & _).
  rewrite Hitems, filter_app, filter_id_fresh in Hrun'
    by (intros d Hd; now apply next_id_fresh).
  rewrite filter_cons_True in Hrun' by reflexivity. simpl in Hrun'.
  eexists. exists w''. eexists.
  rewrite Hget. split; [exact Hrun'|].
  destruct (mongo_item_lookup (db.stored doc)) as [Hid' Hnm'].
  split; [exact Hid'|]. split.
  - rewrite Hnm'. simpl. now rewrite bson_value_not_datetime.
  - apply mongo_item_createdAt. reflexivity.
Qed.

Lemma sample_mongo_ready (docs : list mongo_doc) :
  mongo_ready (sample.start sample.mongo sample.healthy docs).
Proof.
  split; [reflexivity|]. split; [reflexivity|].
  split; [intros n c; reflexivity | left; reflexivity].
Qed.

Lemma mongo_create_then_get_witness :
  let w := sample.start sample.mongo sample.healthy [mk_doc 41 (py.PyStr "old") py.PyNone] in
  exists item w' id,
    db.create_item (py.PyStr "widget") w = (Ok (Some item), w')
    /\ item !! "id" = Some (py.PyInt id)
    /\ exists item' w'',
         db.get_item_by_id id w' = (Ok (Some item'), w'')
         /\ item' !! "name" = Some (py.PyStr "widget").
Proof.
  intros w.
  destruct (mongo_create_then_get (py.PyStr "widget") w (sample_mongo_ready _) eq_refl)
    as (item & w' & id & Hrun & Hid & _ & item' & w'' & s & Hrun' & _ & Hname & _).
  exists item, w', id. split; [exact Hrun|]. split; [exact Hid|].
  exists item', w''. split; [exact Hrun' | exact Hname].
Defined.

(** One creation on a ready world. *)
Lemma mongo_ready_create (name : py.value) (w : World) :
  mongo_ready w ->
  exists w' now,
    let doc := mk_doc (next_id (mongo_items w)) name (py.PyDatetime now) in
    db.create_item name w = (Ok (Some (mongo_item doc)), w')
    /\ mongo_items w' = (mongo_items w ++ [db.stored doc])%list
    /\ mongo_ready w'.
Proof.
  intros Hr. destruct (mongo_ready_dispatch w Hr) as (Hcreate & _ & _).
  pose proof Hr as (_ & _ & Hf & Hp).
  destruct (mongo_create_run name w Hf Hp) as (w' & now & Hrun & Hitems & Hf' & Hcfg).
  exists w', now. cbv zeta in *.
  rewrite Hcreate, (bind_ok _ _ _ _ _ Hrun).
  split; [reflexivity|]. split; [exact Hitems|].
  exact (mongo_ready_config w w' Hr Hf' Hcfg).
Qed.

(** X12.  Ids stay distinct: on a collection whose ids are pairwise
    distinct, any number of successive creations with a healthy driver
    leaves the ids pairwise distinct, keeps the documents that were
    there, and adds one document per creation. *)
Theorem mongo_ids_stay_distinct :
  forall (names : list py.value) (w : World),
    mongo_ready w ->
    NoDup (d_id <$> mongo_items w) ->
    NoDup (d_id <$> mongo_items (after_creates names w))
    /\ mongo_items w `prefix_of` mongo_items (after_creates names w)
    /\ length (mongo_items (after_creates names w))
       = (length (mongo_items w) + length names)%nat.
Proof.
  induction names as [|name names IH]; intros w Hr Hnd; simpl.
  - split; [exact Hnd|]. split; [reflexivity | lia].
  - destruct (mongo_ready_create name w Hr) as (w' & now & Hrun & Hitems & Hr').
    cbv zeta in Hrun, Hitems. rewrite Hrun. simpl snd.
    assert (Hnd' : NoDup (d_id <$> mongo_items w')).
    { rewrite Hitems, fmap_app. simpl.
      apply NoDup_app. split; [exact Hnd|]. split; [|apply NoDup_singleton].
      intros x Hx Hx'. apply list_elem_of_singleton in Hx'. subst x.
      apply list_elem_of_fmap in Hx as (d & Hd & Hin).
      apply next_id_fresh in Hin. lia. }
    destruct (IH w' Hr' Hnd') as (H1 & H2 & H3).
    split; [exact H1|]. split.
    + transitivity (mongo_items w'); [|exact H2].
      rewrite Hitems. now apply prefix_app_r.
    + rewrite H3, Hitems, length_app. simpl. lia.
Qed.

Lemma mongo_ids_stay_distinct_witness :
  let w := sample.start sample.mongo sample.healthy
             [mk_doc 5 (py.PyStr "e") py.PyNone; mk_doc 2 (py.PyStr "b") py.PyNone] in
  let w' := after_creates [py.PyStr "x"; py.PyStr "y"; py.PyStr "z"] w in
  NoDup (d_id <$> mongo_items w') /\ length (mongo_items w') = 5%nat.
Proof.
  intros w w'.
  destruct (mongo_ids_stay_distinct [py.PyStr "x"; py.PyStr "y"; py.PyStr "z"] w
              (sample_mongo_ready _))
    as (H1 & _ & H3).
  - simpl. repeat constructor; rewrite ?elem_of_cons, ?elem_of_nil; intuition discriminate.
  - split; [exact H1 | exact H3].
Defined.






(** ** Connections are given back *)

Lemma acquired_from_app (f : nat -> driver_call -> option exn) (i : nat)
    (cs cs' : list driver_call) :
  acquired_from f i (cs ++ cs')
  = (acquired_from f i cs + acquired_from f (i + length cs) cs')%nat.
Proof.
  revert i. induction cs as [|c cs IH]; intros i; simpl.
  - now rewrite Nat.add_0_r.
  - rewrite IH. replace (S i + length cs)%nat with (i + S (length cs))%nat by lia. lia.
Qed.

Lemma released_app (cs cs' : list driver_call) :
  length (List.filter is_release (cs ++ cs'))
  = (length (List.filter is_release cs) + length (List.filter is_release cs'))%nat.
Proof. now rewrite List.filter_app, length_app. Qed.

Lemma conn_balanced_refl (w : World) : conn_balanced w w.
Proof.
  split; [reflexivity|]. split; [exists []; now rewrite app_nil_r | reflexivity].
Qed.

Lemma conn_balanced_trans (a b c : World) :
  conn_balanced a b -> conn_balanced b c -> conn_balanced a c.
Proof.
  intros (Hf1 & (cs1 & Hc1) & H1) (Hf2 & (cs2 & Hc2) & H2).
  split; [congruence|]. split; [|lia].
  exists (cs1 ++ cs2)%list. now rewrite Hc2, Hc1, app_assoc.
Qed.

(** A step that makes no driver call. *)
Lemma conn_balanced_same (w w' : World) :
  calls w' = calls w -> faults w' = faults w -> conn_balanced w w'.
Proof.
  intros Hc Hf. unfold conn_balanced, acquired, released. rewrite Hc, Hf.
  split; [reflexivity|]. split; [exists []; now rewrite app_nil_r | reflexivity].
Qed.

(** What one driver call adds to the two counts. *)
Lemma driver_counts (c : driver_call) (w : World) :
  let w' := snd (driver c w) in
  faults w' = faults w
  /\ calls w' = (calls w ++ [c])%list
  /\ acquired w'
     = (acquired w
        + (if is_acquire c
           then match fst (driver c w) with Ok _ => 1 | Raise _ => 0 end
           else 0))%nat
  /\ released w' = (released w + (if is_release c then 1 else 0))%nat.
Proof.
  unfold driver, acquired, released.
  destruct (faults w (length (calls w)) c) as [e|] eqn:E; simpl;
    (split; [reflexivity|]; split; [reflexivity|]; split;
     [ rewrite acquired_from_app; simpl; rewrite E;
       destruct (is_acquire c); simpl;
       rewrite ?bool_decide_eq_true_2, ?bool_decide_eq_false_2
         by (first [eexists; reflexivity | intros [? [=]]]);
       simpl; lia
     | rewrite released_app; simpl; destruct (is_release c); simpl; lia ]).
Qed.

Lemma driver_balanced (c : driver_call) :
  is_acquire c = false -> is_release c = false -> preserves conn_balanced (driver c).
Proof.
  intros Ha Hr w. destruct (driver_counts c w) as (Hf & Hc & Hacq & Hrel).
  rewrite Ha in Hacq. rewrite Hr in Hrel.
  split; [exact Hf|]. split; [eauto | lia].
Qed.

Lemma driver_takes (c : driver_call) :
  is_acquire c = true -> is_release c = false -> takes (driver c).
Proof.
  intros Ha Hr w. destruct (driver_counts c w) as (Hf & Hc & Hacq & Hrel).
  rewrite Ha in Hacq. rewrite Hr in Hrel.
  destruct (fst (driver c w));
    (split; [exact Hf|]; split; [eauto | lia]).
Qed.

Lemma driver_gives_back (c : driver_call) (w : World) :
  is_acquire c = false -> is_release c = true ->
  let w' := snd ((driver c ;; ret tt) w) in
  faults w' = faults w
  /\ (exists cs, calls w' = (calls w ++ cs)%list)
  /\ acquired w' = acquired w
  /\ released w' = S (released w).
Proof.
  intros Ha Hr. destruct (driver_counts c w) as (Hf & Hc & Hacq & Hrel).
  rewrite Ha in Hacq. rewrite Hr in Hrel.
  assert (E : snd ((driver c ;; ret tt) w) = snd (driver c w)).
  { unfold bind. destruct (driver c w) as [[n|e] w1]; reflexivity. }
  cbv zeta. rewrite E. split; [exact Hf|]. split; [eauto|]. split; lia.
Qed.

(** A connection taken by [m] is given back by the [finally] clause,
    whether the body returns or raises, and also when the release call
    itself fails. *)
Lemma taken_then_released {A B} (m : M A) (body : M B) (r : driver_call) :
  takes m -> preserves conn_balanced body ->
  is_acquire r = false -> is_release r = true ->
  preserves conn_balanced (m ;; try_finally body (driver r ;; ret tt)).
Proof.
  intros Hm Hb Ha Hr w. specialize (Hm w). unfold bind at 1.
  destruct (m w) as [[a|e] w1]; simpl in Hm; [|exact Hm].
  unfold try_finally. specialize (Hb w1).
  destruct (body w1) as [res w2]. simpl in Hb.
  pose proof (driver_gives_back r w2 Ha Hr) as Hg. cbv zeta in Hg.
  destruct ((driver r ;; ret tt) w2) as [[u|e] w3]; simpl in *;
    destruct Hm as (Hf1 & (cs1 & Hc1) & H1), Hb as (Hf2 & (cs2 & Hc2) & H2),
             Hg as (Hf3 & (cs3 & Hc3) & H3 & H4);
    (split; [congruence|]; split; [|lia]);
    exists (cs1 ++ cs2 ++ cs3)%list; rewrite Hc3, Hc2, Hc1, !app_assoc; reflexivity.
Qed.

Lemma takes_bind {A B} (m : M A) (k : A -> M B) :
  preserves conn_balanced m -> (forall a, takes (k a)) -> takes (bind m k).
Proof.
  intros Hm Hk w. specialize (Hm w). unfold bind.
  destruct (m w) as [[a|e] w1]; simpl in *; [|exact Hm].
  specialize (Hk a w1).
  destruct (k a w1) as [[b|e] w2]; simpl in *.
  - destruct Hm as (Hf1 & (cs1 & Hc1) & H1), Hk as (Hf2 & (cs2 & Hc2) & H2).
    split; [congruence|]. split; [|lia].
    exists (cs1 ++ cs2)%list. now rewrite Hc2, Hc1, app_assoc.
  - eapply conn_balanced_trans; eassumption.
Qed.

Lemma takes_then_ret {A B} (m : M A) (b : B) : takes m -> takes (m ;; ret b).
Proof.
  intros Hm w. specialize (Hm w). unfold bind.
  destruct (m w) as [[a|e] w1]; exact Hm.
Qed.

Lemma add_log_balanced (m : string) (b : bool) :
  preserves conn_balanced (db_logger.add_log m b).
Proof. intros w. apply conn_balanced_same; destruct b; reflexivity. Qed.

Lemma port_or_balanced (c : config.t) (d : Z) : preserves conn_balanced (db.port_or c d).
Proof. intros w. apply conn_balanced_same; unfold db.port_or, lift, ret;
  destruct (py.opt_truthy _); reflexivity. Qed.

Lemma first_column_balanced (rows : list (list py.value)) :
  preserves conn_balanced (db.first_column rows).
Proof.
  induction rows as [|[|x r] rows IH]; simpl.
  - apply preserves_ret, conn_balanced_refl.
  - apply preserves_raise, conn_balanced_refl.
  - apply preserves_bind; [exact conn_balanced_trans | exact IH|].
    intros xs. apply preserves_ret, conn_balanced_refl.
Qed.

Ltac bal_side := first [exact conn_balanced_refl | exact conn_balanced_trans].

(** Splits a goal [preserves conn_balanced m] along the structure of [m]. *)
Ltac balanced :=
  repeat lazymatch goal with
  | |- preserves _ (bind _ _) => apply preserves_bind; [bal_side .. | | intros]
  | |- preserves _ (try_finally _ _) => apply preserves_try_finally; [bal_side .. | | ]
  | |- preserves _ (try_except _ _) =>
      apply preserves_try_except; [bal_side .. | | intros]
  | |- preserves _ (match ?x with _ => _ end) => destruct x
  | |- preserves _ (ret _) => apply preserves_ret; bal_side
  | |- preserves _ (raise _) => apply preserves_raise; bal_side
  | |- preserves _ (lift _) => apply preserves_lift; bal_side
  | |- preserves _ (get _) => apply preserves_get; bal_side
  | |- preserves _ (driver _) => apply driver_balanced; reflexivity
  | |- preserves _ (modify _) =>
      let w := fresh "w" in intros w; apply conn_balanced_same; reflexivity
  | |- preserves _ utcnow =>
      let w := fresh "w" in intros w; apply conn_balanced_same; reflexivity
  | |- preserves _ (db_logger.add_log _ _) => apply add_log_balanced
  | |- preserves _ (db.port_or _ _) => apply port_or_balanced
  | |- preserves _ (db.first_column _) => apply first_column_balanced
  | |- preserves _ (db.with_cursor _) => unfold db.with_cursor
  | |- preserves _ (db.zip_row _) => unfold db.zip_row
  | |- preserves _ (db.row_to_item _) => unfold db.row_to_item
  | |- preserves _ (db.log_ping_ok_once _) => unfold db.log_ping_ok_once
  | |- preserves _ db._get_pg_pool => unfold db._get_pg_pool
  | |- preserves _ db._get_mongo_db => unfold db._get_mongo_db
  end.

(** The pooled connection of [with_pg_conn] goes back to the pool. *)
Lemma with_pg_conn_balanced {A} (body : M A) :
  preserves conn_balanced body -> preserves conn_balanced (db.with_pg_conn body).
Proof.
  intros Hb. unfold db.with_pg_conn.
  apply preserves_bind; [bal_side | balanced | intros _].
  apply taken_then_released; [apply driver_takes; reflexivity | exact Hb | reflexivity..].
Qed.

Lemma mysql_get_connection_takes : takes db._mysql_get_connection.
Proof.
  unfold db._mysql_get_connection.
  apply takes_bind; [balanced | intros c].
  apply takes_bind; [balanced | intros port].
  apply takes_then_ret, driver_takes; reflexivity.
Qed.

(** The connection of [with_mysql_conn] is closed. *)
Lemma with_mysql_conn_balanced {A} (body : M A) :
  preserves conn_balanced body -> preserves conn_balanced (db.with_mysql_conn body).
Proof.
  intros Hb. unfold db.with_mysql_conn.
  apply taken_then_released;
    [exact mysql_get_connection_takes | exact Hb | reflexivity..].
Qed.

(** The relational and document-store operations, one by one. *)
Ltac adapter :=
  repeat first
    [ apply with_pg_conn_balanced
    | apply with_mysql_conn_balanced
    | progress balanced ].

Lemma ensure_items_balanced :
  preserves conn_balanced db._pg_ensure_items
  /\ preserves conn_balanced db._mysql_ensure_items.
Proof. split; [unfold db._pg_ensure_items | unfold db._mysql_ensure_items]; adapter. Qed.

Lemma tables_adapter_balanced (t : string) : preserves conn_balanced (tables_adapter t).
Proof.
  unfold tables_adapter, db._pg_get_tables, db._mysql_get_tables, db._mongo_get_tables.
  adapter.
Qed.

Lemma items_adapter_balanced (t : string) : preserves conn_balanced (items_adapter t).
Proof.
  destruct ensure_items_balanced as [Hpg Hmy].
  unfold items_adapter, db._pg_get_items, db._mysql_get_items, db._mongo_get_items.
  apply preserves_if; [|apply preserves_if];
    (apply preserves_bind; [bal_side | first [exact Hpg | exact Hmy | idtac] | intros]);
    adapter.
Qed.

Lemma item_adapter_balanced (t : string) (id : Z) :
  preserves conn_balanced (item_adapter t id).
Proof.
  destruct ensure_items_balanced as [Hpg Hmy].
  unfold item_adapter, db._pg_get_item_by_id, db._mysql_get_item_by_id,
    db._mongo_get_item_by_id.
  cbv zeta.
  apply preserves_if; [|apply preserves_if];
    (apply preserves_bind; [bal_side | first [exact Hpg | exact Hmy | idtac] | intros]);
    adapter.
Qed.

Lemma create_adapter_balanced (t : string) (name : py.value) :
  preserves conn_balanced (create_adapter t name).
Proof.
  destruct ensure_items_balanced as [Hpg Hmy].
  unfold create_adapter, db._pg_create_item, db._mysql_create_item,
    db._mongo_create_item.
  apply preserves_if; [|apply preserves_if];
    (apply preserves_bind; [bal_side | first [exact Hpg | exact Hmy | idtac] | intros]);
    adapter.
Qed.

Lemma ping_balanced : preserves conn_balanced db.ping.
Proof. unfold db.ping, db.ping_try. adapter. Qed.

Lemma preserves_pointwise {A} (R : World -> World -> Prop) (m m' : M A) (w : World) :
  m w = m' w -> preserves R m' -> R w (snd (m w)).
Proof. intros -> H. apply H. Qed.

Lemma dispatcher_balanced :
  preserves conn_balanced db.get_tables
  /\ preserves conn_balanced db.get_items
  /\ (forall id, preserves conn_balanced (db.get_item_by_id id))
  /\ (forall name, preserves conn_balanced (db.create_item name)).
Proof.
  split; [|split; [|split]].
  - intros w. destruct (db.is_configured (config_module w)) eqn:Hc.
    + destruct (configured_kind _ Hc) as (t & Ht & _).
      apply (preserves_pointwise _ _ _ _ (get_tables_configured w t Hc Ht)).
      pose proof (tables_adapter_balanced t). balanced. assumption.
    + rewrite (get_tables_unconfigured w Hc). apply conn_balanced_refl.
  - intros w. destruct (db.is_configured (config_module w)) eqn:Hc.
    + destruct (configured_kind _ Hc) as (t & Ht & _).
      apply (preserves_pointwise _ _ _ _ (get_items_configured w t Hc Ht)).
      pose proof (items_adapter_balanced t). balanced. assumption.
    + rewrite (get_items_unconfigured w Hc). apply conn_balanced_refl.
  - intros id w. destruct (db.is_configured (config_module w)) eqn:Hc.
    + destruct (configured_kind _ Hc) as (t & Ht & _).
      rewrite (get_item_by_id_configured id w t Hc Ht).
      apply item_adapter_balanced.
    + rewrite (get_item_by_id_unconfigured id w Hc). apply conn_balanced_refl.
  - intros name w. destruct (db.is_configured (config_module w)) eqn:Hc.
    + destruct (configured_kind _ Hc) as (t & Ht & _).
      apply (preserves_pointwise _ _ _ _ (create_item_configured name w t Hc Ht)).
      pose proof (create_adapter_balanced t name). balanced. assumption.
    + rewrite (create_item_unconfigured name w Hc). apply conn_balanced_refl.
Qed.

Lemma gate_balanced (request : app.Request) :
  preserves conn_balanced (app.check_db_before_request request).
Proof.
  pose proof ping_balanced as Hping.
  unfold app.check_db_before_request, app.access_denied_response,
    app.get_access_denied_html, db_logger.get_logs.
  balanced; exact Hping.
Qed.

(** X14.  No connection is leaked.  Over any run of a public operation
    of the dispatcher, of [ping], of the gate or of a route, whatever
    the drivers do, as many connections are given back (to the pool
    with [putconn], or closed) as were handed out (by [getconn] or
    [connect]): the release is called on every exit path, also when the
    statement in between raises. *)
Theorem connections_are_given_back :
  preserves conn_balanced db.get_tables
  /\ preserves conn_balanced db.get_items
  /\ (forall id, preserves conn_balanced (db.get_item_by_id id))
  /\ (forall name, preserves conn_balanced (db.create_item name))
  /\ preserves conn_balanced db.ping
  /\ (forall request, preserves conn_balanced (app.check_db_before_request request))
  /\ preserves conn_balanced routes.tables
  /\ preserves conn_balanced routes.get_items
  /\ (forall id, preserves conn_balanced (routes.get_item_by_id id))
  /\ (forall body, preserves conn_balanced (routes.create_item body))
  /\ (forall w w', conn_balanced w w' -> calls w = [] -> acquired w' = released w').
Proof.
  destruct dispatcher_balanced as (Ht & Hi & Hg & Hc).
  split; [exact Ht|]. split; [exact Hi|]. split; [exact Hg|]. split; [exact Hc|].
  split; [exact ping_balanced|]. split; [exact gate_balanced|].
  split; [unfold routes.tables; balanced; exact Ht|].
  split; [unfold routes.get_items; balanced; exact Hi|].
  split; [intros id; unfold routes.get_item_by_id; balanced; apply Hg|].
  split; [intros body; unfold routes.create_item; balanced; apply Hc|].
  intros w w' (_ & _ & H) Hnil.
  assert (Ha : acquired w = 0%nat) by (unfold acquired; now rewrite Hnil).
  assert (Hr : released w = 0%nat) by (unfold released; now rewrite Hnil).
  lia.
Qed.

(** A failed statement on each relational backend: the connection taken
    is given back. *)
Example a_failed_query_releases :
  let pg := snd (db.get_items (sample.start (sample.cfg (Some "postgresql") (Some "h")
                                               None (Some "d"))
                                 (fun _ c => match c with
                                             | sql_execute _ => Some (Exception "Error" "x")
                                             | _ => None
                                             end) [])) in
  calls pg
  = [pg_SimpleConnectionPool 1 10 (Some "h") 5432 (Some "d") None None;
     pg_getconn; sql_cursor; sql_execute CREATE_TABLE_IF_NOT_EXISTS_items;
     sql_cursor_close; pg_putconn]
  /\ acquired pg = 1%nat /\ released pg = 1%nat.
Proof. vm_compute. repeat split. Qed.

Lemma connections_are_given_back_witness :
  let w := sample.start sample.mysql_explicit
             (fun _ c => match c with
                         | sql_execute _ => Some (Exception "Error" "gone away")
                         | _ => None
                         end) [] in
  acquired (snd (db.get_items w)) = released (snd (db.get_items w)).
Proof.
  intros w.
  apply (proj2 (proj2 (proj2 (proj2 (proj2 (proj2 (proj2 (proj2 (proj2 (proj2
           connections_are_given_back))))))))) w (snd (db.get_items w))).
  - apply (proj1 (proj2 connections_are_given_back) w).
  - reflexivity.
Defined.

(** ** The log buffer under every operation *)

Lemma keeps_log_refl (w : World) : keeps_log w w.
Proof. intros H. exact H. Qed.

Lemma keeps_log_trans (a b c : World) : keeps_log a b -> keeps_log b c -> keeps_log a c.
Proof. unfold keeps_log. auto. Qed.

Lemma keeps_log_same (w w' : World) :
  _logs w' = _logs w -> log_history w' = log_history w -> keeps_log w w'.
Proof. unfold keeps_log, log_is_recent. intros -> ->. auto. Qed.

Lemma add_log_keeps_log (m : string) (b : bool) :
  preserves keeps_log (db_logger.add_log m b).
Proof.
  intros w H. destruct (add_log_spec m b w) as (w' & Hrun & Hlogs & Hh & _).
  rewrite Hrun. simpl. unfold log_is_recent in *.
  rewrite Hlogs, Hh, H, append_trim_most_recent. apply most_recent_app.
Qed.

Lemma driver_keeps_log (c : driver_call) : preserves keeps_log (driver c).
Proof.
  intros w. apply keeps_log_same; unfold driver; destruct (faults w _ c); reflexivity.
Qed.

Lemma port_or_keeps_log (c : config.t) (d : Z) : preserves keeps_log (db.port_or c d).
Proof.
  intros w. apply keeps_log_same; unfold db.port_or, lift, ret;
    destruct (py.opt_truthy _); reflexivity.
Qed.

Lemma first_column_keeps_log (rows : list (list py.value)) :
  preserves keeps_log (db.first_column rows).
Proof.
  induction rows as [|[|x r] rows IH]; simpl.
  - apply preserves_ret, keeps_log_refl.
  - apply preserves_raise, keeps_log_refl.
  - apply preserves_bind; [exact keeps_log_trans | exact IH|].
    intros xs. apply preserves_ret, keeps_log_refl.
Qed.

Ltac log_side := first [exact keeps_log_refl | exact keeps_log_trans].

(** Splits a goal [preserves keeps_log m] along the structure of [m]. *)
Ltac logged :=
  repeat lazymatch goal with
  | |- preserves _ (bind _ _) => apply preserves_bind; [log_side .. | | intros]
  | |- preserves _ (try_finally _ _) => apply preserves_try_finally; [log_side .. | | ]
  | |- preserves _ (try_except _ _) =>
      apply preserves_try_except; [log_side .. | | intros]
  | |- preserves _ (match ?x with _ => _ end) => destruct x
  | |- preserves _ (ret _) => apply preserves_ret; log_side
  | |- preserves _ (raise _) => apply preserves_raise; log_side
  | |- preserves _ (lift _) => apply preserves_lift; log_side
  | |- preserves _ (get _) => apply preserves_get; log_side
  | |- preserves _ (driver _) => apply driver_keeps_log
  | |- preserves _ (modify _) =>
      let w := fresh "w" in intros w; apply keeps_log_same; reflexivity
  | |- preserves _ utcnow =>
      let w := fresh "w" in intros w; apply keeps_log_same; reflexivity
  | |- preserves _ (db_logger.add_log _ _) => apply add_log_keeps_log
  | |- preserves _ (db.port_or _ _) => apply port_or_keeps_log
  | |- preserves _ (db.first_column _) => apply first_column_keeps_log
  | |- preserves _ (db.with_cursor _) => unfold db.with_cursor
  | |- preserves _ (db.with_pg_conn _) => unfold db.with_pg_conn
  | |- preserves _ (db.with_mysql_conn _) => unfold db.with_mysql_conn
  | |- preserves _ db._mysql_get_connection => unfold db._mysql_get_connection
  | |- preserves _ (db.zip_row _) => unfold db.zip_row
  | |- preserves _ (db.row_to_item _) => unfold db.row_to_item
  | |- preserves _ (db.log_ping_ok_once _) => unfold db.log_ping_ok_once
  | |- preserves _ db._get_pg_pool => unfold db._get_pg_pool
  | |- preserves _ db._get_mongo_db => unfold db._get_mongo_db
  | |- preserves _ db._pg_ensure_items => unfold db._pg_ensure_items
  | |- preserves _ db._mysql_ensure_items => unfold db._mysql_ensure_items
  end.

Lemma ping_keeps_log : preserves keeps_log db.ping.
Proof. unfold db.ping, db.ping_try. logged. Qed.

Lemma dispatcher_keeps_log :
  preserves keeps_log db.get_tables
  /\ preserves keeps_log db.get_items
  /\ (forall id, preserves keeps_log (db.get_item_by_id id))
  /\ (forall name, preserves keeps_log (db.create_item name)).
Proof.
  split; [|split; [|split]]; intros;
    unfold db.get_tables, db.get_items, db.get_item_by_id, db.create_item,
      db._pg_get_tables, db._mysql_get_tables, db._mongo_get_tables,
      db._pg_get_items, db._mysql_get_items, db._mongo_get_items,
      db._pg_get_item_by_id, db._mysql_get_item_by_id, db._mongo_get_item_by_id,
      db._pg_create_item, db._mysql_create_item, db._mongo_create_item;
    cbv zeta; logged.
Qed.

Lemma gate_keeps_log (request : app.Request) :
  preserves keeps_log (app.check_db_before_request request).
Proof.
  pose proof ping_keeps_log as Hping.
  unfold app.check_db_before_request, app.access_denied_response,
    app.get_access_denied_html, db_logger.get_logs.
  logged; exact Hping.
Qed.

(** X15.  Whatever the application does, the log buffer is the 100 most
    recent entries of everything that was logged, oldest first: the
    property holds in a fresh process and is kept by [main], by the
    gate, by [ping] and by every operation of the dispatcher and every
    route, whatever the drivers do; so the buffer never holds more than
    100 entries. *)
Theorem log_buffer_is_recent_history :
  (forall w, _logs w = [] -> log_history w = [] -> log_is_recent w)
  /\ (forall w, log_is_recent w -> (length (_logs w) <= 100)%nat)
  /\ preserves keeps_log app.main
  /\ (forall request, preserves keeps_log (app.check_db_before_request request))
  /\ preserves keeps_log db.ping
  /\ preserves keeps_log db.get_tables
  /\ preserves keeps_log db.get_items
  /\ (forall id, preserves keeps_log (db.get_item_by_id id))
  /\ (forall name, preserves keeps_log (db.create_item name))
  /\ preserves keeps_log routes.tables
  /\ preserves keeps_log routes.get_items
  /\ (forall id, preserves keeps_log (routes.get_item_by_id id))
  /\ (forall body, preserves keeps_log (routes.create_item body))
  /\ preserves keeps_log routes.health
  /\ preserves keeps_log routes.config.
Proof.
  destruct dispatcher_keeps_log as (Ht & Hi & Hg & Hc).
  split; [intros w H1 H2; unfold log_is_recent; now rewrite H1, H2|].
  split; [intros w H; rewrite H; apply most_recent_length|].
  split; [unfold app.main; logged|].
  split; [exact gate_keeps_log|]. split; [exact ping_keeps_log|].
  split; [exact Ht|]. split; [exact Hi|]. split; [exact Hg|]. split; [exact Hc|].
  split; [unfold routes.tables; logged; exact Ht|].
  split; [unfold routes.get_items; logged; exact Hi|].
  split; [intros id; unfold routes.get_item_by_id; logged; apply Hg|].
  split; [intros body; unfold routes.create_item; logged; apply Hc|].
  split; [unfold routes.health; logged | unfold routes.config; logged].
Qed.

Lemma log_buffer_is_recent_history_witness :
  let w := sample.start sample.mysql_explicit sample.query_fails [] in
  let w' := snd (app.check_db_before_request (app.mk_request "GET" "/") w) in
  log_is_recent w' /\ (length (_logs w') <= 100)%nat.
Proof.
  intros w w'.
  assert (H : log_is_recent w').
  { apply (proj1 (proj2 (proj2 (proj2 log_buffer_is_recent_history)))
             (app.mk_request "GET" "/") w).
    apply (proj1 log_buffer_is_recent_history w); reflexivity. }
  split; [exact H|].
  exact (proj1 (proj2 log_buffer_is_recent_history) w' H).
Defined.

(** ** What is shown of the configuration *)

Lemma non_empty_length (s : string) : s <> "" -> (0 <? String.length s)%nat = true.
Proof. destruct s; [contradiction | reflexivity]. Qed.

Lemma driver_history (c : driver_call) (w : World) :
  shown_log (snd (driver c w)) = shown_log w.
Proof. unfold driver. destruct (faults w _ c); reflexivity. Qed.

Lemma then_history {A B} (m : M A) (k : M B) :
  (forall w, shown_log (snd (m w)) = shown_log w) ->
  (forall w, shown_log (snd (k w)) = shown_log w) ->
  forall w, shown_log (snd ((m ;; k) w)) = shown_log w.
Proof.
  intros Hm Hk w. unfold bind. specialize (Hm w).
  destruct (m w) as [[a|e] w1]; simpl in *; [rewrite Hk|]; exact Hm.
Qed.

(** The log after "log, then call the driver and set the flag". *)
Lemma connect_history {A} (m : string) (k : M A) (w : World) :
  (forall w0, shown_log (snd (k w0)) = shown_log w0) ->
  shown_log (snd ((db_logger.add_log m false ;; k) w))
  = (let e := mk_entry (py.strftime_ms_Z (clock w (ticks w))) m false in
     (db_logger.append_trim e (_logs w), (log_history w ++ [e])%list)).
Proof.
  intros Hk. destruct (add_log_spec m false w) as (w1 & Hrun & Hl & Hh & _).
  rewrite (bind_ok _ _ _ _ _ Hrun), Hk. unfold shown_log. rewrite Hl, Hh. reflexivity.
Qed.

Ltac quiet :=
  repeat first
    [ apply then_history | apply driver_history | intros ?; reflexivity ].

Lemma port_or_run (c : config.t) (d : Z) (w : World) :
  db.port_or c d w
  = (if py.opt_truthy (config.DB_PORT c) then py_int (py.or_empty (config.DB_PORT c))
     else Ok d, w).
Proof. unfold db.port_or. destruct (py.opt_truthy _); reflexivity. Qed.

(** The entries [_get_pg_pool] logs do not depend on the password. *)
Lemma get_pg_pool_history (w : World) (pw1 pw2 : option string) :
  shown_log (snd (db._get_pg_pool (with_password pw1 w)))
  = shown_log (snd (db._get_pg_pool (with_password pw2 w))).
Proof.
  set (W1 := with_password pw1 w). set (W2 := with_password pw2 w).
  unfold db._get_pg_pool.
  rewrite (bind_ok (get _pg_pool) _ W1 W1 (_pg_pool w) eq_refl).
  rewrite (bind_ok (get _pg_pool) _ W2 W2 (_pg_pool w) eq_refl).
  destruct (_pg_pool w); [reflexivity|].
  rewrite (bind_ok (get config_module) _ W1 W1 (config_module W1) eq_refl).
  rewrite (bind_ok (get config_module) _ W2 W2 (config_module W2) eq_refl).
  pose proof (port_or_run (config_module W1) 5432 W1) as P1.
  pose proof (port_or_run (config_module W2) 5432 W2) as P2.
  change (config.DB_PORT (config_module W1)) with (config.DB_PORT (config_module w)) in P1.
  change (config.DB_PORT (config_module W2)) with (config.DB_PORT (config_module w)) in P2.
  destruct (if py.opt_truthy (config.DB_PORT (config_module w))
            then py_int (py.or_empty (config.DB_PORT (config_module w)))
            else Ok 5432) as [p|e].
  - rewrite (bind_ok _ _ _ _ _ P1), (bind_ok _ _ _ _ _ P2). cbv beta.
    rewrite !connect_history by quiet. reflexivity.
  - rewrite (bind_raise _ _ _ _ _ P1), (bind_raise _ _ _ _ _ P2). reflexivity.
Qed.

(** The entries [_get_mongo_db] logs depend on the password only
    through its being set or not. *)
Lemma get_mongo_db_history (w : World) (pw1 pw2 : option string) :
  shown_log (snd (db._get_mongo_db (with_password pw1 w)))
  = shown_log (snd (db._get_mongo_db (with_password pw2 w))).
Proof.
  set (W1 := with_password pw1 w). set (W2 := with_password pw2 w).
  unfold db._get_mongo_db.
  rewrite (bind_ok (get _mongo_db) _ W1 W1 (_mongo_db w) eq_refl).
  rewrite (bind_ok (get _mongo_db) _ W2 W2 (_mongo_db w) eq_refl).
  destruct (_mongo_db w); [reflexivity|].
  rewrite (bind_ok (get config_module) _ W1 W1 (config_module W1) eq_refl).
  rewrite (bind_ok (get config_module) _ W2 W2 (config_module W2) eq_refl).
  pose proof (port_or_run (config_module W1) 27017 W1) as P1.
  pose proof (port_or_run (config_module W2) 27017 W2) as P2.
  change (config.DB_PORT (config_module W1)) with (config.DB_PORT (config_module w)) in P1.
  change (config.DB_PORT (config_module W2)) with (config.DB_PORT (config_module w)) in P2.
  destruct (if py.opt_truthy (config.DB_PORT (config_module w))
            then py_int (py.or_empty (config.DB_PORT (config_module w)))
            else Ok 27017) as [p|e].
  - rewrite (bind_ok _ _ _ _ _ P1), (bind_ok _ _ _ _ _ P2). cbv beta zeta.
    rewrite !connect_history by quiet. reflexivity.
  - rewrite (bind_raise _ _ _ _ _ P1), (bind_raise _ _ _ _ _ P2). reflexivity.
Qed.

(** X16. The application masks the password and does not log it
    itself. For any two non-empty passwords, with everything else the
    same: the "access denied" page rendered from a given log is the
    same text, [GET /api/config] gives the same body, and the entry
    that [_get_pg_pool] or [_get_mongo_db] writes when it connects is
    the same.  The password does go to the drivers, so it can still
    come back in the text of an exception they raise, which [ping]
    logs: see [password_in_a_driver_error_is_logged]. *)
Theorem password_is_masked_and_not_logged (w : World) (pw1 pw2 : string) :
  pw1 <> "" -> pw2 <> "" ->
  fst (app.get_access_denied_html (with_password (Some pw1) w))
  = fst (app.get_access_denied_html (with_password (Some pw2) w))
  /\ fst (routes.config (with_password (Some pw1) w))
     = fst (routes.config (with_password (Some pw2) w))
  /\ shown_log (snd (db._get_pg_pool (with_password (Some pw1) w)))
     = shown_log (snd (db._get_pg_pool (with_password (Some pw2) w)))
  /\ shown_log (snd (db._get_mongo_db (with_password (Some pw1) w)))
     = shown_log (snd (db._get_mongo_db (with_password (Some pw2) w))).
Proof.
  intros H1 H2.
  pose proof (non_empty_length pw1 H1) as L1.
  pose proof (non_empty_length pw2 H2) as L2.
  assert (Ea : app.get_db_env_for_display (config_module (with_password (Some pw1) w))
               = app.get_db_env_for_display (config_module (with_password (Some pw2) w))).
  { unfold app.get_db_env_for_display, with_password. cbn [config_module config.DB_PASSWORD
      config.PORT config.DB_TYPE config.DB_HOST config.DB_PORT config.DB_NAME config.DB_USER].
    rewrite L1, L2. reflexivity. }
  assert (Er : routes.get_db_env_for_display (config_module (with_password (Some pw1) w))
               = routes.get_db_env_for_display (config_module (with_password (Some pw2) w))).
  { unfold routes.get_db_env_for_display, with_password. cbn [config_module config.DB_PASSWORD
      config.PORT config.DB_TYPE config.DB_HOST config.DB_PORT config.DB_NAME config.DB_USER].
    rewrite L1, L2. reflexivity. }
  split; [|split; [|split]].
  - unfold app.get_access_denied_html.
    rewrite (bind_ok (get config_module) _ _ _ _ eq_refl).
    rewrite (bind_ok (get config_module) _ (with_password (Some pw2) w) _ _ eq_refl).
    cbv beta zeta. rewrite Ea. reflexivity.
  - unfold routes.config.
    rewrite (bind_ok (get config_module) _ _ _ _ eq_refl).
    rewrite (bind_ok (get config_module) _ (with_password (Some pw2) w) _ _ eq_refl).
    cbv beta. rewrite Er. reflexivity.
  - apply get_pg_pool_history.
  - apply get_mongo_db_history.
Qed.

(** What the masking does not cover: a driver that quotes the password
    in its error puts it into the log, and so onto the page. *)
Example password_in_a_driver_error_is_logged :
  let w := sample.start (config.mk 81 (Some "POSTGRESQL") (Some "h") None (Some "d")
                           (Some "u") (Some "hunter2"))
             (fun _ c => match c with
                         | pg_SimpleConnectionPool _ _ _ _ _ _ (Some pw) =>
                             Some (Exception "OperationalError" ("bad password " ++ pw))
                         | _ => None
                         end) [] in
  msg <$> last (_logs (snd (db.ping w))) = Some "Ping failed: bad password hunter2".
Proof. vm_compute. reflexivity. Qed.

Lemma password_is_masked_and_not_logged_witness :
  let w := sample.start sample.pg_by_port sample.healthy [] in
  ("hunter2" <> "" /\ "s3cret" <> "")
  /\ fst (app.get_access_denied_html (with_password (Some "hunter2") w))
     = fst (app.get_access_denied_html (with_password (Some "s3cret") w))
  /\ shown_log (snd (db._get_pg_pool (with_password (Some "hunter2") w)))
     = shown_log (snd (db._get_pg_pool (with_password (Some "s3cret") w))).
Proof.
  intros w.
  assert (H1 : "hunter2" <> "") by discriminate.
  assert (H2 : "s3cret" <> "") by discriminate.
  split; [split; assumption|].
  destruct (password_is_masked_and_not_logged w "hunter2" "s3cret" H1 H2) as (A & _ & B & _).
  split; assumption.
Defined.

(** ** The markup of the diagnostic page *)

Lemma occurrences_app (c : ascii) (s t : string) :
  occurrences c (s ++ t) = (occurrences c s + occurrences c t)%nat.
Proof.
  induction s as [|a s IH]; [reflexivity|].
  change (String a s ++ t) with (String a (s ++ t)).
  cbn [occurrences]. rewrite IH. lia.
Qed.

Lemma escape_char_no_markup (c a : ascii) :
  is_markup c -> occurrences c (py.escape_char a) = 0%nat.
Proof.
  intros [->|[->|[->| ->]]];
    destruct a as [[] [] [] [] [] [] [] []]; vm_compute; reflexivity.
Qed.

Lemma escape_html_no_markup (c : ascii) (s : string) :
  is_markup c -> occurrences c (app.escape_html s) = 0%nat.
Proof.
  intros Hc. unfold app.escape_html.
  induction s as [|a s IH]; [reflexivity|].
  cbn [py.html_escape]. rewrite occurrences_app, IH, escape_char_no_markup by exact Hc.
  reflexivity.
Qed.

Lemma occurrences_join_empty (c : ascii) (l : list string) (n : nat) :
  Forall (fun s => occurrences c s = n) l ->
  occurrences c (app.join "" l) = (n * length l)%nat.
Proof.
  induction 1 as [|x l Hx Hl IH]; [cbn; lia|].
  destruct l as [|y l].
  - cbn [app.join length]. lia.
  - change (app.join "" (x :: y :: l)) with (x ++ "" ++ app.join "" (y :: l)).
    rewrite !occurrences_app, IH, Hx. cbn [occurrences length]. lia.
Qed.

(** A row of the table has its six tags and nothing else that reads
    as markup, whatever the name and the value. *)
Lemma env_row_tags (kv : string * string) :
  occurrences "<" (app.env_row kv) = 6%nat /\ occurrences ">" (app.env_row kv) = 6%nat.
Proof.
  unfold app.env_row. rewrite !occurrences_app.
  rewrite !(escape_html_no_markup "<"), !(escape_html_no_markup ">")
    by (unfold is_markup; tauto).
  split; vm_compute; reflexivity.
Qed.

(** X17. Nothing configured or logged can add a tag to the diagnostic
    page. The page is always produced, leaves the process as it was,
    and whatever the settings and the log entries hold it has exactly
    the 66 opening and 66 closing angle brackets of its fixed layout:
    the values of the table and the text of the log are escaped. *)
Theorem page_markup_is_fixed (w : World) :
  exists page,
    app.get_access_denied_html w = (Ok page, w)
    /\ occurrences "<" page = 66%nat
    /\ occurrences ">" page = 66%nat.
Proof.
  unfold app.get_access_denied_html.
  rewrite (bind_ok (get config_module) _ w w (config_module w) eq_refl).
  cbv beta zeta.
  rewrite (bind_ok db_logger.get_logs _ w w (_logs w) eq_refl).
  eexists; split; [reflexivity|].
  assert (R : forall c, c = "<"%char \/ c = ">"%char ->
            occurrences c (app.join "" (map app.env_row
              (app.get_db_env_for_display (config_module w)))) = 42%nat).
  { intros c Hc.
    rewrite (occurrences_join_empty c _ 6).
    - reflexivity.
    - apply Forall_fmap, Forall_true. intros kv. cbn.
      destruct (env_row_tags kv), Hc as [->| ->]; assumption. }
  rewrite !occurrences_app.
  rewrite !(escape_html_no_markup "<"), !(escape_html_no_markup ">")
    by (unfold is_markup; tauto).
  rewrite !R by tauto.
  split; vm_compute; reflexivity.
Qed.

(** ** From the environment to the backend type *)

Lemma upper_char_idem (a : ascii) : py.upper_char (py.upper_char a) = py.upper_char a.
Proof. destruct a as [[] [] [] [] [] [] [] []]; vm_compute; reflexivity. Qed.

Lemma isspace_upper_char (a : ascii) : py.isspace (py.upper_char a) = py.isspace a.
Proof. destruct a as [[] [] [] [] [] [] [] []]; vm_compute; reflexivity. Qed.

Lemma upper_idem (s : string) : py.upper (py.upper s) = py.upper s.
Proof.
  induction s as [|a s IH]; [reflexivity|].
  cbn [py.upper]. now rewrite upper_char_idem, IH.
Qed.

Lemma lstrip_upper (s : string) : py.lstrip (py.upper s) = py.upper (py.lstrip s).
Proof.
  induction s as [|a s IH]; [reflexivity|].
  cbn [py.upper py.lstrip]. rewrite isspace_upper_char.
  destruct (py.isspace a); [exact IH | reflexivity].
Qed.

Lemma rstrip_upper (s : string) : py.rstrip (py.upper s) = py.upper (py.rstrip s).
Proof.
  induction s as [|a s IH]; [reflexivity|].
  cbn [py.upper py.rstrip]. rewrite IH.
  destruct (py.rstrip s) as [|b r]; cbn [py.upper]; [|reflexivity].
  rewrite isspace_upper_char. destruct (py.isspace a); reflexivity.
Qed.

Lemma strip_upper (s : string) : py.strip (py.upper s) = py.upper (py.strip s).
Proof. unfold py.strip. now rewrite lstrip_upper, rstrip_upper. Qed.

Lemma rstrip_idem (s : string) : py.rstrip (py.rstrip s) = py.rstrip s.
Proof.
  induction s as [|a s IH]; [reflexivity|].
  cbn [py.rstrip]. destruct (py.rstrip s) as [|b r].
  - destruct (py.isspace a) eqn:Ea; [reflexivity|].
    cbn [py.rstrip]. now rewrite Ea.
  - change (py.rstrip (String a (String b r)))
      with (match py.rstrip (String b r) with
            | EmptyString => if py.isspace a then EmptyString else String a EmptyString
            | r0 => String a r0
            end).
    rewrite IH. reflexivity.
Qed.

(** What [lstrip] leaves does not start with white space. *)
Lemma lstrip_head (s : string) :
  py.lstrip s = "" \/ exists a t, py.lstrip s = String a t /\ py.isspace a = false.
Proof.
  induction s as [|a s IH]; [now left|].
  cbn [py.lstrip]. destruct (py.isspace a) eqn:Ea; [exact IH|].
  right. now exists a, s.
Qed.

Lemma rstrip_head (a : ascii) (t : string) :
  py.isspace a = false -> exists r, py.rstrip (String a t) = String a r.
Proof.
  intros Ea. cbn [py.rstrip]. destruct (py.rstrip t) as [|b r].
  - rewrite Ea. now exists "".
  - now exists (String b r).
Qed.

Lemma strip_idem (s : string) : py.strip (py.strip s) = py.strip s.
Proof.
  unfold py.strip. destruct (lstrip_head s) as [E|(a & t & E & Ea)]; rewrite E.
  - reflexivity.
  - destruct (rstrip_head a t Ea) as (r & Er).
    assert (L : py.lstrip (py.rstrip (String a t)) = py.rstrip (String a t)).
    { rewrite Er. cbn [py.lstrip]. now rewrite Ea. }
    rewrite L. apply rstrip_idem.
Qed.

(** Trimming and upper-casing a second time changes nothing. *)
Lemma normal_form_idem (s : string) :
  py.upper (py.strip (py.upper (py.strip s))) = py.upper (py.strip s).
Proof. now rewrite strip_upper, strip_idem, upper_idem. Qed.

Lemma default_or_None (s : string) : default "" (py.or_None s) = s.
Proof. destruct s; reflexivity. Qed.

(** X18. The type of a loaded configuration is decided by trimming and
    upper-casing the environment's [DB_TYPE] once. [config] normalises
    the value at import and [get_db_type] normalises it again at every
    call; the second pass changes nothing, so when the normalised
    environment value is one of the four names it is both what the
    configuration holds and what [get_db_type] returns, and the
    configuration never holds an empty type. *)
Theorem loaded_type_from_environment (environ : gmap string string) (c : config.t) :
  config.load environ = Ok c ->
  let raw := py.upper (py.strip (default "" (environ !! "DB_TYPE"))) in
  normalized_type c = raw
  /\ config.DB_TYPE c <> Some ""
  /\ (raw ∈ db.DB_TYPES -> config.DB_TYPE c = Some raw /\ db.get_db_type c = Some raw).
Proof.
  intros H raw. unfold config.load in H.
  destruct (py_int _) as [port|e]; [|discriminate].
  injection H as <-.
  match goal with |- normalized_type ?c0 = _ /\ _ => set (c := c0) end.
  assert (Ht : config.DB_TYPE c = py.or_None raw).
  { subst c. cbn [config.DB_TYPE]. now rewrite or_empty_default. }
  assert (Hn : normalized_type c = raw).
  { unfold normalized_type. rewrite Ht, default_or_None. apply normal_form_idem. }
  split; [exact Hn|]. rewrite Ht. split.
  - destruct raw; discriminate.
  - intros Hin. split.
    + pose proof (DB_TYPES_non_empty _ Hin) as Hne.
      destruct raw; [contradiction | reflexivity].
    + rewrite <- Hn. apply explicit_taken. rewrite Hn. exact Hin.
Qed.

Lemma loaded_type_from_environment_witness :
  let environ : gmap string string :=
    {[ "DB_TYPE" := "  MySql "; "DB_HOST" := "db.local"; "WEB_PORT" := "8080" ]} in
  exists c,
    config.load environ = Ok c
    /\ config.PORT c = 8080
    /\ config.DB_TYPE c = Some "MYSQL"
    /\ db.get_db_type c = Some "MYSQL".
Proof.
  intros environ.
  set (c := config.mk 8080 (Some "MYSQL") (Some "db.local") None None None None).
  assert (H : config.load environ = Ok c) by (vm_compute; reflexivity).
  exists c. split; [exact H|]. split; [reflexivity|].
  destruct (loaded_type_from_environment environ c H) as (_ & _ & A).
  apply A. vm_compute. apply list_elem_of_In. right. left. reflexivity.
Defined.

(** ** A port that is not a number *)

Section unreadable_port.

Variable w : World.
Variable s : string.
Hypothesis Hport : config.DB_PORT (config_module w) = Some s.
Hypothesis Hs : s <> "".
Hypothesis Hint : py.int_of_str s = None.





Hypothesis Hpool : _pg_pool w = false.
Hypothesis Hclient : _mongo_db w = false.




End unreadable_port.



(** ** The pool and the client are built once *)

Lemma kept_refl flag f (w : World) : kept flag f w w.
Proof. intros H. now split. Qed.

Lemma kept_trans flag f (a b c : World) : kept flag f a b -> kept flag f b c -> kept flag f a c.
Proof.
  intros H1 H2 Ha. destruct (H1 Ha) as [Hb E1]. destruct (H2 Hb) as [Hc E2].
  split; [exact Hc | congruence].
Qed.

Lemma kept_same flag f (w w' : World) :
  flag w' = flag w -> calls w' = calls w -> kept flag f w w'.
Proof. intros Hf Hc H. unfold made. rewrite Hf, Hc. now split. Qed.

Lemma pool_kept_refl (w : World) : pool_kept w w.
Proof. apply kept_refl. Qed.

Lemma pool_kept_trans (a b c : World) : pool_kept a b -> pool_kept b c -> pool_kept a c.
Proof. apply kept_trans. Qed.

Lemma database_kept_refl (w : World) : database_kept w w.
Proof. apply kept_refl. Qed.

Lemma database_kept_trans (a b c : World) :
  database_kept a b -> database_kept b c -> database_kept a c.
Proof. apply kept_trans. Qed.

(** A call of another kind leaves flag and count alone. *)
Lemma driver_kept flag f (c : driver_call) :
  f c = false -> (forall l w, flag (set_calls l w) = flag w) ->
  preserves (kept flag f) (driver c).
Proof.
  intros Hc Hflag w H.
  assert (E : snd (driver c w) = set_calls (calls w ++ [c]) w)
    by (unfold driver; destruct (faults w _ c); reflexivity).
  rewrite E, Hflag. split; [exact H|].
  unfold made. cbn [calls set_calls]. rewrite List.filter_app. cbn [List.filter].
  rewrite Hc, app_nil_r. reflexivity.
Qed.

Lemma driver_pool_kept (c : driver_call) :
  is_pool_creation c = false -> preserves pool_kept (driver c).
Proof. intros H. apply driver_kept; [exact H | reflexivity]. Qed.

Lemma driver_database_kept (c : driver_call) :
  is_client_creation c = false -> preserves database_kept (driver c).
Proof. intros H. apply driver_kept; [exact H | reflexivity]. Qed.

Lemma add_log_stays (m : string) (b : bool) : stays_connected (db_logger.add_log m b).
Proof. split; intros w; apply kept_same; destruct b; reflexivity. Qed.

Lemma port_or_stays (c : config.t) (d : Z) : stays_connected (db.port_or c d).
Proof. split; intros w; rewrite port_or_run; apply kept_refl. Qed.

Lemma first_column_stays (rows : list (list py.value)) :
  stays_connected (db.first_column rows).
Proof.
  split; induction rows as [|[|x r] rows IH]; simpl;
    try (intros w; apply kept_refl);
    (apply preserves_bind;
     [first [exact pool_kept_trans | exact database_kept_trans] | exact IH |
      intros xs w; apply kept_refl]).
Qed.

Ltac kept_side :=
  first [ exact pool_kept_refl | exact pool_kept_trans
        | exact database_kept_refl | exact database_kept_trans
        | exact (kept_refl _ _) | exact (kept_trans _ _) ].

(** One step along the structure of [m] in a goal [preserves R m],
    [R] being [kept flag f] for some [flag] and [f]. *)
Ltac kept_step :=
  lazymatch goal with
  | |- preserves _ (bind _ _) => apply preserves_bind; [kept_side .. | | intros]
  | |- preserves _ (try_finally _ _) => apply preserves_try_finally; [kept_side .. | | ]
  | |- preserves _ (try_except _ _) =>
      apply preserves_try_except; [kept_side .. | | intros]
  | |- preserves _ (match ?x with _ => _ end) => destruct x
  | |- preserves _ (ret _) => apply preserves_ret; kept_side
  | |- preserves _ (raise _) => apply preserves_raise; kept_side
  | |- preserves _ (lift _) => apply preserves_lift; kept_side
  | |- preserves _ (get _) => apply preserves_get; kept_side
  | |- preserves _ (driver _) =>
      first [apply driver_pool_kept | apply driver_database_kept | apply driver_kept];
      reflexivity
  | |- preserves _ (modify _) =>
      let w := fresh "w" in let H := fresh "H" in
      intros w H; split; [first [reflexivity | exact H] | reflexivity]
  | |- preserves _ utcnow =>
      let w := fresh "w" in intros w; apply kept_same; reflexivity
  | |- preserves _ (db_logger.add_log _ _) => apply add_log_stays
  | |- preserves _ (db.port_or _ _) => apply port_or_stays
  | |- preserves _ (db.first_column _) => apply first_column_stays
  | |- preserves _ (db.with_cursor _) => unfold db.with_cursor
  | |- preserves _ (db.zip_row _) => unfold db.zip_row
  | |- preserves _ (db.row_to_item _) => unfold db.row_to_item
  | |- preserves _ (db.log_ping_ok_once _) => unfold db.log_ping_ok_once
  | |- preserves _ (db.with_pg_conn _) => unfold db.with_pg_conn
  | |- preserves _ (db.with_mysql_conn _) => unfold db.with_mysql_conn
  | |- preserves _ db._mysql_get_connection => unfold db._mysql_get_connection
  | |- preserves _ db._pg_ensure_items => unfold db._pg_ensure_items
  | |- preserves _ db._mysql_ensure_items => unfold db._mysql_ensure_items
  end.












(** While [_mongo_client[DB_NAME]] fails, the client of the previous
    attempt is in [_mongo_client], the handle [_mongo_db] stays unset,
    and every further ping builds a client again. *)
Example client_without_database_is_rebuilt :
  let w := sample.start sample.mongo
             (fun _ c => match c with
                         | mongo_get_database _ => Some (Exception "InvalidName" "bad name")
                         | _ => None
                         end) [] in
  let w3 := snd (db.ping (snd (db.ping (snd (db.ping w))))) in
  _mongo_client w3 = true /\ _mongo_db w3 = false /\ made is_client_creation w3 = 3%nat.
Proof. vm_compute. repeat split. Qed.


(** ** No table, no query *)

Lemma stops_short_bind_l {A B} (m : M A) (k : A -> M B) (w : World) :
  stops_short m w -> stops_short (bind m k) w.
Proof.
  intros (e & w' & H & Hn). exists e, w'. split; [now apply bind_raise | exact Hn].
Qed.

Lemma stops_short_intro {A} (m : M A) (w : World) :
  raises m w -> preserves items_untouched m -> stops_short m w.
Proof.
  intros (e & w' & H) Hm. exists e, w'. split; [exact H|].
  specialize (Hm w eq_refl). rewrite H in Hm. apply Hm.
Qed.

Lemma add_log_untouched (m : string) (b : bool) :
  preserves items_untouched (db_logger.add_log m b).
Proof. intros w. apply kept_same; destruct b; reflexivity. Qed.

Lemma port_or_untouched (c : config.t) (d : Z) :
  preserves items_untouched (db.port_or c d).
Proof. intros w. rewrite port_or_run. apply kept_refl. Qed.

Lemma connect_untouched :
  preserves items_untouched db._get_pg_pool
  /\ preserves items_untouched db._mysql_get_connection.
Proof.
  split; [unfold db._get_pg_pool | unfold db._mysql_get_connection];
    repeat first [apply add_log_untouched | apply port_or_untouched | kept_step].
Qed.

Lemma ensure_items_untouched :
  preserves items_untouched db._pg_ensure_items
  /\ preserves items_untouched db._mysql_ensure_items.
Proof.
  destruct connect_untouched as [Hpg Hmy].
  split; [unfold db._pg_ensure_items, db.with_pg_conn
         | unfold db._mysql_ensure_items, db.with_mysql_conn];
    repeat first [exact Hpg | exact Hmy | kept_step].
Qed.

(** When the table cannot be created, making sure of it fails. *)
Lemma ensure_items_raises (w : World) :
  (forall n, is_Some (faults w n (sql_execute CREATE_TABLE_IF_NOT_EXISTS_items))) ->
  raises db._pg_ensure_items w /\ raises db._mysql_ensure_items w.
Proof.
  intros H. split.
  - unfold db._pg_ensure_items, db.with_pg_conn.
    apply raises_bind; [auto with frame|]. intros ? w1 H1.
    apply raises_bind; [auto with frame|]. intros ? w2 H2.
    apply raises_try_finally, raises_bind_l, with_cursor_raises.
    unfold same_faults in *. now rewrite H2, H1.
  - unfold db._mysql_ensure_items, db.with_mysql_conn.
    apply raises_bind; [auto with frame|]. intros ? w1 H1.
    apply raises_try_finally, raises_bind_l, with_cursor_raises.
    unfold same_faults in *. now rewrite H1.
Qed.

Lemma relational_adapters_stop_short (w : World) (t : string) :
  t ∈ db.DB_TYPES -> t <> "MONGODB" ->
  (forall n, is_Some (faults w n (sql_execute CREATE_TABLE_IF_NOT_EXISTS_items))) ->
  stops_short (items_adapter t) w
  /\ (forall id, stops_short (item_adapter t id) w)
  /\ (forall name, stops_short (create_adapter t name) w).
Proof.
  intros Hk Hm H.
  destruct (ensure_items_raises w H) as [Rpg Rmy].
  destruct ensure_items_untouched as [Upg Umy].
  pose proof (stops_short_intro _ w Rpg Upg) as Spg.
  pose proof (stops_short_intro _ w Rmy Umy) as Smy.
  apply kind_cases in Hk as [->|[->|[->| ->]]]; try contradiction;
    (split; [|split; [intros id | intros name]]);
    apply stops_short_bind_l; assumption.
Qed.

(** X21. No table, no query. On a relational backend every item
    operation first makes sure the [items] table exists; when that
    statement fails each time it is sent, listing, fetching and
    creating all end with an exception before any statement that reads
    or writes the table has gone to the server, and the listing route
    answers 500. *)
Theorem no_table_no_query (w : World) (t : string) :
  db.is_configured (config_module w) = true ->
  db.get_db_type (config_module w) = Some t ->
  t <> "MONGODB" ->
  (forall n, is_Some (faults w n (sql_execute CREATE_TABLE_IF_NOT_EXISTS_items))) ->
  stops_short db.get_items w
  /\ (forall id, stops_short (db.get_item_by_id id) w)
  /\ (forall name, stops_short (db.create_item name) w)
  /\ (exists r, fst (routes.get_items w) = Ok r /\ routes.status r = 500).
Proof.
  intros Hc Ht Hm H.
  pose proof (get_db_type_kind _ _ Ht) as Hk.
  destruct (relational_adapters_stop_short w t Hk Hm H) as (Hi & Hg & Hn).
  assert (Hitems : stops_short db.get_items w).
  { unfold stops_short. rewrite (get_items_configured w t Hc Ht).
    apply stops_short_bind_l, Hi. }
  split; [exact Hitems|]. split; [|split].
  - intros id. unfold stops_short. rewrite (get_item_by_id_configured id w t Hc Ht).
    apply Hg.
  - intros name. unfold stops_short. rewrite (create_item_configured name w t Hc Ht).
    apply stops_short_bind_l, Hn.
  - destruct Hitems as (e & w' & E & _).
    unfold routes.get_items, try_except. rewrite (bind_raise _ _ _ _ _ E).
    eexists. split; reflexivity.
Qed.

Lemma no_table_no_query_witness :
  let w := sample.start sample.mysql_explicit
             (fun _ c => match c with
                         | sql_execute CREATE_TABLE_IF_NOT_EXISTS_items =>
                             Some (Exception "OperationalError" "CREATE command denied")
                         | _ => None
                         end) [] in
  stops_short db.get_items w
  /\ (exists r, fst (routes.get_items w) = Ok r /\ routes.status r = 500).
Proof.
  intros w.
  assert (Hc : db.is_configured (config_module w) = true) by (vm_compute; reflexivity).
  assert (Ht : db.get_db_type (config_module w) = Some "MYSQL") by (vm_compute; reflexivity).
  assert (Hm : "MYSQL" <> "MONGODB") by discriminate.
  assert (H : forall n, is_Some (faults w n (sql_execute CREATE_TABLE_IF_NOT_EXISTS_items)))
    by (intros n; eexists; reflexivity).
  destruct (no_table_no_query w "MYSQL" Hc Ht Hm H) as (A & _ & _ & B).
  split; assumption.
Defined.

(** ** The steady state *)

Lemma silent_refl (t : string) (w : World) : silent t w w.
Proof. intros H. now repeat split. Qed.

Lemma silent_trans (t : string) (a b c : World) :
  silent t a b -> silent t b c -> silent t a c.
Proof.
  intros H1 H2 Ha. destruct (H1 Ha) as (Hb & E1 & C1).
  destruct (H2 Hb) as (Hc & E2 & C2).
  split; [exact Hc | split; congruence].
Qed.

Lemma silent_same (t : string) (w w' : World) :
  _ping_ok_logged w' = _ping_ok_logged w -> _pg_pool w' = _pg_pool w ->
  _mongo_db w' = _mongo_db w -> shown_log w' = shown_log w ->
  config_module w' = config_module w ->
  silent t w w'.
Proof.
  intros H1 H2 H3 H4 H5 H. unfold steady. rewrite H1, H2, H3. now repeat split.
Qed.

Lemma driver_silent (t : string) (c : driver_call) : preserves (silent t) (driver c).
Proof.
  intros w. apply silent_same; unfold driver; destruct (faults w _ c); reflexivity.
Qed.

Lemma port_or_silent (t : string) (c : config.t) (d : Z) :
  preserves (silent t) (db.port_or c d).
Proof. intros w. rewrite port_or_run. apply silent_refl. Qed.

(** With the pool at hand nothing is logged on the way to it. *)
Lemma get_pg_pool_silent : preserves (silent "POSTGRESQL") db._get_pg_pool.
Proof.
  intros w H. assert (Hp : _pg_pool w = true).
  { unfold steady in H. cbn in H. destruct (_pg_pool w); [reflexivity|].
    now rewrite andb_false_r in H. }
  unfold db._get_pg_pool. rewrite (bind_ok (get _pg_pool) _ w w _ eq_refl), Hp.
  now repeat split.
Qed.

Lemma get_mongo_db_silent : preserves (silent "MONGODB") db._get_mongo_db.
Proof.
  intros w H. assert (Hp : _mongo_db w = true).
  { unfold steady in H. cbn in H. destruct (_mongo_db w); [reflexivity|].
    now rewrite andb_false_r in H. }
  unfold db._get_mongo_db. rewrite (bind_ok (get _mongo_db) _ w w _ eq_refl), Hp.
  now repeat split.
Qed.

(** With the success on record it is not logged again. *)
Lemma log_ping_ok_once_silent (t m : string) :
  preserves (silent t) (db.log_ping_ok_once m).
Proof.
  intros w H. assert (Hl : _ping_ok_logged w = true).
  { unfold steady in H. destruct (_ping_ok_logged w); [reflexivity | discriminate]. }
  unfold db.log_ping_ok_once.
  rewrite (bind_ok (get _ping_ok_logged) _ w w _ eq_refl), Hl. now repeat split.
Qed.

(** Splits a goal [preserves (silent t) m] along the structure of [m]. *)
Ltac hushed :=
  repeat lazymatch goal with
  | |- preserves _ (bind _ _) =>
      apply preserves_bind; [exact (silent_trans _) | | intros]
  | |- preserves _ (try_finally _ _) =>
      apply preserves_try_finally; [exact (silent_trans _) | | ]
  | |- preserves _ (ret _) => apply preserves_ret; exact (silent_refl _)
  | |- preserves _ (get _) => apply preserves_get; exact (silent_refl _)
  | |- preserves _ (driver _) => apply driver_silent
  | |- preserves _ (db.port_or _ _) => apply port_or_silent
  | |- preserves _ (db.log_ping_ok_once _) => apply log_ping_ok_once_silent
  | |- preserves _ db._get_pg_pool => exact get_pg_pool_silent
  | |- preserves _ db._get_mongo_db => exact get_mongo_db_silent
  | |- preserves _ (db.with_cursor _) => unfold db.with_cursor
  | |- preserves _ (db.with_pg_conn _) => unfold db.with_pg_conn
  | |- preserves _ (db.with_mysql_conn _) => unfold db.with_mysql_conn
  | |- preserves _ db._mysql_get_connection => unfold db._mysql_get_connection
  end.

Lemma ping_try_silent (t : string) :
  t ∈ db.DB_TYPES -> preserves (silent t) (db.ping_try (Some t)).
Proof.
  intros Hk. apply kind_cases in Hk as [->|[->|[->| ->]]];
    unfold db.ping_try; simpl py.eq_str; simpl py.in_strs; cbv iota; hushed.
Qed.

(** A ping that succeeds from the steady state leaves the log alone. *)
Lemma ping_true_silent (w w' : World) (t : string) :
  db.is_configured (config_module w) = true ->
  db.get_db_type (config_module w) = Some t ->
  steady t w = true ->
  db.ping w = (Ok true, w') ->
  steady t w' = true /\ shown_log w' = shown_log w /\ config_module w' = config_module w.
Proof.
  intros Hc Ht Hs Hping.
  pose proof (ping_try_silent t (get_db_type_kind _ _ Ht) w Hs) as Hq.
  rewrite (ping_configured w Hc), Ht in Hping. unfold try_except in Hping.
  destruct (db.ping_try (Some t) w) as [[b|e] w1].
  - injection Hping as _ <-. exact Hq.
  - destruct (ping_handler e w1) as (w2 & entry & Hrun & _).
    rewrite Hrun in Hping. discriminate.
Qed.

(** X22. A healthy steady state is silent. Once the success of the
    ping is on record and the pool or client of the backend exists, a
    ping that succeeds appends nothing to the log and keeps that state,
    whatever else the drivers do; so every request the gate lets
    through leaves the log as it was, and any number of them does. *)
Theorem steady_state_is_silent (w : World) (t : string) :
  db.is_configured (config_module w) = true ->
  db.get_db_type (config_module w) = Some t ->
  steady t w = true ->
  (forall w', db.ping w = (Ok true, w') ->
     steady t w' = true /\ shown_log w' = shown_log w
     /\ config_module w' = config_module w)
  /\ (forall request w',
        app.check_db_before_request request w = (Ok None, w') ->
        steady t w' = true /\ shown_log w' = shown_log w
        /\ config_module w' = config_module w).
Proof.
  intros Hc Ht Hs. split.
  - intros w' Hping. exact (ping_true_silent w w' t Hc Ht Hs Hping).
  - intros request w' Hgate.
    destruct (py.in_strs (Some (app.path request)) ["/ok"; "/gateway-timeout"]) eqn:Hp.
    + rewrite (gate_probe request w Hp) in Hgate. injection Hgate as <-.
      now repeat split.
    + destruct (ping_returns w) as (alive & w1 & Hping).
      rewrite (gate_configured request w w1 alive Hp Hc Hping) in Hgate.
      destruct alive.
      * injection Hgate as <-. exact (ping_true_silent w w1 t Hc Ht Hs Hping).
      * destruct (deny_spec "Access denied: DB ping failed" w1)
          as (html & entry & w2 & Hrun & _).
        rewrite Hrun in Hgate. discriminate.
Qed.

Lemma steady_state_is_silent_witness :
  let w := snd (db.ping (sample.start sample.pg_by_port sample.healthy [])) in
  let w' := snd (db.ping w) in
  length (log_history w) = 2%nat
  /\ steady "POSTGRESQL" w' = true
  /\ shown_log w' = shown_log w.
Proof.
  intros w w'.
  assert (Hc : db.is_configured (config_module w) = true) by (vm_compute; reflexivity).
  assert (Ht : db.get_db_type (config_module w) = Some "POSTGRESQL")
    by (vm_compute; reflexivity).
  assert (Hs : steady "POSTGRESQL" w = true) by (vm_compute; reflexivity).
  assert (Hp : db.ping w = (Ok true, w')) by (vm_compute; reflexivity).
  split; [vm_compute; reflexivity|].
  destruct (proj1 (steady_state_is_silent w "POSTGRESQL" Hc Ht Hs) w' Hp) as (A & B & _).
  split; assumption.
Defined.
